(** * sbomplay: a shallow embedding of the batch fetcher and the SBOM query engine

    The development follows the Python sources:
    - [utils/database.py]        -> [Module DatabaseManager]
    - [utils/sbom_processor.py]  -> [Module SBOMProcessor]
    - [utils/github_client.py]   -> [Module GitHubClient]
    - [app.py]                   -> [Module App]

    Python integers are [Z], strings are [string] (bytes), dictionaries used
    as maps are [gmap], JSON documents are the inductive [Json].  Code that
    performs I/O is written in a state-and-exception monad over [World]; the
    remote forge is an oracle inside the world.  What the model leaves to
    the Python runtime, to SQLite and to the file system are the fields of
    the class [Runtime]. *)

From Stdlib Require Import ZArith List String Ascii Lia QArith Bool DecimalString.
From Stdlib Require Import Sorted Permutation.
From stdpp Require Import gmap strings.
From Equations Require Import Equations.
Import ListNotations.
Set Warnings "-register-all".
Open Scope Z_scope.
Open Scope string_scope.

(** ** Results of fallible code *)

(** The exception classes the sources raise or catch. *)
Inductive PyExn : Type :=
| RequestException (msg : string)   (* requests.exceptions.RequestException *)
| JSONDecodeError (msg : string)    (* response.json() on a malformed body *)
| ValueError (msg : string)         (* int() on a non-numeric string *)
| AttributeError (msg : string)     (* .get on a value that is not a dict *)
| TypeError (msg : string)          (* iterating or subscripting the wrong type *)
| KeyError (msg : string)           (* d[k] on a missing key *)
| FileNotFoundError (msg : string)  (* open() on a missing file *)
| OSError (msg : string)            (* open() refused for another reason *)
| OperationalError (msg : string)   (* sqlite3.OperationalError *)
| Exception (msg : string).         (* raise Exception(...) *)

(** [str(e)] *)
Definition exn_str (e : PyExn) : string :=
  match e with
  | RequestException m | JSONDecodeError m | ValueError m | AttributeError m
  | TypeError m | KeyError m | FileNotFoundError m | OSError m
  | OperationalError m | Exception m => m
  end.

Inductive Result (A : Type) : Type :=
| Ok (a : A)
| Raised (e : PyExn).
Arguments Ok {A} a.
Arguments Raised {A} e.

Definition rbind {A B} (r : Result A) (f : A -> Result B) : Result B :=
  match r with Ok a => f a | Raised e => Raised e end.

(** Evaluate [f] on every element, left to right; the first exception wins. *)
Fixpoint rmap {A B} (f : A -> Result B) (l : list A) : Result (list B) :=
  match l with
  | [] => Ok []
  | x :: t => rbind (f x) (fun y => rbind (rmap f t) (fun ys => Ok (y :: ys)))
  end.

(** ** JSON documents *)

(** Numbers are integers: SPDX documents carry identifiers, names and
    versions as strings, and no modelled operation computes with a fraction. *)
Inductive Json : Type :=
| JNull
| JBool (b : bool)
| JNum (n : Z)
| JStr (s : string)
| JArr (items : list Json)
| JObj (members : list (string * Json)).

Fixpoint assoc_get (k : string) (m : list (string * Json)) : option Json :=
  match m with
  | [] => None
  | (k', v) :: t => if String.eqb k k' then Some v else assoc_get k t
  end.

(** Member [k] of an object; nothing on any other value. *)
Definition json_member (k : string) (j : Json) : option Json :=
  match j with JObj m => assoc_get k m | _ => None end.

(** The path [$.k1.k2...] *)
Fixpoint json_path (keys : list string) (j : Json) : option Json :=
  match keys with
  | [] => Some j
  | k :: ks => match json_member k j with
               | Some x => json_path ks x
               | None => None
               end
  end.

(** [str(n)] for a Python [int], also SQLite's text of an INTEGER. *)
Definition Z_to_text (z : Z) : string := NilZero.string_of_int (Z.to_int z).

(** ** The runtime underneath the repository's code *)

Class Runtime : Type := {
  (** Python's [int(s)] on a string; [None] stands for [ValueError]. *)
  py_int : string -> option Z;
  (** Python's [repr] of a list or a dict. *)
  py_repr : Json -> string;
  (** SQLite's JSON parser on a TEXT value; [None] stands for the error
      "malformed JSON". *)
  sqlite_json_parse : string -> option Json;
  (** SQLite's minified text of a JSON array or object. *)
  sqlite_json_text : Json -> string;
  (** [open(path, 'w')] when the files written so far are [files]: the
      exception it raises, or [None] when the file is opened.  Which paths
      can be written depends on the directories of the file system, which
      are not part of the model. *)
  py_open_error : gmap string Json -> string -> option PyExn
}.

(** ** utils/database.py *)

Module DatabaseManager.

(** Table [sbom]: id INTEGER PRIMARY KEY AUTOINCREMENT, source_repo TEXT
    UNIQUE, json_content TEXT, created_at TIMESTAMP.  [json_content] holds
    the document whose [json.dumps] text the column stores. *)
Record SbomRow : Type := {
  sbom_id : Z;
  source_repo : string;
  json_content : Json;
  sbom_created_at : Z
}.

(** Table [analysis_sessions]. *)
Record SessionRow : Type := {
  id : Z;
  org_name : string;
  total_repos : Z;
  processed_repos : Z;
  status : string;
  created_at : Z;
  completed_at : option Z
}.

(** Rows are kept in rowid order; the [_seq] fields are the AUTOINCREMENT
    counters of table [sqlite_sequence]. *)
Record Database : Type := {
  sbom : list SbomRow;
  sbom_seq : Z;
  analysis_sessions : list SessionRow;
  analysis_sessions_seq : Z
}.

(** [init_database] on a fresh file. *)
Definition init_database : Database :=
  {| sbom := []; sbom_seq := 0; analysis_sessions := []; analysis_sessions_seq := 0 |}.

(** AUTOINCREMENT: one more than the largest rowid ever used. *)
Definition next_rowid (seq : Z) (ids : list Z) : Z :=
  1 + fold_right Z.max seq ids.

(** [INSERT OR REPLACE INTO sbom (source_repo, json_content) VALUES (?, ?)]:
    the row that conflicts on the UNIQUE column is deleted, then the new
    row is inserted under a fresh rowid.  [ts] is CURRENT_TIMESTAMP. *)
Definition store_sbom (repo : string) (content : Json) (ts : Z) (d : Database)
  : bool * Database :=
  let kept := List.filter (fun r => negb (String.eqb (source_repo r) repo)) (sbom d) in
  let rid := next_rowid (sbom_seq d) (map sbom_id (sbom d)) in
  (true,
   {| sbom := kept ++ [ {| sbom_id := rid; source_repo := repo;
                           json_content := content; sbom_created_at := ts |} ];
      sbom_seq := rid;
      analysis_sessions := analysis_sessions d;
      analysis_sessions_seq := analysis_sessions_seq d |}).

(** [SELECT source_repo, json_content FROM sbom] *)
Definition get_all_sboms (d : Database) : list (string * Json) :=
  map (fun r => (source_repo r, json_content r)) (sbom d).

(** [SELECT COUNT( * ) FROM sbom] *)
Definition get_sbom_count (d : Database) : Z :=
  Z.of_nat (length (sbom d)).

(** [INSERT INTO analysis_sessions (org_name, total_repos, processed_repos)
    VALUES (?, ?, 0)]; [status] takes its default ['pending'], [created_at]
    the current timestamp, [completed_at] is NULL.  Returns [lastrowid]. *)
Definition create_analysis_session (org : string) (total : Z) (ts : Z) (d : Database)
  : Z * Database :=
  let rid := next_rowid (analysis_sessions_seq d) (map id (analysis_sessions d)) in
  (rid,
   {| sbom := sbom d;
      sbom_seq := sbom_seq d;
      analysis_sessions :=
        analysis_sessions d ++
        [ {| id := rid; org_name := org; total_repos := total; processed_repos := 0;
             status := "pending"; created_at := ts; completed_at := None |} ];
      analysis_sessions_seq := rid |}).

(** The two UPDATE statements, applied to one row. *)
Definition update_row (session_id processed : Z) (st : string) (ts : Z) (r : SessionRow)
  : SessionRow :=
  if Z.eqb (id r) session_id then
    if String.eqb st "completed" then
      {| id := id r; org_name := org_name r; total_repos := total_repos r;
         processed_repos := processed; status := st;
         created_at := created_at r; completed_at := Some ts |}
    else
      {| id := id r; org_name := org_name r; total_repos := total_repos r;
         processed_repos := processed; status := st;
         created_at := created_at r; completed_at := completed_at r |}
  else r.

(** [update_analysis_session(session_id, processed_repos, status)] *)
Definition update_analysis_session (session_id processed : Z) (st : string) (ts : Z)
  (d : Database) : Database :=
  {| sbom := sbom d;
     sbom_seq := sbom_seq d;
     analysis_sessions := map (update_row session_id processed st ts) (analysis_sessions d);
     analysis_sessions_seq := analysis_sessions_seq d |}.

(** [SELECT ... FROM analysis_sessions WHERE id = ?] (first row) *)
Definition get_session (session_id : Z) (d : Database) : option SessionRow :=
  find (fun r => Z.eqb (id r) session_id) (analysis_sessions d).

End DatabaseManager.

(** ** utils/sbom_processor.py *)

Module SBOMProcessor.
Import DatabaseManager.

(** The values SQLite hands back to Python: NULL, INTEGER, TEXT. *)
Inductive SqlVal : Type :=
| SNull
| SInt (z : Z)
| SText (s : string).

(** Equality as GROUP BY and COUNT(DISTINCT ...) see it. *)
Definition sql_eqb (a b : SqlVal) : bool :=
  match a, b with
  | SNull, SNull => true
  | SInt x, SInt y => Z.eqb x y
  | SText s, SText t => String.eqb s t
  | _, _ => false
  end.

Definition is_null (v : SqlVal) : bool :=
  match v with SNull => true | _ => false end.

(** Column [value] of a [json_each] row: a primitive element is an SQL
    value; an array or object element is its JSON text, which carries the
    JSON subtype, so a JSON function applied to it reads the element back. *)
Inductive EachValue : Type :=
| EPrim (v : SqlVal)
| EJson (j : Json).

(** *** LIKE *)

(** SQLite folds the case of the 26 ASCII letters only. *)
Definition ascii_upper (c : ascii) : ascii :=
  let n := nat_of_ascii c in
  if (Nat.leb 97 n && Nat.leb n 122)%bool then ascii_of_nat (n - 32) else c.

(** [s LIKE p] with the wildcards [%] and [_], no ESCAPE character. *)
Fixpoint like (p : string) : string -> bool :=
  match p with
  | EmptyString => fun s => match s with EmptyString => true | _ => false end
  | String c p' =>
      if Ascii.eqb c "%" then
        fix skip (s : string) : bool :=
          (like p' s || match s with EmptyString => false | String _ s' => skip s' end)%bool
      else if Ascii.eqb c "_" then
        fun s => match s with EmptyString => false | String _ s' => like p' s' end
      else
        fun s => match s with
                 | EmptyString => false
                 | String d s' => (Ascii.eqb (ascii_upper c) (ascii_upper d) && like p' s')%bool
                 end
  end.

(** The text LIKE compares; NULL has none. *)
Definition sql_text (v : SqlVal) : option string :=
  match v with
  | SNull => None
  | SInt z => Some (Z_to_text z)
  | SText s => Some s
  end.

(** [package_name IS NOT NULL AND package_name NOT LIKE '%githubaction%'] *)
Definition top_where (v : SqlVal) : bool :=
  match sql_text v with
  | None => false
  | Some s => negb (like "%githubaction%" s)
  end.

(** *** GROUP BY, ORDER BY, LIMIT *)

Fixpoint count_of (k : SqlVal) (l : list SqlVal) : Z :=
  match l with
  | [] => 0
  | x :: t => (if sql_eqb k x then 1 else 0) + count_of k t
  end.

Definition mem_sql (k : SqlVal) (l : list SqlVal) : bool :=
  existsb (sql_eqb k) l.

(** The distinct values of [l], each at its first occurrence. *)
Fixpoint distinct_from (seen : list SqlVal) (l : list SqlVal) : list SqlVal :=
  match l with
  | [] => []
  | x :: t => if mem_sql x seen then distinct_from seen t
              else x :: distinct_from (x :: seen) t
  end.

Definition distinct (l : list SqlVal) : list SqlVal := distinct_from [] l.

(** [SELECT k, COUNT( * ) ... GROUP BY k] *)
Definition group_count (l : list SqlVal) : list (SqlVal * Z) :=
  map (fun k => (k, count_of k l)) (distinct l).

Fixpoint insert_desc (x : SqlVal * Z) (l : list (SqlVal * Z)) : list (SqlVal * Z) :=
  match l with
  | [] => [x]
  | y :: t => if Z.leb (snd y) (snd x) then x :: y :: t else y :: insert_desc x t
  end.

(** [ORDER BY occurrence_count DESC].  SQL leaves the order of rows with
    equal counts open; this sort keeps them in group order. *)
Definition order_by_count_desc (l : list (SqlVal * Z)) : list (SqlVal * Z) :=
  fold_right insert_desc [] l.

(** [LIMIT n]: a negative [n] means no limit. *)
Definition sql_limit {A} (n : Z) (l : list A) : list A :=
  if Z.ltb n 0 then l else firstn (Z.to_nat n) l.

Record DependencyStats : Type := {
  unique_dependencies : Z;
  total_occurrences : Z;
  sbom_count : Z
}.

Record Dependency : Type := {
  package_name : SqlVal;
  name : SqlVal;
  version : SqlVal;
  license : SqlVal
}.

Section Queries.
Context {rt : Runtime}.

(** The rows of [json_each(doc, path)]: the children of the array or
    object at [path], one row for a primitive there, none when the path
    does not exist. *)
Definition json_each (doc : Json) (path : list string) : list Json :=
  match json_path path doc with
  | None => []
  | Some (JArr items) => items
  | Some (JObj members) => map snd members
  | Some p => [p]
  end.

(** What a JSON value becomes as an SQL value (the result of
    [json_extract], and a primitive [json_each.value]). *)
Definition sql_of_json (j : Json) : SqlVal :=
  match j with
  | JNull => SNull
  | JBool b => SInt (if b then 1 else 0)
  | JNum n => SInt n
  | JStr s => SText s
  | JArr _ | JObj _ => SText (sqlite_json_text j)
  end.

Definition each_value (j : Json) : EachValue :=
  match j with
  | JArr _ | JObj _ => EJson j
  | _ => EPrim (sql_of_json j)
  end.

(** [json_extract(v, '$.key')].  A TEXT argument that is not JSON is an
    error; NULL gives NULL; an INTEGER is a JSON number, which has no
    members. *)
Definition json_extract (v : EachValue) (key : string) : Result SqlVal :=
  let lookup (j : Json) :=
    match json_member key j with
    | Some x => sql_of_json x
    | None => SNull
    end in
  match v with
  | EJson j => Ok (lookup j)
  | EPrim SNull => Ok SNull
  | EPrim (SInt _) => Ok SNull
  | EPrim (SText s) =>
      match sqlite_json_parse s with
      | Some j => Ok (lookup j)
      | None => Raised (OperationalError "malformed JSON")
      end
  end.

(** [FROM sbom, json_each(json(sbom.json_content), '$.sbom.packages')]:
    the [json_each.value] of every joined row, in table order. *)
Definition package_rows (rows : list SbomRow) : list EachValue :=
  flat_map (fun r => map each_value (json_each (json_content r) ["sbom"; "packages"])) rows.

(** [json_extract(json_each.value, '$.SPDXID')] on every joined row. *)
Definition package_names (rows : list SbomRow) : Result (list SqlVal) :=
  rmap (fun v => json_extract v "SPDXID") (package_rows rows).

(** [get_top_dependencies(limit)].  With [LIMIT 0] SQLite stops before
    it reads a row. *)
Definition get_top_dependencies (limit : Z) (d : Database) : Result (list (SqlVal * Z)) :=
  if Z.eqb limit 0 then Ok []
  else
    rbind (package_names (sbom d)) (fun names =>
    Ok (sql_limit limit (order_by_count_desc (group_count (List.filter top_where names))))).

(** [get_dependency_stats()]: the two COUNT queries, then
    [get_sbom_count]. *)
Definition get_dependency_stats (d : Database) : Result DependencyStats :=
  rbind (package_names (sbom d)) (fun names =>
  let unique_deps := Z.of_nat (length (distinct (List.filter (fun v => negb (is_null v)) names))) in
  rbind (package_names (sbom d)) (fun names' =>
  let total := Z.of_nat (length (List.filter (fun v => negb (is_null v)) names')) in
  Ok {| unique_dependencies := unique_deps;
        total_occurrences := total;
        sbom_count := get_sbom_count d |})).

(** One result row of [get_dependencies_by_repo] before its WHERE. *)
Definition dependency_of (v : EachValue) : Result Dependency :=
  rbind (json_extract v "SPDXID") (fun p =>
  rbind (json_extract v "name") (fun n =>
  rbind (json_extract v "versionInfo") (fun ver =>
  rbind (json_extract v "licenseConcluded") (fun lic =>
  Ok {| package_name := p; name := n; version := ver; license := lic |})))).

(** [get_dependencies_by_repo(repo_name)]: only the documents stored
    under [repo_name] are joined with [json_each]. *)
Definition get_dependencies_by_repo (repo_name : string) (d : Database)
  : Result (list Dependency) :=
  let docs := List.filter (fun r => String.eqb (source_repo r) repo_name) (sbom d) in
  rbind (rmap dependency_of (package_rows docs)) (fun deps =>
  Ok (List.filter (fun dep => negb (is_null (package_name dep))) deps)).

End Queries.

End SBOMProcessor.

(** ** The world the program runs in *)

(** An HTTP response as the client reads it: [status_code], the headers it
    asks for (stored under the spelling the client uses), the value of
    [response.json()] ([None] when the body is not JSON) and [text]. *)
Record Response : Type := {
  status_code : Z;
  headers : gmap string string;
  json_body : option Json;
  text : string
}.

(** [requests.get] answers or raises [RequestException]. *)
Inductive HttpOutcome : Type :=
| Responded (r : Response)
| Failed (msg : string).

(** An entry of [analysis_progress]. *)
Record Progress : Type := {
  p_status : string;
  p_processed : Z;
  p_total : Z;
  p_current_repo : string;
  p_errors : list string
}.

(** [forge url k] is what the [k]-th call of [requests.get] receives when it
    asks for [url].  The clock moves when the program sleeps.  [sboms_dir]
    holds, under each path as the program spells it, the document written
    through that path.  The last two fields are traces kept for the
    statements below: the repositories handed to [fetch_sbom], and the table
    [analysis_sessions] after each write to it; no code reads them. *)
Record World : Type := {
  forge : string -> nat -> HttpOutcome;
  requests_sent : list string;
  clock : Q;
  slept : list Q;
  sboms_dir : gmap string Json;
  db : DatabaseManager.Database;
  analysis_progress : gmap Z Progress;
  fetch_trace : list string;
  session_trace : list (list DatabaseManager.SessionRow)
}.

Definition with_requests_sent (l : list string) (w : World) : World :=
  {| forge := forge w; requests_sent := l; clock := clock w; slept := slept w;
     sboms_dir := sboms_dir w; db := db w; analysis_progress := analysis_progress w;
     fetch_trace := fetch_trace w; session_trace := session_trace w |}.

Definition with_time (t : Q) (sl : list Q) (w : World) : World :=
  {| forge := forge w; requests_sent := requests_sent w; clock := t; slept := sl;
     sboms_dir := sboms_dir w; db := db w; analysis_progress := analysis_progress w;
     fetch_trace := fetch_trace w; session_trace := session_trace w |}.

Definition with_sboms_dir (fs : gmap string Json) (w : World) : World :=
  {| forge := forge w; requests_sent := requests_sent w; clock := clock w; slept := slept w;
     sboms_dir := fs; db := db w; analysis_progress := analysis_progress w;
     fetch_trace := fetch_trace w; session_trace := session_trace w |}.

Definition with_db (d : DatabaseManager.Database) (w : World) : World :=
  {| forge := forge w; requests_sent := requests_sent w; clock := clock w; slept := slept w;
     sboms_dir := sboms_dir w; db := d; analysis_progress := analysis_progress w;
     fetch_trace := fetch_trace w; session_trace := session_trace w |}.

Definition with_analysis_progress (m : gmap Z Progress) (w : World) : World :=
  {| forge := forge w; requests_sent := requests_sent w; clock := clock w; slept := slept w;
     sboms_dir := sboms_dir w; db := db w; analysis_progress := m;
     fetch_trace := fetch_trace w; session_trace := session_trace w |}.

Definition with_fetch_trace (l : list string) (w : World) : World :=
  {| forge := forge w; requests_sent := requests_sent w; clock := clock w; slept := slept w;
     sboms_dir := sboms_dir w; db := db w; analysis_progress := analysis_progress w;
     fetch_trace := l; session_trace := session_trace w |}.

Definition with_session_trace (l : list (list DatabaseManager.SessionRow)) (w : World) : World :=
  {| forge := forge w; requests_sent := requests_sent w; clock := clock w; slept := slept w;
     sboms_dir := sboms_dir w; db := db w; analysis_progress := analysis_progress w;
     fetch_trace := fetch_trace w; session_trace := l |}.

(** *** State and exceptions *)

Definition M (S A : Type) : Type := S -> Result A * S.

Definition ret {S A} (a : A) : M S A := fun s => (Ok a, s).

Definition raise {S A} (e : PyExn) : M S A := fun s => (Raised e, s).

Definition bind {S A B} (m : M S A) (f : A -> M S B) : M S B :=
  fun s => match m s with
           | (Ok a, s') => f a s'
           | (Raised e, s') => (Raised e, s')
           end.

(** [try: m  except Exception as e: h e] *)
Definition try_except {S A} (m : M S A) (h : PyExn -> M S A) : M S A :=
  fun s => match m s with
           | (Ok a, s') => (Ok a, s')
           | (Raised e, s') => h e s'
           end.

Definition gets {S A} (f : S -> A) : M S A := fun s => (Ok (f s), s).

Definition modify {S} (f : S -> S) : M S unit := fun s => (Ok tt, f s).

Definition of_result {S A} (r : Result A) : M S A := fun s => (r, s).

Notation "'do' x <- m ; k" := (bind m (fun x => k))
  (at level 10, x name, m at level 99, k at level 200).
Notation "'exec' m ; k" := (bind m (fun _ => k))
  (at level 10, m at level 99, k at level 200).

(** [for x in l: body x] *)
Fixpoint for_each {S A} (l : list A) (body : A -> M S unit) : M S unit :=
  match l with
  | [] => ret tt
  | x :: t => exec body x; for_each t body
  end.

(** *** Primitive effects *)

(** [requests.get(url, headers=...)] *)
Definition requests_get (url : string) (w : World) : HttpOutcome * World :=
  (forge w url (length (requests_sent w)),
   with_requests_sent (requests_sent w ++ [url]) w).

(** [int(x)] on a float: truncation towards zero. *)
Definition int_of_float (q : Q) : Z := Z.quot (Qnum q) (Z.pos (Qden q)).

(** [int(time.time())] *)
Definition time_time_int : M World Z := gets (fun w => int_of_float (clock w)).

(** [time.sleep(d)] *)
Definition time_sleep (d : Q) : M World unit :=
  modify (fun w => with_time (clock w + d)%Q (slept w ++ [d]) w).

(** [int(s)] *)
Definition int_of_str {rt : Runtime} {S} (s : string) : M S Z :=
  match py_int s with
  | Some z => ret z
  | None => raise (ValueError ("invalid literal for int() with base 10: '" ++ s ++ "'"))
  end.

(** [os.path.join(a, b)] of [posixpath] *)
Definition os_path_join (a b : string) : string :=
  match b with
  | String "/" _ => b
  | _ =>
      match a with
      | EmptyString => b
      | _ => if String.eqb (substring (String.length a - 1) 1 a) "/" then a ++ b
             else a ++ "/" ++ b
      end
  end.

(** [with open(path, 'w') as f: json.dump(data, f, indent=2)]: [open]
    raises, or the file holds the document. *)
Definition write_json_file {rt : Runtime} (path : string) (data : Json) : M World unit :=
  fun w => match py_open_error (sboms_dir w) path with
           | Some e => (Raised e, w)
           | None => (Ok tt, with_sboms_dir (<[path := data]> (sboms_dir w)) w)
           end.

(** [json.load(open(path, 'r'))] *)
Definition read_json_file (path : string) : M World Json :=
  fun w => match sboms_dir w !! path with
           | Some j => (Ok j, w)
           | None => (Raised (FileNotFoundError path), w)
           end.

(** ** utils/github_client.py *)

Module GitHubClient.

(** [self.github_token]: the environment variable GITHUB_TOKEN. *)
Record Client : Type := { github_token : option string }.

Definition base_url : string := "https://api.github.com".

(** A repository dict of the listing, read through the three keys the
    program uses: [repo['owner']['login']], [repo['name']],
    [repo['visibility']]. *)
Record Repo : Type := {
  owner_login : string;
  name : string;
  visibility : string
}.

(** [self.get_rate_limit_info()]'s dict. *)
Record RateLimitInfo : Type := {
  limit : string;
  remaining : string;
  reset : string;
  authenticated : string
}.

(** Truth value of an optional string: [None] and [''] are false. *)
Definition truthy (s : option string) : bool :=
  match s with
  | Some (String _ _) => true
  | _ => false
  end.

Definition opt_str_eqb (a : option string) (b : string) : bool :=
  match a with
  | Some s => String.eqb s b
  | None => false
  end.

(** Truth value of a [requests.Response]: its [ok] property, false for the
    status codes that [raise_for_status] rejects. *)
Definition response_ok (r : Response) : bool :=
  negb (Z.leb 400 (status_code r) && Z.ltb (status_code r) 600).

(** [response.json()] *)
Definition response_json {S} (r : Response) : M S Json :=
  match json_body r with
  | Some j => ret j
  | None => raise (JSONDecodeError "Expecting value")
  end.

(** [d.get(k, default)] on a parsed JSON value. *)
Definition dict_get {S} (d : Json) (k : string) (default : Json) : M S Json :=
  match d with
  | JObj m => ret (match assoc_get k m with Some v => v | None => default end)
  | _ => raise (AttributeError "object has no attribute 'get'")
  end.

Definition unknown_rate_limit : RateLimitInfo :=
  {| limit := "Unknown"; remaining := "Unknown"; reset := "Unknown"; authenticated := "No" |}.

(** [for x in j]: the elements of a list, the keys of a dict, the
    characters of a string; no other value can be iterated. *)
Definition py_iter (j : Json) : Result (list Json) :=
  match j with
  | JArr items => Ok items
  | JObj members => Ok (map (fun kv => JStr (fst kv)) members)
  | JStr s => Ok (map (fun c => JStr (String c EmptyString)) (list_ascii_of_string s))
  | JNum _ => Raised (TypeError "'int' object is not iterable")
  | JBool _ => Raised (TypeError "'bool' object is not iterable")
  | JNull => Raised (TypeError "'NoneType' object is not iterable")
  end.

(** [j[k]] for a string [k], with the messages of CPython 3.11 *)
Definition py_getitem (j : Json) (k : string) : Result Json :=
  match j with
  | JObj members =>
      match assoc_get k members with
      | Some v => Ok v
      | None => Raised (KeyError ("'" ++ k ++ "'"))
      end
  | JArr _ => Raised (TypeError "list indices must be integers or slices, not str")
  | JStr _ => Raised (TypeError "string indices must be integers, not 'str'")
  | JNum _ => Raised (TypeError "'int' object is not subscriptable")
  | JBool _ => Raised (TypeError "'bool' object is not subscriptable")
  | JNull => Raised (TypeError "'NoneType' object is not subscriptable")
  end.

Definition json_str_eqb (j : Json) (s : string) : bool :=
  match j with
  | JStr t => String.eqb t s
  | _ => false
  end.

(** [[repo for repo in l if repo['visibility'] == 'public']] *)
Fixpoint public_entries (l : list Json) : Result (list Json) :=
  match l with
  | [] => Ok []
  | repo :: t =>
      rbind (py_getitem repo "visibility") (fun v =>
      rbind (public_entries t) (fun rest =>
      Ok (if json_str_eqb v "public" then repo :: rest else rest)))
  end.

(** An entry of the listing read through the keys the program uses; an
    entry that lacks one of them, or holds something else than a string
    there, is not a repository. *)
Definition decode_repo (j : Json) : Result Repo :=
  match json_path ["owner"; "login"] j, json_member "name" j, json_member "visibility" j with
  | Some (JStr o), Some (JStr n), Some (JStr v) =>
      Ok {| owner_login := o; name := n; visibility := v |}
  | _, _, _ => Raised (KeyError "repository entry")
  end.

Section Client.
Context {rt : Runtime}.

(** [str(x)] on a parsed JSON value. *)
Definition py_str (j : Json) : string :=
  match j with
  | JStr s => s
  | JNum n => Z_to_text n
  | JBool true => "True"
  | JBool false => "False"
  | JNull => "None"
  | JArr _ | JObj _ => py_repr j
  end.

(** [_handle_rate_limit(response)]: [True] asks the caller to retry. *)
Definition _handle_rate_limit (c : Client) (response : Response) : M World bool :=
  if Z.eqb (status_code response) 403 then
    let rate_limit_remaining := headers response !! "X-RateLimit-Remaining" in
    let rate_limit_reset := headers response !! "X-RateLimit-Reset" in
    if opt_str_eqb rate_limit_remaining "0" then
      if truthy rate_limit_reset then
        do reset_time <- int_of_str (default "" rate_limit_reset);
        do now <- time_time_int;
        let wait_time := reset_time - now in
        if Z.ltb 0 wait_time then
          exec time_sleep (inject_Z (wait_time + 2));
          ret true
        else ret false
      else ret false
    else ret false
  else ret false.

(** [_check_rate_limit_remaining(response)] *)
Definition _check_rate_limit_remaining (c : Client) (response : Response) : M World bool :=
  let rate_limit_remaining := headers response !! "X-RateLimit-Remaining" in
  if truthy rate_limit_remaining then
    do n <- int_of_str (default "" rate_limit_remaining);
    ret (Z.leb n 5)
  else ret false.

(** [_make_request(url, retry_count)].  [None] is Python's [None]. *)
Equations? _make_request (c : Client) (url : string) (retry_count : Z) (w : World)
  : Result (option Response) * World by wf (Z.to_nat (4 - retry_count)) lt :=
  _make_request c url retry_count w with Z_gt_dec retry_count 3 => {
    | left _ := (Ok None, w);
    | right _ with requests_get url w => {
        | (Failed e, w1) := (Ok None, w1);
        | (Responded response, w1) with _handle_rate_limit c response w1 => {
            | (Raised e, w2) := (Raised e, w2);
            | (Ok false, w2) := (Ok (Some response), w2);
            | (Ok true, w2) with Z_lt_dec retry_count 3 => {
                | left _ := _make_request c url (retry_count + 1) w2;
                | right _ := (Ok None, w2) } } } }.
Proof. lia. Qed.

(** [get_repositories(org_name)] *)
Definition get_repositories (c : Client) (org_name : string) : M World Json :=
  let url := base_url ++ "/orgs/" ++ org_name ++ "/repos" in
  do response <- _make_request c url 0;
  match response with
  | None =>
      if truthy (github_token c) then
        raise (Exception "Failed to fetch repositories. Please check your GitHub token and try again.")
      else
        raise (Exception "Failed to fetch repositories. Consider setting a GitHub token for higher rate limits.")
  | Some r =>
      if negb (response_ok r) then
        if truthy (github_token c) then
          raise (Exception "Failed to fetch repositories. Please check your GitHub token and try again.")
        else
          raise (Exception "Failed to fetch repositories. Consider setting a GitHub token for higher rate limits.")
      else if negb (Z.eqb (status_code r) 200) then
        if Z.eqb (status_code r) 404 then
          raise (Exception ("Organization '" ++ org_name ++ "' not found. Please check the organization name."))
        else if Z.eqb (status_code r) 403 then
          if truthy (github_token c) then
            raise (Exception "Access denied. The organization might be private or your token may not have sufficient permissions.")
          else
            raise (Exception "Access denied. This organization may require authentication. Please set a GitHub token.")
        else
          raise (Exception ("Failed to fetch repositories: " ++ Z_to_text (status_code r) ++ " " ++ text r))
      else response_json r
  end.

(** [os.path.join(output_dir, f"{owner}_{repo}_sbom.json")] with
    [output_dir] at its default. *)
Definition sbom_filename (owner repo : string) : string :=
  os_path_join "sboms" (owner ++ "_" ++ repo ++ "_sbom.json").

(** [fetch_sbom(owner, repo)]: the name of the file written, or [None].
    The first line records the call in [fetch_trace]. *)
Definition fetch_sbom (c : Client) (owner repo : string) : M World (option string) :=
  exec modify (fun w => with_fetch_trace (fetch_trace w ++ [owner ++ "/" ++ repo]) w);
  let url := base_url ++ "/repos/" ++ owner ++ "/" ++ repo ++ "/dependency-graph/sbom" in
  do response <- _make_request c url 0;
  match response with
  | None => ret None
  | Some r =>
      if negb (response_ok r) then ret None
      else if Z.eqb (status_code r) 200 then
        do low <- _check_rate_limit_remaining c r;
        do sbom_data <- response_json r;
        exec write_json_file (sbom_filename owner repo) sbom_data;
        ret (Some (sbom_filename owner repo))
      else if Z.eqb (status_code r) 404 then ret None
      else if Z.eqb (status_code r) 403 then ret None
      else if Z.eqb (status_code r) 401 then ret None
      else if Z.eqb (status_code r) 422 then ret None
      else ret None
  end.

(** [get_public_repositories(org_name)] *)
Definition get_public_repositories (c : Client) (org_name : string) : M World (list Json) :=
  do repos <- get_repositories c org_name;
  do entries <- of_result (py_iter repos);
  of_result (public_entries entries).

(** [get_repository_count(org_name)] *)
Definition get_repository_count (c : Client) (org_name : string) : M World Z :=
  do repos <- get_public_repositories c org_name;
  ret (Z.of_nat (length repos)).

(** [get_rate_limit_info()] *)
Definition get_rate_limit_info (c : Client) : M World RateLimitInfo :=
  let url := base_url ++ "/rate_limit" in
  do response <- _make_request c url 0;
  match response with
  | None => ret unknown_rate_limit
  | Some r =>
      if response_ok r && Z.eqb (status_code r) 200 then
        do data <- response_json r;
        do resources <- dict_get data "resources" (JObj []);
        do core <- dict_get resources "core" (JObj []);
        do lim <- dict_get core "limit" (JStr "Unknown");
        do rem <- dict_get core "remaining" (JStr "Unknown");
        do rst <- dict_get core "reset" (JStr "Unknown");
        ret {| limit := py_str lim;
               remaining := py_str rem;
               reset := py_str rst;
               authenticated := if truthy (github_token c) then "Yes" else "No" |}
      else ret unknown_rate_limit
  end.

End Client.

End GitHubClient.

(** ** app.py *)

Module App.
Import GitHubClient.

(** *** The module-level objects [db_manager] and [analysis_progress] *)

(** CURRENT_TIMESTAMP, in seconds. *)
Definition current_timestamp (w : World) : Z := int_of_float (clock w).

(** [db_manager.store_sbom(source_repo, json_content)] *)
Definition store_sbom (source_repo : string) (json_content : Json) : M World bool :=
  fun w =>
    let '(b, d) := DatabaseManager.store_sbom source_repo json_content
                     (current_timestamp w) (db w) in
    (Ok b, with_db d w).

(** [db_manager.create_analysis_session(org_name, total_repos)] *)
Definition create_analysis_session (org_name : string) (total_repos : Z) : M World Z :=
  fun w =>
    let '(sid, d) := DatabaseManager.create_analysis_session org_name total_repos
                       (current_timestamp w) (db w) in
    (Ok sid,
     with_session_trace (session_trace w ++ [DatabaseManager.analysis_sessions d])
       (with_db d w)).

(** [db_manager.update_analysis_session(session_id, processed_repos, status)] *)
Definition update_analysis_session (session_id processed_repos : Z) (status : string)
  : M World unit :=
  modify (fun w =>
    let d := DatabaseManager.update_analysis_session session_id processed_repos status
               (current_timestamp w) (db w) in
    with_session_trace (session_trace w ++ [DatabaseManager.analysis_sessions d])
      (with_db d w)).

(** [analysis_progress[session_id][field] = ...]: [KeyError] when the
    session has no entry. *)
Definition progress_update (session_id : Z) (f : Progress -> Progress) : M World unit :=
  fun w =>
    match analysis_progress w !! session_id with
    | Some p => (Ok tt, with_analysis_progress (<[session_id := f p]> (analysis_progress w)) w)
    | None => (Raised (KeyError (Z_to_text session_id)), w)
    end.

Definition set_status (v : string) (p : Progress) : Progress :=
  {| p_status := v; p_processed := p_processed p; p_total := p_total p;
     p_current_repo := p_current_repo p; p_errors := p_errors p |}.

Definition set_processed (v : Z) (p : Progress) : Progress :=
  {| p_status := p_status p; p_processed := v; p_total := p_total p;
     p_current_repo := p_current_repo p; p_errors := p_errors p |}.

Definition set_current_repo (v : string) (p : Progress) : Progress :=
  {| p_status := p_status p; p_processed := p_processed p; p_total := p_total p;
     p_current_repo := v; p_errors := p_errors p |}.

Definition append_error (msg : string) (p : Progress) : Progress :=
  {| p_status := p_status p; p_processed := p_processed p; p_total := p_total p;
     p_current_repo := p_current_repo p; p_errors := p_errors p ++ [msg] |}.

(** *** The background thread *)

(** The frame of [analyze_organization]: the world and the local variable
    [processed_count], which an exception leaves as it is. *)
Record Frame : Type := {
  world : World;
  processed_count : Z
}.

Definition lift {A} (m : M World A) : M Frame A :=
  fun fr => let '(r, w) := m (world fr) in
            (r, {| world := w; processed_count := processed_count fr |}).

(** [processed_count += 1], giving the new value. *)
Definition incr_processed_count : M Frame Z :=
  fun fr => (Ok (processed_count fr + 1),
             {| world := world fr; processed_count := processed_count fr + 1 |}).

Section Orchestrator.
Context {rt : Runtime}.
Variable github_client : Client.

(** The lines that count a repository, shared by both branches of
    [if sbom_file]. *)
Definition count_repo (session_id : Z) : M Frame unit :=
  do pc <- incr_processed_count;
  exec lift (progress_update session_id (set_processed pc));
  lift (update_analysis_session session_id pc "processing").

(** "Check rate limit status for monitoring": only the request and the
    parse have an effect. *)
Definition monitor_rate_limit : M Frame unit :=
  try_except
    (do rate_limit_info <- lift (get_rate_limit_info github_client);
     do remaining <- int_of_str (remaining rate_limit_info);
     ret tt)
    (fun _ => ret tt).

(** "Adaptive delay based on rate limit status" *)
Definition adaptive_delay (pc : Z) : M Frame unit :=
  if Z.eqb (pc mod 5) 0 then
    try_except
      (do rate_limit_info <- lift (get_rate_limit_info github_client);
       do remaining <- int_of_str (remaining rate_limit_info);
       if Z.leb remaining 20 then lift (time_sleep 2)
       else lift (time_sleep (1 # 2)))
      (fun _ => lift (time_sleep (1 # 2)))
  else lift (time_sleep (1 # 10)).

(** The [try] block of the loop. *)
Definition try_repo (session_id : Z) (repo : Repo) : M Frame unit :=
  let owner := owner_login repo in
  let repo_name := name repo in
  exec lift (progress_update session_id (set_current_repo (owner ++ "/" ++ repo_name)));
  do sbom_file <- lift (fetch_sbom github_client owner repo_name);
  exec (if truthy sbom_file then
          do sbom_content <- lift (read_json_file (default "" sbom_file));
          do stored <- lift (store_sbom (owner ++ "/" ++ repo_name) sbom_content);
          count_repo session_id
        else
          count_repo session_id);
  do pc <- gets processed_count;
  exec (if Z.eqb (pc mod 20) 0 then monitor_rate_limit else ret tt);
  adaptive_delay pc.

(** The [except Exception as e] block of the loop. *)
Definition except_repo (session_id : Z) (repo : Repo) (e : PyExn) : M Frame unit :=
  let owner := owner_login repo in
  let repo_name := name repo in
  let error_msg := "Error processing " ++ owner ++ "/" ++ repo_name ++ ": " ++ exn_str e in
  exec lift (progress_update session_id (append_error error_msg));
  count_repo session_id.

Definition process_repo (session_id : Z) (repo : Repo) : M Frame unit :=
  try_except (try_repo session_id repo) (except_repo session_id repo).

Definition analyze_organization_frame (org_name : string) (repos : list Repo)
  (session_id : Z) : M Frame unit :=
  exec lift (modify (fun w =>
    with_analysis_progress
      (<[session_id := {| p_status := "processing"; p_processed := 0;
                          p_total := Z.of_nat (length repos);
                          p_current_repo := ""; p_errors := [] |}]>
         (analysis_progress w)) w));
  exec for_each repos (process_repo session_id);
  exec lift (progress_update session_id (set_status "completed"));
  do pc <- gets processed_count;
  lift (update_analysis_session session_id pc "completed").

(** [analyze_organization(org_name, repos, session_id)]: the result is
    [Ok] when the thread runs to its end, [Raised] when an exception
    leaves it. *)
Definition analyze_organization (org_name : string) (repos : list Repo) (session_id : Z)
  : M World unit :=
  fun w =>
    let '(r, fr) := analyze_organization_frame org_name repos session_id
                      {| world := w; processed_count := 0 |} in
    (r, world fr).

(** *** The route [/analyze] (POST) *)

(** What the request handler does: it flashes a message, and it may
    start the thread [analyze_organization(org_name, repos, session_id)].
    In [analyze], [org_name] is the form field after [strip()].  The thread
    takes its repositories as [Repo]: the handler reads the public entries
    through the keys the loop uses before it creates the session, and an
    entry that is not a repository ends the request like any other
    exception. *)
Inductive AnalyzeOutcome : Type :=
| Flashed (category message : string)
| Started (session_id : Z) (repos : list Repo).

Definition analyze (org_name : string) : World -> AnalyzeOutcome * World :=
  fun w =>
    match org_name with
    | EmptyString => (Flashed "error" "Please enter a GitHub organization name", w)
    | _ =>
        match get_public_repositories github_client org_name w with
        | (Raised e, w1) =>
            (Flashed "error" ("Error analyzing organization: " ++ exn_str e), w1)
        | (Ok entries, w1) =>
            let repo_count := Z.of_nat (length entries) in
            if Z.eqb repo_count 0 then
              (Flashed "error" ("No public repositories found for organization: " ++ org_name), w1)
            else
              match rmap decode_repo entries with
              | Raised e =>
                  (Flashed "error" ("Error analyzing organization: " ++ exn_str e), w1)
              | Ok repos =>
                  match create_analysis_session org_name repo_count w1 with
                  | (Raised e, w2) =>
                      (Flashed "error" ("Error analyzing organization: " ++ exn_str e), w2)
                  | (Ok session_id, w2) => (Started session_id repos, w2)
                  end
              end
        end
    end.

(** A scan from the request to the end of its thread, with nothing else
    running in between. *)
Definition scan (org_name : string) (w : World) : option (Result unit) * World :=
  match analyze org_name w with
  | (Flashed _ _, w1) => (None, w1)
  | (Started session_id repos, w1) =>
      let '(r, w2) := analyze_organization org_name repos session_id w1 in
      (Some r, w2)
  end.

End Orchestrator.

End App.

(** ** A runtime to compute with *)

(** The instance used to evaluate the program on concrete inputs.  It
    follows CPython and SQLite on decimal literals with an optional sign, on
    the JSON literals [null], [true], [false], and on texts and containers
    without characters that need an escape.  Of the paths, it opens
    [sboms/<name>] for a name of at most 255 bytes without a slash or a NUL,
    and refuses every other path. *)
Module Reference.

Definition dquote : string := String (ascii_of_nat 34) EmptyString.
Definition squote : string := String (ascii_of_nat 39) EmptyString.

Definition int_literal (s : string) : option Z :=
  match s with
  | String "+" t =>
      match NilZero.uint_of_string t with
      | Some u => Some (Z.of_uint u)
      | None => None
      end
  | _ => option_map Z.of_int (NilZero.int_of_string s)
  end.

Fixpoint repr_text (j : Json) : string :=
  match j with
  | JNull => "None"
  | JBool true => "True"
  | JBool false => "False"
  | JNum n => Z_to_text n
  | JStr s => squote ++ s ++ squote
  | JArr items =>
      "[" ++ (fix go (l : list Json) : string :=
                match l with
                | [] => ""
                | x :: t => repr_text x ++ match t with [] => "" | _ => ", " ++ go t end
                end) items ++ "]"
  | JObj members =>
      "{" ++ (fix go (l : list (string * Json)) : string :=
                match l with
                | [] => ""
                | (k, v) :: t => squote ++ k ++ squote ++ ": " ++ repr_text v
                                 ++ match t with [] => "" | _ => ", " ++ go t end
                end) members ++ "}"
  end.

Fixpoint json_text (j : Json) : string :=
  match j with
  | JNull => "null"
  | JBool true => "true"
  | JBool false => "false"
  | JNum n => Z_to_text n
  | JStr s => dquote ++ s ++ dquote
  | JArr items =>
      "[" ++ (fix go (l : list Json) : string :=
                match l with
                | [] => ""
                | x :: t => json_text x ++ match t with [] => "" | _ => "," ++ go t end
                end) items ++ "]"
  | JObj members =>
      "{" ++ (fix go (l : list (string * Json)) : string :=
                match l with
                | [] => ""
                | (k, v) :: t => dquote ++ k ++ dquote ++ ":" ++ json_text v
                                 ++ match t with [] => "" | _ => "," ++ go t end
                end) members ++ "}"
  end.

(** Accepts the JSON literals and integers; every other text is
    "malformed JSON". *)
Definition json_parse (s : string) : option Json :=
  if String.eqb s "null" then Some JNull
  else if String.eqb s "true" then Some (JBool true)
  else if String.eqb s "false" then Some (JBool false)
  else option_map (fun i => JNum (Z.of_int i)) (NilZero.int_of_string s).

(** A name that any directory takes. *)
Definition plain_file_name (s : string) : bool :=
  Nat.leb (String.length s) 255
  && forallb (fun c => negb (Ascii.eqb c "/") && negb (Ascii.eqb c Ascii.zero))
             (list_ascii_of_string s).

Definition open_error (files : gmap string Json) (path : string) : option PyExn :=
  match path with
  | String "s" (String "b" (String "o" (String "m" (String "s" (String "/" file))))) =>
      if plain_file_name file then None
      else Some (FileNotFoundError ("[Errno 2] No such file or directory: '" ++ path ++ "'"))
  | _ => Some (FileNotFoundError ("[Errno 2] No such file or directory: '" ++ path ++ "'"))
  end.

Definition runtime : Runtime :=
  {| py_int := int_literal;
     py_repr := repr_text;
     sqlite_json_parse := json_parse;
     sqlite_json_text := json_text;
     py_open_error := open_error |}.

End Reference.

(** ** Observations the statements use *)

Module Observe.
Import DatabaseManager.

(** The documents stored under [k], and those stored under other keys. *)
Definition stored_under (k : string) (d : Database) : list (string * Json) :=
  List.filter (fun kv => String.eqb (fst kv) k) (get_all_sboms d).

Definition stored_elsewhere (k : string) (d : Database) : list (string * Json) :=
  List.filter (fun kv => negb (String.eqb (fst kv) k)) (get_all_sboms d).

End Observe.

Module Matching.
Import SBOMProcessor.

(** [s] with its ASCII letters in upper case. *)
Fixpoint upper (s : string) : string :=
  match s with
  | EmptyString => EmptyString
  | String c t => String (ascii_upper c) (upper t)
  end.

(** [needle] occurs in [s] when the case of ASCII letters is ignored. *)
Definition contains_ci (needle s : string) : Prop :=
  exists pre mid post, s = pre ++ mid ++ post /\ upper mid = upper needle.

(** [needle] occurs in [s] as it is written. *)
Definition contains (needle s : string) : Prop :=
  exists pre post, s = pre ++ needle ++ post.

(** No LIKE wildcard occurs in [p]. *)
Fixpoint wild_free (p : string) : bool :=
  match p with
  | EmptyString => true
  | String c t => (negb (Ascii.eqb c "%") && negb (Ascii.eqb c "_") && wild_free t)%bool
  end.

(** Counts do not increase along the list. *)
Definition count_desc (a b : SqlVal * Z) : Prop := snd b <= snd a.

(** Counts decrease along the list. *)
Definition count_strictly_desc (a b : SqlVal * Z) : Prop := snd b < snd a.

End Matching.

(** ** Concrete inputs *)

Module Examples.
Import DatabaseManager.

(** A package entry with the identity [i]. *)
Definition pkg (i : string) : Json := JObj [("SPDXID", JStr i)].

(** The document GitHub returns: [{"sbom": {"packages": [...]}}]. *)
Definition doc (packages : Json) : Json := JObj [("sbom", JObj [("packages", packages)])].

(** The database after storing the documents of [l] in order. *)
Definition db_of (l : list (string * Json)) : Database :=
  fold_left (fun d kv => snd (store_sbom (fst kv) (snd kv) 0 d)) l init_database.

(** One repository with the packages A and B, each once. *)
Definition tie_db : Database := db_of [("acme/widgets", doc (JArr [pkg "A"; pkg "B"]))].

(** Identities that differ from the filter word in letter case only. *)
Definition case_db : Database :=
  db_of [("acme/ci", doc (JArr [pkg "SPDXRef-GitHubAction-checkout"; pkg "SPDXRef-npm-left-pad"]))].

(** [packages] is an object, not an array. *)
Definition object_db : Database :=
  db_of [("acme/odd", doc (JObj [("first", pkg "X")]))].

(** [packages] is a string. *)
Definition string_db : Database :=
  db_of [("acme/odd", doc (JStr "oops"))].

(** [packages] is missing; [packages] is a number. *)
Definition missing_db : Database :=
  db_of [("acme/empty", JObj [("sbom", JObj [])]); ("acme/num", doc (JNum 5));
         ("acme/widgets", doc (JArr [pkg "A"; pkg "B"; pkg "A"]))].

End Examples.

Module Absent.
Import DatabaseManager.

(** The path [$.sbom.packages] is missing from the document, or holds
    [null], a boolean or a number. *)
Definition packages_absent (doc : Json) : bool :=
  match json_path ["sbom"; "packages"] doc with
  | None | Some JNull | Some (JBool _) | Some (JNum _) => true
  | Some (JStr _) | Some (JArr _) | Some (JObj _) => false
  end.

(** The database with [rows] as its table [sbom]. *)
Definition with_sbom (rows : list SbomRow) (d : Database) : Database :=
  {| sbom := rows; sbom_seq := sbom_seq d;
     analysis_sessions := analysis_sessions d;
     analysis_sessions_seq := analysis_sessions_seq d |}.

(** The identities of the package rows of [rows], without the NULLs. *)
Definition named_rows {rt : Runtime} (rows : list SbomRow) : Result (list SBOMProcessor.SqlVal) :=
  rbind (SBOMProcessor.package_names rows)
        (fun l => Ok (List.filter (fun v => negb (SBOMProcessor.is_null v)) l)).

End Absent.

Module Effects.

(** What the client leaves alone: the database, the progress map, both
    traces and the forge. *)
Definition same_store (w w' : World) : Prop :=
  db w' = db w
  /\ analysis_progress w' = analysis_progress w
  /\ fetch_trace w' = fetch_trace w
  /\ session_trace w' = session_trace w
  /\ forge w' = forge w.

(** The world after [time.sleep(d)]. *)
Definition after_sleep (d : Q) (w : World) : World :=
  with_time (clock w + d)%Q (slept w ++ [d]) w.

End Effects.

Module ClientExamples.
Import GitHubClient.

(** An unauthenticated client. *)
Definition client : Client := {| github_token := None |}.

(** A world with an empty database, no files, no progress, and the clock at
    [t0] seconds. *)
Definition fresh_world (f : string -> nat -> HttpOutcome) (t0 : Z) : World :=
  {| forge := f; requests_sent := []; clock := inject_Z t0; slept := [];
     sboms_dir := ∅; db := DatabaseManager.init_database; analysis_progress := ∅;
     fetch_trace := []; session_trace := [] |}.

(** A 403 response that reports an exhausted quota; [reset] is the header
    X-RateLimit-Reset, when there is one. *)
Definition quota_response (reset : option string) : Response :=
  {| status_code := 403;
     headers := match reset with
                | Some s => <["X-RateLimit-Remaining" := "0"]> (<["X-RateLimit-Reset" := s]> ∅)
                | None => <["X-RateLimit-Remaining" := "0"]> ∅
                end;
     json_body := None;
     text := "API rate limit exceeded" |}.

(** A 200 response with the JSON body [j]. *)
Definition ok_response (j : Json) : Response :=
  {| status_code := 200; headers := ∅; json_body := Some j; text := "" |}.

(** A forge whose quota stays exhausted: the [k]-th request is answered at
    second [1000 + 100 k] or later by a 403 whose reset lies ten seconds
    after that. *)
Definition exhausted_forge (url : string) (k : nat) : HttpOutcome :=
  Responded (quota_response (Some (Z_to_text (1010 + 100 * Z.of_nat k)))).

Definition exhausted_world : World := fresh_world exhausted_forge 1000.

(** The quota is exhausted once; the second request succeeds. *)
Definition recovering_forge (url : string) (k : nat) : HttpOutcome :=
  match k with
  | O => Responded (quota_response (Some "1010"))
  | _ => Responded (ok_response (JObj []))
  end.

Definition recovering_world : World := fresh_world recovering_forge 1000.

(** The quota is exhausted and the response has no reset header. *)
Definition no_reset_forge (url : string) (k : nat) : HttpOutcome :=
  Responded (quota_response None).

Definition no_reset_world : World := fresh_world no_reset_forge 1000.

(** The network is down. *)
Definition dead_forge (url : string) (k : nat) : HttpOutcome := Failed "connection refused".

Definition dead_world : World := fresh_world dead_forge 1000.

Definition sbom_url : string :=
  "https://api.github.com/repos/acme/widgets/dependency-graph/sbom".

End ClientExamples.

Module ScanState.
Import GitHubClient.

(** The part of the world a scan reports through: the session table, the
    progress map and the two traces are as they were. *)
Definition same_scan_state (w w' : World) : Prop :=
  DatabaseManager.analysis_sessions (db w') = DatabaseManager.analysis_sessions (db w)
  /\ analysis_progress w' = analysis_progress w
  /\ fetch_trace w' = fetch_trace w
  /\ session_trace w' = session_trace w.

(** [f"{owner}/{repo_name}"] *)
Definition full_name (repo : Repo) : string := owner_login repo ++ "/" ++ name repo.

(** The entries of a listing whose visibility is ['public']. *)
Definition is_public (entry : Json) : bool :=
  match json_member "visibility" entry with
  | Some v => json_str_eqb v "public"
  | None => false
  end.

(** The value of [processed_repos] that a snapshot of the session table
    holds for [session_id]. *)
Definition persisted (session_id : Z) (rows : list DatabaseManager.SessionRow) : option Z :=
  option_map DatabaseManager.processed_repos
    (find (fun r => Z.eqb (DatabaseManager.id r) session_id) rows).

(** The integers [a + 1, ..., a + n]. *)
Fixpoint count_up (a : Z) (n : nat) : list Z :=
  match n with
  | O => []
  | S m => (a + 1) :: count_up (a + 1) m
  end.

End ScanState.

Module Pacing.
Import GitHubClient.

(** The remaining quota that a poll of the rate limit reports, when it
    reports a number. *)
Definition observed_remaining {rt : Runtime} (poll : Result RateLimitInfo) : option Z :=
  match poll with
  | Ok info => py_int (remaining info)
  | Raised _ => None
  end.

End Pacing.

Module Loop.
Import GitHubClient ScanState App.

(** Frame [frc] is frame [fr] after the loop body has named its repository
    and called [fetch_sbom], and before it counts the repository. *)
Definition entered (session_id : Z) (repo : Repo) (p : Progress) (fr frc : Frame) : Prop :=
  processed_count frc = processed_count fr
  /\ DatabaseManager.analysis_sessions (db (world frc))
     = DatabaseManager.analysis_sessions (db (world fr))
  /\ analysis_progress (world frc)
     = <[session_id := set_current_repo (full_name repo) p]> (analysis_progress (world fr))
  /\ fetch_trace (world frc) = (fetch_trace (world fr) ++ [full_name repo])%list
  /\ session_trace (world frc) = session_trace (world fr).

(** [error_msg] of the [except] block. *)
Definition error_msg (repo : Repo) (e : PyExn) : string :=
  "Error processing " ++ owner_login repo ++ "/" ++ name repo ++ ": " ++ exn_str e.

End Loop.

Module ScanExamples.
Import GitHubClient Examples ClientExamples.

(** An entry of the listing of an organization. *)
Definition repo_json (owner repo vis : string) : Json :=
  JObj [("name", JStr repo); ("owner", JObj [("login", JStr owner)]); ("visibility", JStr vis)].

(** The organization acme: three public repositories and a private one. *)
Definition acme_listing : Json :=
  JArr [repo_json "acme" "widgets" "public"; repo_json "acme" "gadgets" "public";
        repo_json "acme" "secret" "private"; repo_json "acme" "broken" "public"].

Definition widgets_repo : Repo :=
  {| owner_login := "acme"; name := "widgets"; visibility := "public" |}.

Definition gadgets_repo : Repo :=
  {| owner_login := "acme"; name := "gadgets"; visibility := "public" |}.

Definition broken_repo : Repo :=
  {| owner_login := "acme"; name := "broken"; visibility := "public" |}.

Definition widgets_sbom : Json := doc (JArr [pkg "A"; pkg "B"]).

(** [/rate_limit] with twelve requests remaining. *)
Definition rate_limit_body : Json :=
  JObj [("resources",
         JObj [("core", JObj [("limit", JNum 60); ("remaining", JNum 12); ("reset", JNum 2000)])])].

(** The forge of acme: widgets has a document, the body for broken is not
    JSON, every other document is missing (404). *)
Definition acme_forge (url : string) (k : nat) : HttpOutcome :=
  if String.eqb url "https://api.github.com/orgs/acme/repos" then
    Responded (ok_response acme_listing)
  else if String.eqb url "https://api.github.com/repos/acme/widgets/dependency-graph/sbom" then
    Responded (ok_response widgets_sbom)
  else if String.eqb url "https://api.github.com/repos/acme/broken/dependency-graph/sbom" then
    Responded {| status_code := 200; headers := ∅; json_body := None; text := "<html>" |}
  else if String.eqb url "https://api.github.com/rate_limit" then
    Responded (ok_response rate_limit_body)
  else
    Responded {| status_code := 404; headers := ∅; json_body := None; text := "Not Found" |}.

Definition acme_world : World := fresh_world acme_forge 1000.

(** The frame of a thread of session 1 that has counted [pc] repositories. *)
Definition frame_at (pc : Z) : App.Frame :=
  {| App.world :=
       with_analysis_progress
         (<[1 := {| p_status := "processing"; p_processed := pc; p_total := 9;
                    p_current_repo := ""; p_errors := [] |}]> ∅) acme_world;
     App.processed_count := pc |}.

End ScanExamples.

(** ** The other readers of the store *)

Module StoreQueries.
Import DatabaseManager.

(** [ORDER BY created_at DESC].  Rows with equal times stay in table
    order; SQL leaves their order open. *)
Fixpoint insert_newest (x : SessionRow) (l : list SessionRow) : list SessionRow :=
  match l with
  | [] => [x]
  | y :: t => if Z.leb (created_at y) (created_at x) then x :: y :: t
              else y :: insert_newest x t
  end.

Definition order_by_created_at_desc (l : list SessionRow) : list SessionRow :=
  fold_right insert_newest [] l.

(** [get_analysis_sessions(limit)] of [utils/database.py]: every dict of
    the result holds the seven columns of its row. *)
Definition get_analysis_sessions (limit : Z) (d : Database) : list SessionRow :=
  SBOMProcessor.sql_limit limit (order_by_created_at_desc (analysis_sessions d)).

(** [ORDER BY source_repo]: the BINARY collation compares the bytes. *)
Fixpoint insert_repo (x : string) (l : list string) : list string :=
  match l with
  | [] => [x]
  | y :: t => if String.leb x y then x :: y :: t else y :: insert_repo x t
  end.

Definition order_by_source_repo (l : list string) : list string :=
  fold_right insert_repo [] l.

(** [get_repositories_with_sbom()] of [utils/sbom_processor.py] *)
Definition get_repositories_with_sbom (d : Database) : list string :=
  order_by_source_repo (map source_repo (sbom d)).

(** The sum of the counts of a result of [get_top_dependencies]. *)
Definition sum_counts (l : list (SBOMProcessor.SqlVal * Z)) : Z :=
  fold_right Z.add 0 (map snd l).

End StoreQueries.

(** ** Histories of the store *)

Module History.
Import DatabaseManager.

(** A call of one of the three writers of [DatabaseManager], with the
    CURRENT_TIMESTAMP at which it runs. *)
Inductive Call : Type :=
| StoreSbom (source_repo : string) (json_content : Json) (ts : Z)
| CreateAnalysisSession (org_name : string) (total_repos : Z) (ts : Z)
| UpdateAnalysisSession (session_id processed_repos : Z) (status : string) (ts : Z).

Definition call (d : Database) (c : Call) : Database :=
  match c with
  | StoreSbom k j ts => snd (store_sbom k j ts d)
  | CreateAnalysisSession org total ts => snd (create_analysis_session org total ts d)
  | UpdateAnalysisSession sid p st ts => update_analysis_session sid p st ts d
  end.

(** The database that [init_database] created and the calls of [h] wrote. *)
Definition after (h : list Call) : Database := fold_left call h init_database.

(** No two documents under one repository, no two rows under one rowid. *)
Definition keys_unique (d : Database) : Prop :=
  List.NoDup (map source_repo (sbom d))
  /\ List.NoDup (map sbom_id (sbom d))
  /\ List.NoDup (map id (analysis_sessions d)).

(** A document is stored under [k]. *)
Definition has_sbom (k : string) (d : Database) : bool :=
  existsb (fun r => String.eqb (source_repo r) k) (sbom d).

End History.

(** ** The footprint of a scan *)

Module Footprint.
Import GitHubClient DatabaseManager Observe History ScanState.

(** Every run of [m] takes a state to one that [R] relates to it, whether
    the run returns or raises. *)
Definition preserves {S A} (R : S -> S -> Prop) (m : M S A) : Prop :=
  forall s r s', m s = (r, s') -> R s s'.

(** [R] on the world of a frame. *)
Definition on_world (R : World -> World -> Prop) (fr fr' : App.Frame) : Prop :=
  R (App.world fr) (App.world fr').

(** The URL of the document of a repository, and the URL of the rate
    limit. *)
Definition sbom_url_of (repo : Repo) : string :=
  base_url ++ "/repos/" ++ owner_login repo ++ "/" ++ name repo ++ "/dependency-graph/sbom".

Definition rate_limit_url : string := base_url ++ "/rate_limit".

(** What code that works for session [sid] on repositories with the keys
    [keys] and the document URLs [urls] may do: it requests these URLs and
    the rate limit; it stores documents under these keys and removes none;
    it writes the row and the progress entry of its session; it leaves the
    forge as it is. *)
Definition footprint (sid : Z) (keys urls : list string) (w w' : World) : Prop :=
  forge w' = forge w
  /\ (exists sent, requests_sent w' = (requests_sent w ++ sent)%list
                   /\ Forall (fun u => In u urls \/ u = rate_limit_url) sent)
  /\ (forall k, ~ In k keys -> stored_under k (db w') = stored_under k (db w))
  /\ (forall k, has_sbom k (db w) = true -> has_sbom k (db w') = true)
  /\ List.filter (fun r => negb (Z.eqb (id r) sid)) (analysis_sessions (db w'))
     = List.filter (fun r => negb (Z.eqb (id r) sid)) (analysis_sessions (db w))
  /\ map id (analysis_sessions (db w')) = map id (analysis_sessions (db w))
  /\ (forall other, other <> sid -> analysis_progress w' !! other = analysis_progress w !! other).

End Footprint.

(** ** Documents that the forge serves *)

Module Served.
Import GitHubClient.

(** The header X-RateLimit-Remaining of [r] is absent, empty, or a number
    that [int] reads. *)
Definition quota_header_readable {rt : Runtime} (r : Response) : Prop :=
  match headers r !! "X-RateLimit-Remaining" with
  | Some s => s = "" \/ exists n, py_int s = Some n
  | None => True
  end.

(** [r] is a response with status 200 and the JSON body [j], whose quota
    header can be read. *)
Definition serves {rt : Runtime} (r : Response) (j : Json) : Prop :=
  status_code r = 200 /\ json_body r = Some j /\ quota_header_readable r.

(** The lines of the loop body that follow the storing of the document. *)
Definition after_store {rt : Runtime} (github_client : Client) (sid : Z) : M App.Frame unit :=
  exec App.count_repo sid;
  do pc <- gets App.processed_count;
  exec (if Z.eqb (pc mod 20) 0 then App.monitor_rate_limit github_client else ret tt);
  App.adaptive_delay github_client pc.

End Served.

(** ** Python's [str.format], as [generate_html_report] calls it *)

(** What the model of [str.format] leaves to the interpreter. *)
Class Formatting : Type := {
  (** [repr(s)] of a string, which is [str(KeyError(s))]. *)
  py_repr_str : string -> string;
  (** The text of a replacement field that the model does not read itself:
      a field that takes a positional argument, and a field that applies an
      attribute, an index, a conversion or a format specification to its
      argument.  The arguments are the keyword arguments of the call, the
      field name, the conversion character and the format specification.
      An exception of a class that [PyExn] does not name is carried as an
      [Exception] with its text. *)
  py_format_field : list (string * Z) -> string -> option ascii -> string -> Result string
}.

Module PyFormat.

Section Format.
Context {fm : Formatting}.

(** The keyword arguments of the call; the report passes integers. *)
Variable kwargs : list (string * Z).

(** Where the scan of the format string stands: in literal text; after a
    brace in literal text; in a field name, outside or inside brackets;
    after the [!] of a conversion; after the conversion character; in a
    format specification with [depth] braces open inside it; or stopped by
    an exception.  [out] is the text produced so far. *)
Inductive Scan : Type :=
| Lit (out : string)
| Open (out : string)
| Close (out : string)
| Name (out acc : string)
| Bracket (out acc : string)
| Bang (out name : string)
| Conv (out name : string) (conv : ascii)
| Spec (out name : string) (conv : option ascii) (acc : string) (depth : nat)
| Stop (e : PyExn).

Definition snoc (s : string) (c : ascii) : string := s ++ String c EmptyString.

(** The field name up to its first [.] or [[], and the rest. *)
Fixpoint split_name (name : string) : string * string :=
  match name with
  | EmptyString => (EmptyString, EmptyString)
  | String c t =>
      if (Ascii.eqb c "." || Ascii.eqb c "[")%bool then (EmptyString, name)
      else let '(first, rest) := split_name t in (String c first, rest)
  end.

Fixpoint lookup_kwarg (k : string) (l : list (string * Z)) : option Z :=
  match l with
  | [] => None
  | (k', v) :: t => if String.eqb k k' then Some v else lookup_kwarg k t
  end.

(** An ASCII character that is not a digit.  A name that holds one is not
    a number, so the field takes a keyword argument. *)
Definition ascii_not_digit (c : ascii) : bool :=
  let n := nat_of_ascii c in
  (Nat.ltb n 128 && negb (Nat.leb 48 n && Nat.leb n 57))%bool.

Fixpoint keyword_name (first : string) : bool :=
  match first with
  | EmptyString => false
  | String c t => (ascii_not_digit c || keyword_name t)%bool
  end.

(** A replacement field is complete: its argument is looked up and
    formatted.  A missing keyword argument raises [KeyError]. *)
Definition field (out name : string) (conv : option ascii) (spec : string) : Scan :=
  let '(first, rest) := split_name name in
  let other := match py_format_field kwargs name conv spec with
               | Ok text => Lit (out ++ text)
               | Raised e => Stop e
               end in
  if keyword_name first then
    match lookup_kwarg first kwargs with
    | None => Stop (KeyError (py_repr_str first))
    | Some v =>
        match rest, conv, spec with
        | EmptyString, None, EmptyString => Lit (out ++ Z_to_text v)
        | _, _, _ => other
        end
    end
  else other.

(** One character of the format string. *)
Definition step_name (out acc : string) (c : ascii) : Scan :=
  if Ascii.eqb c "{" then Stop (ValueError "unexpected '{' in field name")
  else if Ascii.eqb c "[" then Bracket out (snoc acc c)
  else if Ascii.eqb c "}" then field out acc None EmptyString
  else if Ascii.eqb c ":" then Spec out acc None EmptyString 0
  else if Ascii.eqb c "!" then Bang out acc
  else Name out (snoc acc c).

Definition step (st : Scan) (c : ascii) : Scan :=
  match st with
  | Lit out =>
      if Ascii.eqb c "{" then Open out
      else if Ascii.eqb c "}" then Close out
      else Lit (snoc out c)
  | Open out =>
      if Ascii.eqb c "{" then Lit (snoc out c) else step_name out EmptyString c
  | Close out =>
      if Ascii.eqb c "}" then Lit (snoc out c)
      else Stop (ValueError "Single '}' encountered in format string")
  | Name out acc => step_name out acc c
  | Bracket out acc =>
      if Ascii.eqb c "]" then Name out (snoc acc c) else Bracket out (snoc acc c)
  | Bang out name => Conv out name c
  | Conv out name conv =>
      if Ascii.eqb c "}" then field out name (Some conv) EmptyString
      else if Ascii.eqb c ":" then Spec out name (Some conv) EmptyString 0
      else Stop (ValueError "expected ':' after conversion specifier")
  | Spec out name conv acc depth =>
      if Ascii.eqb c "{" then Spec out name conv (snoc acc c) (S depth)
      else if Ascii.eqb c "}" then
        match depth with
        | O => field out name conv acc
        | S d => Spec out name conv (snoc acc c) d
        end
      else Spec out name conv (snoc acc c) depth
  | Stop e => Stop e
  end.

Fixpoint scan (st : Scan) (s : string) : Scan :=
  match s with
  | EmptyString => st
  | String c t => scan (step st c) t
  end.

(** The end of the format string. *)
Definition finish (st : Scan) : Result string :=
  match st with
  | Lit out => Ok out
  | Open _ => Raised (ValueError "Single '{' encountered in format string")
  | Close _ => Raised (ValueError "Single '}' encountered in format string")
  | Name _ _ | Bracket _ _ => Raised (ValueError "expected '}' before end of string")
  | Bang _ _ =>
      Raised (ValueError "end of string while looking for conversion specifier")
  | Conv _ _ _ | Spec _ _ _ _ _ => Raised (ValueError "unmatched '{' in format spec")
  | Stop e => Raised e
  end.

(** [template.format( **kwargs )] *)
Definition str_format (template : string) : Result string :=
  finish (scan (Lit EmptyString) template).

End Format.

End PyFormat.

(** ** The HTML report of utils/sbom_processor.py, and the route that asks for it *)

Module Report.
Import DatabaseManager SBOMProcessor.

Definition nl : string := String (ascii_of_nat 10) EmptyString.
Definition dquote : string := String (ascii_of_nat 34) EmptyString.

(** The first literal of [generate_html_report], up to the header row. *)
Definition html_head : string :=
  nl
  ++ "        <!DOCTYPE html>" ++ nl
  ++ "        <html>" ++ nl
  ++ "        <head>" ++ nl
  ++ "            <title>Common Dependencies Report</title>" ++ nl
  ++ "            <style>" ++ nl
  ++ "                body { font-family: Arial, sans-serif; margin: 20px; }" ++ nl
  ++ "                table { width: 100%; border-collapse: collapse; margin-top: 20px; }" ++ nl
  ++ "                th, td { border: 1px solid #ddd; padding: 12px; text-align: left; }" ++ nl
  ++ "                th { background-color: #f2f2f2; font-weight: bold; }" ++ nl
  ++ "                tr:nth-child(even) { background-color: #f9f9f9; }" ++ nl
  ++ "                h2 { color: #333; }" ++ nl
  ++ "                .stats { background-color: #e7f3ff; padding: 15px; border-radius: 5px; margin-bottom: 20px; }" ++ nl
  ++ "            </style>" ++ nl
  ++ "        </head>" ++ nl
  ++ "        <body>" ++ nl
  ++ "            <h2>Most Common Dependencies Across Projects</h2>" ++ nl
  ++ "            <div class=" ++ dquote ++ "stats" ++ dquote ++ ">" ++ nl
  ++ "                <strong>Analysis Summary:</strong><br>" ++ nl
  ++ "                • Total SBOMs analyzed: {sbom_count}<br>" ++ nl
  ++ "                • Unique dependencies found: {unique_deps}<br>" ++ nl
  ++ "                • Total dependency occurrences: {total_occurrences}" ++ nl
  ++ "            </div>" ++ nl
  ++ "            <table>" ++ nl
  ++ "                <tr>" ++ nl
  ++ "        ".

(** The literal that closes the page. *)
Definition html_tail : string :=
  nl
  ++ "                </table>" ++ nl
  ++ "            </body>" ++ nl
  ++ "        </html>" ++ nl
  ++ "        ".

(** [f"{cell}"] for a value that SQLite returned. *)
Definition cell_text (cell : SqlVal) : string :=
  match cell with
  | SNull => "None"
  | SInt z => Z_to_text z
  | SText s => s
  end.

(** The page before [format] is applied to it: the loops append to
    [html_content]. *)
Definition html_content (results : list (list SqlVal)) (columns : list string) : string :=
  let with_headers :=
    fold_left (fun html column => html ++ "<th>" ++ column ++ "</th>") columns html_head
    ++ "</tr>" in
  let with_rows :=
    fold_left (fun html row =>
                 fold_left (fun html cell => html ++ "<td>" ++ cell_text cell ++ "</td>")
                           row (html ++ "<tr>")
                 ++ "</tr>")
              results with_headers in
  with_rows ++ html_tail.

Section Report.
Context {rt : Runtime} {fm : Formatting}.

(** [generate_html_report(results, columns, output_file)] on the database
    [d]; the state is the directory the report is written to. *)
Definition generate_html_report (results : list (list SqlVal)) (columns : list string)
  (output_file : string) (d : Database) : M (gmap string string) string :=
  let html := html_content results columns in
  do stats <- of_result (get_dependency_stats d);
  do html <- of_result (PyFormat.str_format
                          [("sbom_count", sbom_count stats);
                           ("unique_deps", unique_dependencies stats);
                           ("total_occurrences", total_occurrences stats)] html);
  exec modify (fun files => <[output_file := html]> files);
  ret output_file.

(** The route [/export/html] of app.py: the category and the text of the
    message it flashes. *)
Definition export_html (d : Database) : M (gmap string string) (string * string) :=
  try_except
    (do top_deps <- of_result (get_top_dependencies 100 d);
     let columns := ["Dependency Name"; "Occurrence Count"] in
     do output_file <- generate_html_report
                         (map (fun row => [fst row; SInt (snd row)]) top_deps)
                         columns "common_dependencies.html" d;
     ret ("success", "HTML report generated: " ++ output_file))
    (fun e => ret ("error", "Error generating HTML report: " ++ exn_str e)).

End Report.

End Report.

(** ** The pages of app.py that read the state *)

Module Pages.
Import GitHubClient DatabaseManager SBOMProcessor StoreQueries.

(** What [index] hands to its template. *)
Record IndexPage : Type := {
  page_sbom_count : Z;
  page_recent_sessions : list SessionRow;
  page_dependency_stats : option DependencyStats;
  page_rate_limit_info : RateLimitInfo;
  page_api_status : string
}.

(** The JSON object of [/api/progress/<session_id>]. *)
Record ProgressReport : Type := {
  report_org_name : string;
  report_total_repos : Z;
  report_processed_repos : Z;
  report_status : string;
  report_current_repo : string;
  report_errors : list string
}.

Section Pages.
Context {rt : Runtime}.
Variable github_client : Client.

(** [index()]: an exception that leaves it is the server error of the
    page. *)
Definition index : M World IndexPage :=
  do sbom_count <- gets (fun w => get_sbom_count (db w));
  do recent_sessions <- gets (fun w => get_analysis_sessions 5 (db w));
  do dependency_stats <-
    (if Z.ltb 0 sbom_count then
       do stats <- (fun w => (get_dependency_stats (db w), w));
       ret (Some stats)
     else ret None);
  do rate_limit_info <-
    try_except (get_rate_limit_info github_client) (fun _ => ret unknown_rate_limit);
  do api_status <-
    try_except
      (do test_repos <- get_repositories github_client "microsoft";
       ret "Connected")
      (fun e => ret ("Error: " ++ exn_str e));
  ret {| page_sbom_count := sbom_count;
         page_recent_sessions := recent_sessions;
         page_dependency_stats := dependency_stats;
         page_rate_limit_info := rate_limit_info;
         page_api_status := api_status |}.

End Pages.

(** [api_progress(session_id)]: [None] is the answer 404. *)
Definition api_progress (session_id : Z) (w : World) : option ProgressReport :=
  match get_session session_id (db w) with
  | None => None
  | Some session_data =>
      let progress_data := analysis_progress w !! session_id in
      Some {| report_org_name := org_name session_data;
              report_total_repos := total_repos session_data;
              report_processed_repos := processed_repos session_data;
              report_status := status session_data;
              report_current_repo :=
                match progress_data with Some p => p_current_repo p | None => "" end;
              report_errors :=
                match progress_data with Some p => p_errors p | None => [] end |}
  end.

End Pages.

(** ** More concrete inputs *)

Module MoreExamples.
Import Examples History.

(** Three calls of [store_sbom]; the third replaces the document of the
    first. *)
Definition acme_history : list Call :=
  [ StoreSbom "acme/widgets" (doc (JArr [pkg "A"; pkg "B"])) 1000;
    StoreSbom "acme/gadgets" (doc (JArr [pkg "A"])) 1005;
    StoreSbom "acme/widgets" (doc (JArr [pkg "A"; pkg "B"; pkg "C"])) 1010 ].

(** [repr] of a string that needs no escape. *)
Definition quoted (s : string) : string := "'" ++ s ++ "'".

End MoreExamples.

(** ** The number of requests of a scan *)

Module Budget.

(** Between [w] and [w'] at most [n] requests were sent. *)
Definition sends_at_most (n : nat) (w w' : World) : Prop :=
  exists sent, requests_sent w' = (requests_sent w ++ sent)%list /\ (length sent <= n)%nat.

(** From a frame in which [processed_count] is [p], [m] sends at most [n]
    requests, and when it returns, [processed_count] is [q]. *)
Definition within {A} (n : nat) (p q : Z) (m : M App.Frame A) : Prop :=
  forall fr r fr',
    App.processed_count fr = p -> m fr = (r, fr') ->
    sends_at_most n (App.world fr) (App.world fr')
    /\ forall a, r = Ok a -> App.processed_count fr' = q.

(** The polls of the rate limit in the turn that brings the count to [pc]:
    one when [pc] is a multiple of 20, one when it is a multiple of 5. *)
Definition polls (pc : Z) : nat :=
  (if Z.eqb (pc mod 20) 0 then 1 else 0) + (if Z.eqb (pc mod 5) 0 then 1 else 0).

(** A request is sent at most four times: once for the document and once
    for each poll. *)
Definition turn_budget (pc : Z) : nat := 4 + 4 * polls pc.

(** The budget of a scan of [n] repositories. *)
Definition request_budget (n : Z) : Z := 4 * n + 4 * (n / 5) + 4 * (n / 20).

End Budget.

(** ** The loop body up to the counting *)

Module Paced.
Import GitHubClient App.

(** The [try] block of the loop from its first line to the lines that
    count the repository; what follows is the monitoring of the rate limit
    and the pacing delay. *)
Definition until_counted {rt : Runtime} (github_client : Client) (session_id : Z)
  (repo : Repo) : M Frame unit :=
  let owner := owner_login repo in
  let repo_name := name repo in
  exec lift (progress_update session_id (set_current_repo (owner ++ "/" ++ repo_name)));
  do sbom_file <- lift (fetch_sbom github_client owner repo_name);
  if truthy sbom_file then
    do sbom_content <- lift (read_json_file (default "" sbom_file));
    do stored <- lift (store_sbom (owner ++ "/" ++ repo_name) sbom_content);
    count_repo session_id
  else
    count_repo session_id.

End Paced.

(** * Properties *)

(** ** The document store *)

Section DatabaseFacts.
Import DatabaseManager Observe.

Lemma filter_none {A} (f : A -> bool) (l : list A) :
  List.filter f (List.filter (fun x => negb (f x)) l) = [].
Proof.
  induction l as [| x l IH]; simpl; [reflexivity |].
  destruct (f x) eqn:E; simpl; [exact IH |].
  rewrite E. exact IH.
Qed.

Lemma filter_idem {A} (f : A -> bool) (l : list A) :
  List.filter f (List.filter f l) = List.filter f l.
Proof.
  induction l as [| x l IH]; simpl; [reflexivity |].
  destruct (f x) eqn:E; simpl; rewrite ?E, IH; reflexivity.
Qed.

Lemma filter_map_comm {A B} (g : A -> B) (f : B -> bool) (l : list A) :
  List.filter f (map g l) = map g (List.filter (fun x => f (g x)) l).
Proof.
  induction l as [| x l IH]; simpl; [reflexivity |].
  destruct (f (g x)); simpl; rewrite IH; reflexivity.
Qed.

Lemma get_all_sboms_store (k : string) (c : Json) (ts : Z) (d : Database) :
  get_all_sboms (snd (store_sbom k c ts d)) = (stored_elsewhere k d ++ [(k, c)])%list.
Proof.
  unfold get_all_sboms, stored_elsewhere, get_all_sboms, store_sbom; simpl.
  rewrite map_app, filter_map_comm. reflexivity.
Qed.

Lemma stored_elsewhere_store (k : string) (c : Json) (ts : Z) (d : Database) :
  stored_elsewhere k (snd (store_sbom k c ts d)) = stored_elsewhere k d.
Proof.
  unfold stored_elsewhere at 1. rewrite get_all_sboms_store, List.filter_app.
  simpl. rewrite String.eqb_refl. simpl. rewrite app_nil_r.
  unfold stored_elsewhere. apply filter_idem.
Qed.

Lemma stored_under_store (k : string) (c : Json) (ts : Z) (d : Database) :
  stored_under k (snd (store_sbom k c ts d)) = [(k, c)].
Proof.
  unfold stored_under. rewrite get_all_sboms_store, List.filter_app.
  unfold stored_elsewhere.
  rewrite (filter_none (fun kv : string * Json => String.eqb (fst kv) k)).
  simpl. rewrite String.eqb_refl. reflexivity.
Qed.

(** C6. Storing [d1] and then [d2] under one key leaves exactly one
    document under that key, [d2]; the call reports success; and storing a
    document a second time leaves the stored documents as the first call
    left them. *)
Theorem store_sbom_upsert (k : string) (d1 d2 : Json) (ts1 ts2 : Z) (d : Database) :
  let once := snd (store_sbom k d1 ts1 d) in
  let twice := snd (store_sbom k d2 ts2 once) in
  stored_under k twice = [(k, d2)]
  /\ fst (store_sbom k d2 ts2 once) = true
  /\ stored_elsewhere k twice = stored_elsewhere k d
  /\ get_all_sboms (snd (store_sbom k d1 ts2 once)) = get_all_sboms once
  /\ get_sbom_count (snd (store_sbom k d1 ts2 once)) = get_sbom_count once.
Proof.
  cbv zeta. repeat split.
  - apply stored_under_store.
  - rewrite !stored_elsewhere_store. reflexivity.
  - rewrite !get_all_sboms_store, stored_elsewhere_store. reflexivity.
  - assert (H : get_all_sboms (snd (store_sbom k d1 ts2 (snd (store_sbom k d1 ts1 d))))
                = get_all_sboms (snd (store_sbom k d1 ts1 d)))
      by (rewrite !get_all_sboms_store, stored_elsewhere_store; reflexivity).
    apply (f_equal (@length _)) in H. unfold get_all_sboms in H.
    rewrite !length_map in H. unfold get_sbom_count. rewrite H. reflexivity.
Qed.

(** *** Session updates *)

Lemma update_row_frame (sid p : Z) (st : string) (ts : Z) (r : SessionRow) :
  let r' := update_row sid p st ts r in
  id r' = id r /\ org_name r' = org_name r /\ total_repos r' = total_repos r
  /\ created_at r' = created_at r.
Proof.
  unfold update_row. destruct (Z.eqb (id r) sid), (String.eqb st "completed"); simpl; auto.
Qed.

Lemma update_row_other (sid p : Z) (st : string) (ts : Z) (r : SessionRow) :
  id r <> sid -> update_row sid p st ts r = r.
Proof.
  intros H. unfold update_row. apply Z.eqb_neq in H. rewrite H. reflexivity.
Qed.

Lemma update_row_completed_at (sid p : Z) (st : string) (ts : Z) (r : SessionRow) :
  completed_at (update_row sid p st ts r)
  = if (Z.eqb (id r) sid && String.eqb st "completed")%bool then Some ts else completed_at r.
Proof.
  unfold update_row. destruct (Z.eqb (id r) sid), (String.eqb st "completed"); reflexivity.
Qed.

(** C10. A session update leaves [completed_at] as it was unless its status
    is ['completed'], and then only the row of that session receives the
    time of the update; it changes no row's [id], [org_name], [total_repos]
    or [created_at], no row of another session, and nothing in table
    [sbom]. *)
Theorem update_analysis_session_frame (sid p : Z) (st : string) (ts : Z) (d : Database) :
  let d' := update_analysis_session sid p st ts d in
  map completed_at (analysis_sessions d')
  = map (fun r => if (Z.eqb (id r) sid && String.eqb st "completed")%bool
                  then Some ts else completed_at r) (analysis_sessions d)
  /\ (st <> "completed" ->
      map completed_at (analysis_sessions d') = map completed_at (analysis_sessions d))
  /\ map id (analysis_sessions d') = map id (analysis_sessions d)
  /\ map org_name (analysis_sessions d') = map org_name (analysis_sessions d)
  /\ map total_repos (analysis_sessions d') = map total_repos (analysis_sessions d)
  /\ map created_at (analysis_sessions d') = map created_at (analysis_sessions d)
  /\ List.filter (fun r => negb (Z.eqb (id r) sid)) (analysis_sessions d')
     = List.filter (fun r => negb (Z.eqb (id r) sid)) (analysis_sessions d)
  /\ sbom d' = sbom d.
Proof.
  cbv zeta. unfold update_analysis_session; simpl.
  assert (Hmap : forall (B : Type) (f : SessionRow -> B),
             (forall r, f (update_row sid p st ts r) = f r) ->
             map f (map (update_row sid p st ts) (analysis_sessions d))
             = map f (analysis_sessions d)).
  { intros B f Hf. rewrite map_map. apply map_ext. exact Hf. }
  repeat split.
  - rewrite map_map. apply map_ext. intros r. apply update_row_completed_at.
  - intros Hst. apply Hmap. intros r. rewrite update_row_completed_at.
    apply String.eqb_neq in Hst. rewrite Hst, andb_false_r. reflexivity.
  - apply Hmap. intros r. apply update_row_frame.
  - apply Hmap. intros r. apply update_row_frame.
  - apply Hmap. intros r. apply update_row_frame.
  - apply Hmap. intros r. apply update_row_frame.
  - clear Hmap. induction (analysis_sessions d) as [| r l IH]; simpl; [reflexivity |].
    destruct (update_row_frame sid p st ts r) as [Hid _]. cbv zeta in Hid. rewrite Hid.
    destruct (Z.eqb (id r) sid) eqn:E; simpl; [exact IH |].
    rewrite IH, update_row_other; [reflexivity |]. apply Z.eqb_neq. exact E.
Qed.

End DatabaseFacts.

(** ** The query engine *)

Section LikeFacts.
Import SBOMProcessor Matching.

Lemma append_empty (s : string) : "" ++ s = s.
Proof. reflexivity. Qed.

Lemma append_String (a : ascii) (s t : string) : String a s ++ t = String a (s ++ t).
Proof. reflexivity. Qed.

Lemma like_percent (p s : string) :
  like (String "%" p) s
  = (like p s || match s with
                 | EmptyString => false
                 | String _ s' => like (String "%" p) s'
                 end)%bool.
Proof. destruct s; reflexivity. Qed.

Lemma like_percent_only (s : string) : like "%" s = true.
Proof.
  induction s as [| a s IH]; [reflexivity |].
  rewrite like_percent. rewrite IH. apply orb_true_r.
Qed.

Lemma like_skip (p pre s : string) :
  like p s = true -> like (String "%" p) (pre ++ s) = true.
Proof.
  intros H. induction pre as [| a pre IH].
  - rewrite append_empty, like_percent, H. reflexivity.
  - rewrite append_String, like_percent, IH. apply orb_true_r.
Qed.

Lemma like_literal (needle : string) :
  wild_free needle = true ->
  forall mid p rest,
    upper mid = upper needle -> like p rest = true ->
    like (needle ++ p) (mid ++ rest) = true.
Proof.
  induction needle as [| c needle IH]; intros Hw mid p rest Hup Hp.
  - destruct mid; [exact Hp | discriminate].
  - destruct mid as [| d mid]; [discriminate |].
    simpl in Hw. apply andb_prop in Hw as [Hw Hw3]. apply andb_prop in Hw as [Hw1 Hw2].
    apply negb_true_iff in Hw1, Hw2.
    simpl in Hup. injection Hup as Hc Hup.
    rewrite !append_String. simpl. rewrite Hw1, Hw2, Hc, Ascii.eqb_refl. simpl.
    apply IH; assumption.
Qed.

(** A text in which [githubaction] occurs in any letter case matches the
    pattern of [get_top_dependencies]. *)
Lemma like_githubaction (s : string) :
  contains_ci "githubaction" s -> like "%githubaction%" s = true.
Proof.
  intros (pre & mid & post & -> & Hup).
  apply (like_skip "githubaction%" pre (mid ++ post)).
  apply (like_literal "githubaction" eq_refl mid "%" post Hup).
  apply like_percent_only.
Qed.

Lemma contains_contains_ci (needle s : string) :
  contains needle s -> contains_ci needle s.
Proof. intros (pre & post & ->). exists pre, needle, post. split; reflexivity. Qed.

End LikeFacts.

Section GroupingFacts.
Import SBOMProcessor Matching.

Lemma sql_eqb_eq (a b : SqlVal) : sql_eqb a b = true <-> a = b.
Proof.
  destruct a, b; simpl; split; intros H; try discriminate; try reflexivity.
  - apply Z.eqb_eq in H. congruence.
  - injection H as ->. apply Z.eqb_refl.
  - apply String.eqb_eq in H. congruence.
  - injection H as ->. apply String.eqb_refl.
Qed.

Lemma sql_eqb_refl (a : SqlVal) : sql_eqb a a = true.
Proof. apply sql_eqb_eq. reflexivity. Qed.

Lemma mem_sql_In (k : SqlVal) (l : list SqlVal) : mem_sql k l = true <-> In k l.
Proof.
  unfold mem_sql. rewrite existsb_exists. split.
  - intros (x & Hx & E). apply sql_eqb_eq in E. subst. exact Hx.
  - intros H. exists k. split; [exact H | apply sql_eqb_refl].
Qed.

Lemma distinct_from_In (l seen : list SqlVal) (x : SqlVal) :
  In x (distinct_from seen l) <-> In x l /\ ~ In x seen.
Proof.
  revert seen. induction l as [| y l IH]; intros seen; simpl.
  - tauto.
  - destruct (mem_sql y seen) eqn:E.
    + apply mem_sql_In in E. rewrite IH. split.
      * tauto.
      * intros [[-> | H] Hn]; [contradiction | tauto].
    + assert (Hy : ~ In y seen) by (rewrite <- mem_sql_In, E; discriminate).
      simpl. rewrite IH. simpl. split.
      * intros [-> | (H & Hn)]; [tauto |]. split; [tauto |]. intros Hs. apply Hn. tauto.
      * intros [[-> | H] Hn]; [tauto |].
        destruct (mem_sql x [y]) eqn:Exy.
        -- apply mem_sql_In in Exy. destruct Exy as [-> | []]. tauto.
        -- right. split; [exact H |]. intros [-> | Hs]; [| tauto].
           rewrite <- not_true_iff_false, mem_sql_In in Exy. apply Exy. left. reflexivity.
Qed.

Lemma distinct_from_NoDup (l seen : list SqlVal) : List.NoDup (distinct_from seen l).
Proof.
  revert seen. induction l as [| y l IH]; intros seen; simpl.
  - constructor.
  - destruct (mem_sql y seen); [apply IH |].
    constructor; [| apply IH].
    rewrite distinct_from_In. intros [_ Hn]. apply Hn. left. reflexivity.
Qed.

Lemma distinct_In (l : list SqlVal) (x : SqlVal) : In x (distinct l) <-> In x l.
Proof. unfold distinct. rewrite distinct_from_In. simpl. tauto. Qed.

Lemma distinct_NoDup (l : list SqlVal) : List.NoDup (distinct l).
Proof. apply distinct_from_NoDup. Qed.

Lemma count_of_nonneg (k : SqlVal) (l : list SqlVal) : 0 <= count_of k l.
Proof. induction l as [| x l IH]; simpl; [lia |]. destruct (sql_eqb k x); lia. Qed.

Lemma count_of_pos (k : SqlVal) (l : list SqlVal) : In k l -> 0 < count_of k l.
Proof.
  induction l as [| x l IH]; simpl; [tauto |].
  intros [-> | H].
  - rewrite sql_eqb_refl. pose proof (count_of_nonneg k l). lia.
  - specialize (IH H). destruct (sql_eqb k x); lia.
Qed.

Lemma count_of_filter (f : SqlVal -> bool) (k : SqlVal) (l : list SqlVal) :
  f k = true -> count_of k (List.filter f l) = count_of k l.
Proof.
  intros Hk. induction l as [| x l IH]; simpl; [reflexivity |].
  destruct (f x) eqn:Ex; simpl; rewrite IH; [reflexivity |].
  destruct (sql_eqb k x) eqn:E; [| reflexivity].
  apply sql_eqb_eq in E. congruence.
Qed.

Lemma group_count_keys (l : list SqlVal) : map fst (group_count l) = distinct l.
Proof. unfold group_count. rewrite map_map. simpl. apply map_id. Qed.

Lemma group_count_In (l : list SqlVal) (k : SqlVal) (n : Z) :
  In (k, n) (group_count l) <-> In k l /\ n = count_of k l.
Proof.
  unfold group_count. rewrite in_map_iff. split.
  - intros (x & E & Hx). injection E as E1 E2. subst. apply (proj1 (distinct_In _ _)) in Hx. split; [exact Hx | reflexivity].
  - intros [H ->]. exists k. split; [reflexivity | apply distinct_In; exact H].
Qed.

(** *** ORDER BY and LIMIT *)

Lemma insert_desc_perm (x : SqlVal * Z) (l : list (SqlVal * Z)) :
  Permutation (insert_desc x l) (x :: l).
Proof.
  induction l as [| y l IH]; simpl; [reflexivity |].
  destruct (Z.leb (snd y) (snd x)); [reflexivity |].
  rewrite IH. apply perm_swap.
Qed.

Lemma order_by_count_desc_perm (l : list (SqlVal * Z)) :
  Permutation (order_by_count_desc l) l.
Proof.
  induction l as [| x l IH]; simpl; [reflexivity |].
  rewrite insert_desc_perm. constructor. exact IH.
Qed.

Lemma insert_desc_sorted (x : SqlVal * Z) (l : list (SqlVal * Z)) :
  StronglySorted count_desc l -> StronglySorted count_desc (insert_desc x l).
Proof.
  induction 1 as [| y l Hs IH Hy]; simpl.
  - repeat constructor.
  - destruct (Z.leb (snd y) (snd x)) eqn:E.
    + apply Z.leb_le in E. constructor; [constructor; assumption |].
      constructor; [exact E |].
      revert Hy. apply List.Forall_impl. unfold count_desc. intros z Hz. lia.
    + apply Z.leb_gt in E. constructor; [exact IH |].
      eapply Permutation_Forall; [symmetry; apply insert_desc_perm |].
      constructor; [unfold count_desc; lia | exact Hy].
Qed.

Lemma order_by_count_desc_sorted (l : list (SqlVal * Z)) :
  StronglySorted count_desc (order_by_count_desc l).
Proof.
  induction l as [| x l IH]; simpl; [constructor | apply insert_desc_sorted, IH].
Qed.

Lemma firstn_In {A} (n : nat) (l : list A) (x : A) : In x (firstn n l) -> In x l.
Proof.
  revert l. induction n as [| n IH]; intros [| y l]; simpl; try tauto.
  intros [H | H]; [left; exact H | right; apply IH; exact H].
Qed.

Lemma firstn_sorted {A} (R : A -> A -> Prop) (n : nat) (l : list A) :
  StronglySorted R l -> StronglySorted R (firstn n l).
Proof.
  intros H. revert n. induction H as [| x l Hs IH Hx]; intros [| n]; simpl; try constructor.
  - apply IH.
  - rewrite List.Forall_forall in *. intros y Hy. apply Hx. eapply firstn_In; eauto.
Qed.

Lemma firstn_NoDup {A} (n : nat) (l : list A) : List.NoDup l -> List.NoDup (firstn n l).
Proof.
  intros H. rewrite <- (firstn_skipn n l) in H. eapply NoDup_app_remove_r. exact H.
Qed.

Lemma sql_limit_In {A} (n : Z) (l : list A) (x : A) : In x (sql_limit n l) -> In x l.
Proof.
  unfold sql_limit. destruct (Z.ltb n 0); [tauto | apply firstn_In].
Qed.

Lemma sql_limit_length {A} (n : Z) (l : list A) :
  0 <= n -> Z.of_nat (length (sql_limit n l)) <= n.
Proof.
  intros H. unfold sql_limit. destruct (Z.ltb n 0) eqn:E; [apply Z.ltb_lt in E; lia |].
  rewrite length_firstn. lia.
Qed.

Lemma sql_limit_all {A} (n : Z) (l : list A) :
  n < 0 \/ Z.of_nat (length (sql_limit n l)) < n -> sql_limit n l = l.
Proof.
  unfold sql_limit. destruct (Z.ltb n 0) eqn:E; [reflexivity |].
  apply Z.ltb_ge in E. intros [H | H]; [lia |].
  rewrite length_firstn in H. apply firstn_all2. lia.
Qed.

End GroupingFacts.

Section TopDependencies.
Context {rt : Runtime}.
Import DatabaseManager SBOMProcessor Matching.

Lemma top_where_true (k : SqlVal) :
  top_where k = true ->
  k <> SNull /\ forall s, sql_text k = Some s -> ~ contains_ci "githubaction" s.
Proof.
  unfold top_where. destruct (sql_text k) as [s |] eqn:Es; [| discriminate].
  intros H. split.
  - intros ->. discriminate Es.
  - intros s' [= <-] Hc. apply like_githubaction in Hc. rewrite Hc in H. discriminate.
Qed.

(** C2, as the code has it.  Whenever [get_top_dependencies limit] returns
    a list: for [0 <= limit] it has at most [limit] pairs; the counts do not
    increase along it; no identity occurs twice; every identity in it is
    not NULL, does not contain [githubaction] in any ASCII letter case (so
    also not as it is written), and is paired with the number of package entries of all stored documents
    that carry it; and when the limit does not cut the list (a negative
    limit never does), every identity that passes the filter is in it. *)
Theorem get_top_dependencies_spec (limit : Z) (d : Database) (res : list (SqlVal * Z)) :
  get_top_dependencies limit d = Ok res ->
  (0 <= limit -> Z.of_nat (length res) <= limit)
  /\ StronglySorted count_desc res
  /\ List.NoDup (map fst res)
  /\ (forall k n, In (k, n) res ->
        k <> SNull
        /\ (forall s, sql_text k = Some s ->
              ~ contains_ci "githubaction" s /\ ~ contains "githubaction" s)
        /\ exists names, package_names (sbom d) = Ok names
                         /\ In k names /\ n = count_of k names)
  /\ (limit < 0 \/ Z.of_nat (length res) < limit ->
      forall names k, package_names (sbom d) = Ok names ->
                      In k names -> top_where k = true -> In k (map fst res)).
Proof.
  unfold get_top_dependencies. destruct (Z.eqb limit 0) eqn:E0.
  - intros [= <-]. apply Z.eqb_eq in E0. subst limit. simpl.
    repeat split; try constructor; try lia; intros; contradiction.
  - destruct (package_names (sbom d)) as [names | e] eqn:En; simpl; [| discriminate].
    intros [= <-].
    set (G := group_count (List.filter top_where names)).
    assert (HG : forall k n, In (k, n) (order_by_count_desc G) <->
                             (In k names /\ top_where k = true) /\ n = count_of k names).
    { intros k n. split.
      - intros H. apply (Permutation_in _ (order_by_count_desc_perm G)) in H.
        apply group_count_In in H as [Hk ->]. apply filter_In in Hk as [Hk Hw].
        rewrite count_of_filter by exact Hw. tauto.
      - intros [[Hk Hw] ->].
        apply (Permutation_in _ (Permutation_sym (order_by_count_desc_perm G))).
        apply group_count_In. split; [apply filter_In; tauto |].
        rewrite count_of_filter by exact Hw. reflexivity. }
    assert (HN : List.NoDup (map fst (order_by_count_desc G))).
    { eapply Permutation_NoDup.
      - apply Permutation_map, Permutation_sym, order_by_count_desc_perm.
      - unfold G. rewrite group_count_keys. apply distinct_NoDup. }
    split; [apply sql_limit_length |].
    split.
    { unfold sql_limit. destruct (Z.ltb limit 0);
        [| apply firstn_sorted]; apply order_by_count_desc_sorted. }
    split.
    { unfold sql_limit. destruct (Z.ltb limit 0); [exact HN |].
      rewrite <- firstn_map. apply firstn_NoDup, HN. }
    split.
    { intros k n H. apply sql_limit_In, HG in H. destruct H as [[Hk Hw] Hn].
      destruct (top_where_true k Hw) as [Hnull Hci].
      split; [exact Hnull |]. split.
      - intros s Hs. split; [apply Hci, Hs |].
        intros Hc. apply (Hci s Hs), contains_contains_ci, Hc.
      - exists names. tauto. }
    intros Hl names' k [= <-] Hk Hw. rewrite (sql_limit_all _ _ Hl).
    apply in_map_iff. exists (k, count_of k names). split; [reflexivity |].
    apply HG. tauto.
Qed.

End TopDependencies.

Section AbsentPackages.
Context {rt : Runtime}.
Import DatabaseManager SBOMProcessor Absent.

Lemma rbind_assoc {A B C} (r : Result A) (f : A -> Result B) (g : B -> Result C) :
  rbind (rbind r f) g = rbind r (fun x => rbind (f x) g).
Proof. destruct r; reflexivity. Qed.

Lemma rbind_ext {A B} (r : Result A) (f g : A -> Result B) :
  (forall x, f x = g x) -> rbind r f = rbind r g.
Proof. intros H. destruct r; simpl; [apply H | reflexivity]. Qed.

Lemma rmap_app {A B} (f : A -> Result B) (a b : list A) :
  rmap f (a ++ b)
  = rbind (rmap f a) (fun x => rbind (rmap f b) (fun y => Ok (x ++ y)%list)).
Proof.
  induction a as [| v a IH]; simpl.
  - destruct (rmap f b); reflexivity.
  - destruct (f v) as [y | e]; simpl; [| reflexivity].
    rewrite IH. destruct (rmap f a) as [ys | e]; simpl; [| reflexivity].
    destruct (rmap f b); reflexivity.
Qed.

(** Rows that evaluate without an exception to values the WHERE clause
    drops can be taken out of the input. *)
Lemma rmap_drop_quiet {A B} (f : A -> Result B) (keep : B -> bool) (a vs p : list A) :
  (forall v, In v vs -> exists b, f v = Ok b /\ keep b = false) ->
  rbind (rmap f (a ++ vs ++ p)) (fun l => Ok (List.filter keep l))
  = rbind (rmap f (a ++ p)) (fun l => Ok (List.filter keep l)).
Proof.
  intros Hq.
  assert (Hvs : exists bs, rmap f vs = Ok bs /\ List.filter keep bs = []).
  { induction vs as [| v vs IH]; simpl.
    - exists []. split; reflexivity.
    - destruct (Hq v (or_introl eq_refl)) as (b & Hb & Hk).
      destruct IH as (bs & Hbs & Hf); [intros w Hw; apply Hq; right; exact Hw |].
      exists (b :: bs). rewrite Hb, Hbs. simpl. rewrite Hk. split; [reflexivity | exact Hf]. }
  destruct Hvs as (bs & Hbs & Hf).
  rewrite !rmap_app, Hbs. simpl.
  destruct (rmap f a) as [xs | e]; simpl; [| reflexivity].
  destruct (rmap f p) as [zs | e]; simpl; [| reflexivity].
  rewrite !List.filter_app, Hf. reflexivity.
Qed.

Lemma absent_rows (doc : Json) :
  packages_absent doc = true ->
  forall v, In v (map each_value (json_each doc ["sbom"; "packages"])) ->
            v = EPrim SNull \/ exists z, v = EPrim (SInt z).
Proof.
  unfold packages_absent, json_each.
  destruct (json_path ["sbom"; "packages"] doc) as [[| b | n | s | l | m] |];
    try discriminate; simpl; intros _ v H; try tauto;
    destruct H as [<- | []]; eauto.
Qed.

Lemma json_extract_absent (v : EachValue) (key : string) :
  v = EPrim SNull \/ (exists z, v = EPrim (SInt z)) -> json_extract v key = Ok SNull.
Proof. intros [-> | [z ->]]; reflexivity. Qed.

Lemma package_rows_app (a b : list SbomRow) :
  package_rows (a ++ b) = (package_rows a ++ package_rows b)%list.
Proof. unfold package_rows. apply flat_map_app. Qed.

Lemma package_rows_cons (r : SbomRow) (b : list SbomRow) :
  package_rows (r :: b)
  = (map each_value (json_each (json_content r) ["sbom"; "packages"]) ++ package_rows b)%list.
Proof. reflexivity. Qed.

Lemma top_where_not_null (v : SqlVal) :
  top_where v = (negb (is_null v) && top_where v)%bool.
Proof. destruct v; reflexivity. Qed.

Lemma filter_filter {A} (f g : A -> bool) (l : list A) :
  List.filter f (List.filter g l) = List.filter (fun x => (g x && f x)%bool) l.
Proof.
  induction l as [| x l IH]; simpl; [reflexivity |].
  destruct (g x); simpl; [destruct (f x) |]; rewrite IH; reflexivity.
Qed.

Lemma named_rows_absent (pre post : list SbomRow) (row : SbomRow) :
  packages_absent (json_content row) = true ->
  named_rows (pre ++ row :: post) = named_rows (pre ++ post).
Proof.
  intros Ha. unfold named_rows, package_names.
  rewrite !package_rows_app, package_rows_cons.
  apply rmap_drop_quiet. intros v Hv. exists SNull. split; [| reflexivity].
  apply json_extract_absent, (absent_rows _ Ha), Hv.
Qed.

Lemma top_by_named_rows (limit : Z) (d : Database) :
  get_top_dependencies limit d
  = if Z.eqb limit 0 then Ok []
    else rbind (named_rows (sbom d)) (fun l =>
         Ok (sql_limit limit (order_by_count_desc (group_count (List.filter top_where l))))).
Proof.
  unfold get_top_dependencies, named_rows. destruct (Z.eqb limit 0); [reflexivity |].
  rewrite rbind_assoc. apply rbind_ext. intros l. simpl.
  rewrite filter_filter.
  rewrite (List.filter_ext _ _ top_where_not_null l). reflexivity.
Qed.

Lemma stats_by_named_rows (d : Database) :
  get_dependency_stats d
  = rbind (named_rows (sbom d)) (fun l =>
    rbind (named_rows (sbom d)) (fun l' =>
    Ok {| unique_dependencies := Z.of_nat (length (distinct l));
          total_occurrences := Z.of_nat (length l');
          sbom_count := get_sbom_count d |})).
Proof.
  unfold get_dependency_stats, named_rows.
  destruct (package_names (sbom d)); reflexivity.
Qed.

Lemma dependency_of_absent (v : EachValue) :
  v = EPrim SNull \/ (exists z, v = EPrim (SInt z)) ->
  exists dep, dependency_of v = Ok dep /\ negb (is_null (package_name dep)) = false.
Proof.
  intros H. unfold dependency_of. rewrite !(json_extract_absent v _ H). simpl.
  eexists. split; reflexivity.
Qed.

Lemma by_repo_absent (repo : string) (pre post : list SbomRow) (row : SbomRow) (d d' : Database) :
  sbom d = (pre ++ row :: post)%list -> sbom d' = (pre ++ post)%list ->
  packages_absent (json_content row) = true ->
  get_dependencies_by_repo repo d = get_dependencies_by_repo repo d'.
Proof.
  intros Hd Hd' Ha. unfold get_dependencies_by_repo. cbv zeta. rewrite Hd, Hd'.
  rewrite !List.filter_app. simpl.
  destruct (String.eqb (source_repo row) repo); [| reflexivity].
  rewrite !package_rows_app, package_rows_cons.
  apply rmap_drop_quiet. intros v Hv.
  apply dependency_of_absent, (absent_rows _ Ha), Hv.
Qed.

(** C8, as the code has it.  A stored document in which the path
    [$.sbom.packages] is missing, or holds [null], a boolean or a number,
    adds no package row to any query: each of the three operations gives
    what it gives on the database without that document (only the
    document count of the statistics is one higher), so the document never
    makes an operation raise; on a database that holds only such a
    document the operations return empty results. *)
Theorem absent_packages_contribute_nothing
  (d : Database) (pre post : list SbomRow) (row : SbomRow) :
  sbom d = (pre ++ row :: post)%list ->
  packages_absent (json_content row) = true ->
  let d' := with_sbom (pre ++ post) d in
  let alone := with_sbom [row] d in
  (forall limit, get_top_dependencies limit d = get_top_dependencies limit d')
  /\ get_dependency_stats d
     = rbind (get_dependency_stats d') (fun s =>
         Ok {| unique_dependencies := unique_dependencies s;
               total_occurrences := total_occurrences s;
               sbom_count := sbom_count s + 1 |})
  /\ (forall repo, get_dependencies_by_repo repo d = get_dependencies_by_repo repo d')
  /\ (forall limit, get_top_dependencies limit alone = Ok [])
  /\ get_dependency_stats alone
     = Ok {| unique_dependencies := 0; total_occurrences := 0; sbom_count := 1 |}
  /\ (forall repo, get_dependencies_by_repo repo alone = Ok []).
Proof.
  intros Hd Ha d' alone.
  assert (Hn : named_rows (sbom d) = named_rows (sbom d')).
  { rewrite Hd. apply named_rows_absent, Ha. }
  assert (Hn1 : named_rows [row] = Ok []).
  { exact (named_rows_absent [] [] row Ha). }
  split; [| split; [| split; [| split; [| split]]]].
  - intros limit. rewrite !top_by_named_rows, Hn. reflexivity.
  - rewrite !stats_by_named_rows, Hn.
    assert (Hc : get_sbom_count d = get_sbom_count d' + 1).
    { unfold get_sbom_count. rewrite Hd. simpl. rewrite !length_app. simpl. lia. }
    rewrite Hc. destruct (named_rows (sbom d')); reflexivity.
  - intros repo. apply (by_repo_absent repo pre post row); [exact Hd | reflexivity | exact Ha].
  - intros limit. rewrite top_by_named_rows. simpl. rewrite Hn1.
    destruct (Z.eqb limit 0); [reflexivity |]. simpl.
    unfold sql_limit. destruct (Z.ltb limit 0); [reflexivity |].
    destruct (Z.to_nat limit); reflexivity.
  - rewrite stats_by_named_rows. simpl. rewrite Hn1. reflexivity.
  - intros repo.
    rewrite (by_repo_absent repo [] [] row alone (with_sbom [] d)); auto.
Qed.

End AbsentPackages.

(** ** The forge client *)

Section ClientFacts.
Context {rt : Runtime}.
Import GitHubClient Effects.

Lemma same_store_refl (w : World) : same_store w w.
Proof. unfold same_store. tauto. Qed.

Lemma same_store_trans (w1 w2 w3 : World) :
  same_store w1 w2 -> same_store w2 w3 -> same_store w1 w3.
Proof. unfold same_store. intros (a & b & c & d & e) (a' & b' & c' & d' & e'). repeat split; congruence. Qed.

Lemma make_request_unfold (c : Client) (url : string) (rc : Z) (w : World) :
  _make_request c url rc w =
  if Z_gt_dec rc 3 then (Ok None, w)
  else match requests_get url w with
       | (Failed e, w1) => (Ok None, w1)
       | (Responded r, w1) =>
           match _handle_rate_limit c r w1 with
           | (Raised e, w2) => (Raised e, w2)
           | (Ok false, w2) => (Ok (Some r), w2)
           | (Ok true, w2) =>
               if Z_lt_dec rc 3 then _make_request c url (rc + 1) w2 else (Ok None, w2)
           end
       end.
Proof.
  simp _make_request.
  destruct (Z_gt_dec rc 3); cbn -[requests_get _handle_rate_limit _make_request];
    [reflexivity |].
  destruct (requests_get url w) as [[r | e] w1];
    cbn -[requests_get _handle_rate_limit _make_request]; [| reflexivity].
  destruct (_handle_rate_limit c r w1) as [[[|] | e] w2];
    cbn -[requests_get _handle_rate_limit _make_request]; try reflexivity.
  destruct (Z_lt_dec rc 3); reflexivity.
Qed.

(** [_handle_rate_limit] asks for a retry exactly on a 403 response with
    remaining quota ["0"] and a reset time after the current second, and then
    it has slept until two seconds after the reset; in every other case it
    leaves the world as it is. *)
Lemma handle_rate_limit_cases (c : Client) (r : Response) (w : World) :
  (exists s t,
      status_code r = 403
      /\ headers r !! "X-RateLimit-Remaining" = Some "0"
      /\ headers r !! "X-RateLimit-Reset" = Some s /\ s <> ""
      /\ py_int s = Some t /\ int_of_float (clock w) < t
      /\ _handle_rate_limit c r w
         = (Ok true, after_sleep (inject_Z (t - int_of_float (clock w) + 2)) w))
  \/ (exists res, _handle_rate_limit c r w = (res, w) /\ res <> Ok true).
Proof.
  unfold _handle_rate_limit.
  destruct (Z.eqb (status_code r) 403) eqn:Es; [| right; eexists; split; [reflexivity | discriminate]].
  destruct (headers r !! "X-RateLimit-Remaining") as [rem |] eqn:Er; simpl;
    [| right; eexists; split; [reflexivity | discriminate]].
  destruct (String.eqb rem "0") eqn:E0; [| right; eexists; split; [reflexivity | discriminate]].
  destruct (headers r !! "X-RateLimit-Reset") as [[| a s] |] eqn:Et; simpl;
    try (right; eexists; split; [reflexivity | discriminate]).
  unfold int_of_str, bind.
  destruct (py_int (String a s)) as [t |] eqn:Ep; simpl;
    [| right; eexists; split; [reflexivity | discriminate]].
  destruct (Z.ltb 0 (t - int_of_float (clock w))) eqn:El; simpl;
    [| right; eexists; split; [reflexivity | discriminate]].
  left. exists (String a s), t.
  apply Z.eqb_eq in Es. apply String.eqb_eq in E0. apply Z.ltb_lt in El. subst rem.
  repeat split; try assumption; try discriminate; try lia.
Qed.

Lemma requests_get_effect (url : string) (w : World) :
  let '(_, w1) := requests_get url w in
  requests_sent w1 = (requests_sent w ++ [url])%list
  /\ slept w1 = slept w /\ clock w1 = clock w /\ sboms_dir w1 = sboms_dir w
  /\ same_store w w1.
Proof. unfold requests_get, same_store. simpl. tauto. Qed.

Lemma after_sleep_effect (d : Q) (w : World) :
  requests_sent (after_sleep d w) = requests_sent w
  /\ slept (after_sleep d w) = (slept w ++ [d])%list
  /\ sboms_dir (after_sleep d w) = sboms_dir w
  /\ same_store w (after_sleep d w).
Proof. unfold after_sleep, same_store. simpl. tauto. Qed.

(** Induction along the retries of [_make_request]. *)
Lemma make_request_ind (c : Client) (url : string)
  (P : Z -> World -> Result (option Response) * World -> Prop) :
  (forall rc w, 3 < rc -> P rc w (Ok None, w)) ->
  (forall rc w e w1, rc <= 3 -> requests_get url w = (Failed e, w1) -> P rc w (Ok None, w1)) ->
  (forall rc w r w1 res, rc <= 3 -> requests_get url w = (Responded r, w1) ->
      _handle_rate_limit c r w1 = (res, w1) -> res <> Ok true ->
      P rc w (match res with Ok _ => Ok (Some r) | Raised e => Raised e end, w1)) ->
  (forall rc w r w1 w2, rc < 3 -> requests_get url w = (Responded r, w1) ->
      _handle_rate_limit c r w1 = (Ok true, w2) ->
      P (rc + 1) w2 (_make_request c url (rc + 1) w2) ->
      P rc w (_make_request c url (rc + 1) w2)) ->
  (forall rc w r w1 w2, rc = 3 -> requests_get url w = (Responded r, w1) ->
      _handle_rate_limit c r w1 = (Ok true, w2) -> P rc w (Ok None, w2)) ->
  forall rc w, P rc w (_make_request c url rc w).
Proof.
  intros Hbig Hfail Hstop Hretry Hlast rc.
  remember (Z.to_nat (4 - rc)) as n eqn:En. revert rc En.
  induction n as [n IH] using lt_wf_ind. intros rc En w.
  rewrite make_request_unfold.
  destruct (Z_gt_dec rc 3) as [Hgt | Hle]; [apply Hbig; lia |].
  destruct (requests_get url w) as [[r | e] w1] eqn:Eg; [| apply (Hfail rc w e w1); [lia | exact Eg]].
  destruct (handle_rate_limit_cases c r w1) as [(s & t & _ & _ & _ & _ & _ & _ & Hh) | (res & Hh & Hne)].
  - rewrite Hh. destruct (Z_lt_dec rc 3) as [Hlt | Hge].
    + apply (Hretry rc w r w1 _ Hlt Eg Hh).
      apply (IH (Z.to_nat (4 - (rc + 1)))); [lia | reflexivity].
    + apply (Hlast rc w r w1 _); [lia | exact Eg | exact Hh].
  - rewrite Hh. pose proof (Hstop rc w r w1 res ltac:(lia) Eg Hh Hne) as H.
    destruct res as [[|] | e]; [contradiction Hne; reflexivity | exact H | exact H].
Qed.

End ClientFacts.

Section RetryFacts.
Context {rt : Runtime}.
Import GitHubClient Effects.

Lemma make_request_frame (c : Client) (url : string) (rc : Z) (w : World) :
  let w' := snd (_make_request c url rc w) in
  same_store w w' /\ sboms_dir w' = sboms_dir w.
Proof.
  apply (make_request_ind c url
           (fun _ w res => same_store w (snd res) /\ sboms_dir (snd res) = sboms_dir w)).
  - intros. split; [apply same_store_refl | reflexivity].
  - intros ? ? ? ? _ Hg. pose proof (requests_get_effect url w0) as H. rewrite Hg in H.
    simpl. tauto.
  - intros ? ? ? ? ? _ Hg _ _. pose proof (requests_get_effect url w0) as H. rewrite Hg in H.
    simpl. tauto.
  - intros ? ? ? ? ? _ Hg Hh [IH1 IH2].
    pose proof (requests_get_effect url w0) as H. rewrite Hg in H.
    destruct (handle_rate_limit_cases c r w1) as [(s & t & _ & _ & _ & _ & _ & _ & Hh') | (res & Hh' & Hne)];
      rewrite Hh in Hh'; [| congruence].
    injection Hh' as ->.
    destruct (after_sleep_effect (inject_Z (t - int_of_float (clock w1) + 2)) w1) as (_ & _ & Hs & Hst).
    split.
    + eapply same_store_trans; [| exact IH1]. eapply same_store_trans; [| exact Hst]. tauto.
    + rewrite IH2, Hs. tauto.
  - intros ? ? ? ? ? _ Hg Hh.
    pose proof (requests_get_effect url w0) as H. rewrite Hg in H.
    destruct (handle_rate_limit_cases c r w1) as [(s & t & _ & _ & _ & _ & _ & _ & Hh') | (res & Hh' & Hne)];
      rewrite Hh in Hh'; [| congruence].
    injection Hh' as ->.
    destruct (after_sleep_effect (inject_Z (t - int_of_float (clock w1) + 2)) w1) as (_ & _ & Hs & Hst).
    cbn [snd]. split.
    + eapply same_store_trans; [| exact Hst]. tauto.
    + rewrite Hs. tauto.
Qed.

(** The requests and the sleeps of one call: [k] requests for [url], at most
    [4 - retry_count], and a sleep before every request but the first. *)
Lemma make_request_trace (c : Client) (url : string) (rc : Z) (w : World) :
  let w' := snd (_make_request c url rc w) in
  exists (k : nat) (sl : list Q),
    requests_sent w' = (requests_sent w ++ repeat url k)%list
    /\ slept w' = (slept w ++ sl)%list
    /\ (k <= Z.to_nat (4 - rc))%nat
    /\ (rc <= 3 -> (1 <= k)%nat)
    /\ (k <= length sl + 1)%nat.
Proof.
  apply (make_request_ind c url
           (fun rc w res => exists (k : nat) (sl : list Q),
                requests_sent (snd res) = (requests_sent w ++ repeat url k)%list
                /\ slept (snd res) = (slept w ++ sl)%list
                /\ (k <= Z.to_nat (4 - rc))%nat
                /\ (rc <= 3 -> (1 <= k)%nat)
                /\ (k <= length sl + 1)%nat)).
  - intros ? ? Hrc. exists 0%nat, []. simpl. rewrite !app_nil_r.
    repeat split; try lia.
  - intros ? ? ? ? Hrc Hg. pose proof (requests_get_effect url w0) as H. rewrite Hg in H.
    exists 1%nat, []. simpl. rewrite app_nil_r. destruct H as (H1 & H2 & _).
    repeat split; try assumption; try lia.
  - intros ? ? ? ? ? Hrc Hg _ _. pose proof (requests_get_effect url w0) as H. rewrite Hg in H.
    exists 1%nat, []. simpl. rewrite app_nil_r. destruct H as (H1 & H2 & _).
    repeat split; try assumption; try lia.
  - intros ? ? ? ? ? Hrc Hg Hh (k & sl & IH1 & IH2 & IH3 & IH4 & IH5).
    pose proof (requests_get_effect url w0) as H. rewrite Hg in H.
    destruct H as (H1 & H2 & _).
    destruct (handle_rate_limit_cases c r w1) as [(s & t & _ & _ & _ & _ & _ & _ & Hh') | (res & Hh' & Hne)];
      rewrite Hh in Hh'; [| congruence].
    injection Hh' as ->.
    destruct (after_sleep_effect (inject_Z (t - int_of_float (clock w1) + 2)) w1) as (Hr & Hs & _).
    exists (S k), (inject_Z (t - int_of_float (clock w1) + 2) :: sl).
    rewrite IH1, IH2, Hr, Hs, H1, H2, <- !app_assoc. cbn [repeat app length].
    repeat split; try lia.
  - intros ? ? ? ? ? Hrc Hg Hh.
    pose proof (requests_get_effect url w0) as H. rewrite Hg in H.
    destruct H as (H1 & H2 & _).
    destruct (handle_rate_limit_cases c r w1) as [(s & t & _ & _ & _ & _ & _ & _ & Hh') | (res & Hh' & Hne)];
      rewrite Hh in Hh'; [| congruence].
    injection Hh' as ->.
    destruct (after_sleep_effect (inject_Z (t - int_of_float (clock w1) + 2)) w1) as (Hr & Hs & _).
    exists 1%nat, [inject_Z (t - int_of_float (clock w1) + 2)].
    cbn [snd repeat length]. rewrite Hr, Hs, H1, H2. repeat split; try lia.
Qed.

End RetryFacts.

Section RetryTheorems.
Context {rt : Runtime}.
Import GitHubClient Effects.

Lemma int_of_float_le (q : Q) : (0 <= q)%Q -> (inject_Z (int_of_float q) <= q)%Q.
Proof.
  destruct q as [n d]. unfold Qle, int_of_float, inject_Z. simpl.
  intros H. rewrite Z.mul_1_r in *.
  rewrite Z.mul_comm. apply Z.mul_quot_le; lia.
Qed.

Lemma wake_after_reset (q : Q) (t : Z) :
  (0 <= q)%Q -> (inject_Z (t + 2) <= q + inject_Z (t - int_of_float q + 2))%Q.
Proof.
  intros H. pose proof (int_of_float_le q H) as Hi.
  replace (t + 2) with (int_of_float q + (t - int_of_float q + 2)) at 1 by lia.
  rewrite inject_Z_plus. apply Qplus_le_l. exact Hi.
Qed.

(** C5. [_make_request] is a total function.  A call with [retry_count = 0]
    sends at least one and at most four requests (three retries), all for
    the same url, and sleeps before every request but the first.  Beyond the
    bound it gives [None] without a request.  A network error gives [None]
    after that one request; a response on which [_handle_rate_limit] does
    not ask for a retry is returned (or its exception raised) after that one
    request.  A retry is made only when [_handle_rate_limit] returned [True],
    which it does only on a 403 response with remaining quota ["0"] and a
    reset time in the future, after sleeping; then the call continues as the
    call with [retry_count + 1] while [retry_count < 3], and gives [None]
    when [retry_count = 3]. *)
Theorem make_request_retries_bounded (c : Client) (url : string) :
  (forall w, exists (k : nat) (sl : list Q),
      requests_sent (snd (_make_request c url 0 w)) = (requests_sent w ++ repeat url k)%list
      /\ (1 <= k <= 4)%nat
      /\ slept (snd (_make_request c url 0 w)) = (slept w ++ sl)%list
      /\ (k <= length sl + 1)%nat)
  /\ (forall rc w, 3 < rc -> _make_request c url rc w = (Ok None, w))
  /\ (forall rc w e w1, rc <= 3 -> requests_get url w = (Failed e, w1) ->
        _make_request c url rc w = (Ok None, w1))
  /\ (forall rc w r w1 res w2, rc <= 3 -> requests_get url w = (Responded r, w1) ->
        _handle_rate_limit c r w1 = (res, w2) -> res <> Ok true ->
        w2 = w1
        /\ _make_request c url rc w
           = (match res with Ok _ => Ok (Some r) | Raised e => Raised e end, w1))
  /\ (forall rc w r w1 w2, rc <= 3 -> requests_get url w = (Responded r, w1) ->
        _handle_rate_limit c r w1 = (Ok true, w2) ->
        (status_code r = 403
         /\ headers r !! "X-RateLimit-Remaining" = Some "0"
         /\ exists s t, headers r !! "X-RateLimit-Reset" = Some s
                        /\ py_int s = Some t /\ int_of_float (clock w1) < t
                        /\ w2 = after_sleep (inject_Z (t - int_of_float (clock w1) + 2)) w1)
        /\ _make_request c url rc w
           = if Z.ltb rc 3 then _make_request c url (rc + 1) w2 else (Ok None, w2)).
Proof.
  split; [| split; [| split; [| split]]].
  - intros w. destruct (make_request_trace c url 0 w) as (k & sl & H1 & H2 & H3 & H4 & H5).
    exists k, sl. cbv zeta in *. repeat split; try assumption; lia.
  - intros rc w H. rewrite make_request_unfold.
    destruct (Z_gt_dec rc 3); [reflexivity | lia].
  - intros rc w e w1 H Hg. rewrite make_request_unfold, Hg.
    destruct (Z_gt_dec rc 3); [lia | reflexivity].
  - intros rc w r w1 res w2 H Hg Hh Hne.
    destruct (handle_rate_limit_cases c r w1)
      as [(s & t & _ & _ & _ & _ & _ & _ & Hh') | (res' & Hh' & _)];
      rewrite Hh in Hh'; injection Hh' as -> ->; [contradiction Hne; reflexivity |].
    split; [reflexivity |].
    rewrite make_request_unfold, Hg, Hh.
    destruct (Z_gt_dec rc 3); [lia |].
    destruct res' as [[|] | e]; [contradiction Hne; reflexivity | reflexivity | reflexivity].
  - intros rc w r w1 w2 H Hg Hh. split.
    + destruct (handle_rate_limit_cases c r w1)
        as [(s & t & H1 & H2 & H3 & H4 & H5 & H6 & Hh') | (res' & Hh' & Hne)];
        rewrite Hh in Hh'.
      * injection Hh' as ->. repeat split; try assumption. exists s, t. tauto.
      * injection Hh' as <- _. contradiction Hne. reflexivity.
    + rewrite make_request_unfold, Hg, Hh.
      destruct (Z_gt_dec rc 3); [lia |].
      destruct (Z_lt_dec rc 3) as [Hl | Hl], (Z.ltb rc 3) eqn:E; try reflexivity.
      * apply Z.ltb_ge in E. lia.
      * apply Z.ltb_lt in E. lia.
Qed.

(** C4, as the code has it.  Let a request be answered by a 403 response
    with remaining quota ["0"].  If the response carries a reset time that is
    after the current second, the client sleeps for the seconds up to the
    reset plus two (so it wakes no earlier than two seconds after the
    reset); after that it retries the same request when fewer than three
    retries have been made, and gives [None] when this was the third retry.
    If the response carries no reset time, the response is returned as it
    is, with no sleep and no further request. *)
Theorem quota_exhausted_wait_then_retry
  (c : Client) (url : string) (rc : Z) (w w1 : World) (response : Response) :
  rc <= 3 ->
  requests_get url w = (Responded response, w1) ->
  status_code response = 403 ->
  headers response !! "X-RateLimit-Remaining" = Some "0" ->
  (forall s t,
      headers response !! "X-RateLimit-Reset" = Some s -> s <> "" ->
      py_int s = Some t -> int_of_float (clock w1) < t ->
      let w2 := after_sleep (inject_Z (t - int_of_float (clock w1) + 2)) w1 in
      ((0 <= clock w1)%Q -> (inject_Z (t + 2) <= clock w2)%Q)
      /\ (rc < 3 -> _make_request c url rc w = _make_request c url (rc + 1) w2)
      /\ (rc = 3 -> _make_request c url rc w = (Ok None, w2)))
  /\ (truthy (headers response !! "X-RateLimit-Reset") = false ->
      _make_request c url rc w = (Ok (Some response), w1)).
Proof.
  intros Hrc Hg Hs Hrem. split.
  - intros s t Hreset Hne Hp Hlt w2.
    assert (Hh : _handle_rate_limit c response w1 = (Ok true, w2)).
    { destruct (handle_rate_limit_cases c response w1)
        as [(s' & t' & _ & _ & H3 & _ & H5 & _ & Hh') | (res' & Hh' & Hn)].
      - rewrite Hreset in H3. injection H3 as <-. rewrite Hp in H5. injection H5 as <-.
        exact Hh'.
      - exfalso. revert Hh' Hn. unfold _handle_rate_limit.
        rewrite Hs, Hrem, Hreset. simpl.
        destruct s as [| a s]; [contradiction Hne; reflexivity |]. simpl.
        unfold int_of_str, bind. rewrite Hp. simpl.
        apply Z.lt_0_sub, Z.ltb_lt in Hlt. rewrite Hlt. simpl.
        intros [= <- _] Hn. apply Hn. reflexivity. }
    split; [| split].
    + intros H0. unfold w2, after_sleep. simpl. apply wake_after_reset, H0.
    + intros Hl. rewrite make_request_unfold, Hg, Hh.
      destruct (Z_gt_dec rc 3); [lia |]. destruct (Z_lt_dec rc 3); [reflexivity | lia].
    + intros He. rewrite make_request_unfold, Hg, Hh.
      destruct (Z_gt_dec rc 3); [lia |]. destruct (Z_lt_dec rc 3); [lia | reflexivity].
  - intros Ht. rewrite make_request_unfold, Hg.
    destruct (Z_gt_dec rc 3); [lia |].
    unfold _handle_rate_limit. rewrite Hs, Hrem. simpl. rewrite Ht. reflexivity.
Qed.

End RetryTheorems.

(** ** The batch orchestrator *)

Section WorldEffects.
Context {rt : Runtime}.
Import GitHubClient Effects ScanState.

Lemma same_scan_state_refl (w : World) : same_scan_state w w.
Proof. unfold same_scan_state. tauto. Qed.

Lemma same_scan_state_trans (w1 w2 w3 : World) :
  same_scan_state w1 w2 -> same_scan_state w2 w3 -> same_scan_state w1 w3.
Proof.
  unfold same_scan_state. intros (a & b & c & d) (a' & b' & c' & d').
  repeat split; congruence.
Qed.

Lemma same_store_scan_state (w w' : World) : same_store w w' -> same_scan_state w w'.
Proof.
  unfold same_store, same_scan_state. intros (a & b & c & d & _).
  rewrite a. tauto.
Qed.

Lemma make_request_quiet (c : Client) (url : string) (rc : Z) (w w' : World)
  (res : Result (option Response)) :
  _make_request c url rc w = (res, w') -> same_scan_state w w'.
Proof.
  intros H. pose proof (make_request_frame c url rc w) as [Hs _].
  rewrite H in Hs. apply same_store_scan_state, Hs.
Qed.

Lemma check_rate_limit_remaining_world (c : Client) (r : Response) (w w' : World)
  (res : Result bool) :
  _check_rate_limit_remaining c r w = (res, w') -> w' = w.
Proof.
  unfold _check_rate_limit_remaining.
  destruct (truthy (headers r !! "X-RateLimit-Remaining")); [| intros [= _ <-]; reflexivity].
  unfold bind, int_of_str.
  destruct (py_int (default "" (headers r !! "X-RateLimit-Remaining")));
    simpl; intros [= _ <-]; reflexivity.
Qed.

Lemma response_json_world {S} (r : Response) (s s' : S) (res : Result Json) :
  response_json r s = (res, s') -> s' = s.
Proof. unfold response_json. destruct (json_body r); intros [= _ <-]; reflexivity. Qed.

Lemma dict_get_world {S} (d : Json) (k : string) (dflt : Json) (s s' : S) (res : Result Json) :
  dict_get d k dflt s = (res, s') -> s' = s.
Proof. unfold dict_get. destruct d; intros [= _ <-]; reflexivity. Qed.

(** [fetch_sbom] records its call and otherwise leaves the scan state. *)
Lemma fetch_sbom_effect (c : Client) (owner repo : string) (w w' : World)
  (res : Result (option string)) :
  fetch_sbom c owner repo w = (res, w') ->
  DatabaseManager.analysis_sessions (db w') = DatabaseManager.analysis_sessions (db w)
  /\ analysis_progress w' = analysis_progress w
  /\ fetch_trace w' = (fetch_trace w ++ [(owner ++ "/" ++ repo)%string])%list
  /\ session_trace w' = session_trace w.
Proof.
  unfold fetch_sbom, bind, modify.
  set (w0 := with_fetch_trace _ w).
  assert (H0 : DatabaseManager.analysis_sessions (db w0) = DatabaseManager.analysis_sessions (db w)
               /\ analysis_progress w0 = analysis_progress w
               /\ fetch_trace w0 = (fetch_trace w ++ [(owner ++ "/" ++ repo)%string])%list
               /\ session_trace w0 = session_trace w) by (unfold w0; simpl; tauto).
  destruct (_make_request c _ 0 w0) as [[[r |] | e] w1] eqn:Em;
    pose proof (make_request_quiet _ _ _ _ _ _ Em) as (a & b & c' & d);
    assert (H1 : DatabaseManager.analysis_sessions (db w1) = DatabaseManager.analysis_sessions (db w)
               /\ analysis_progress w1 = analysis_progress w
               /\ fetch_trace w1 = (fetch_trace w ++ [(owner ++ "/" ++ repo)%string])%list
               /\ session_trace w1 = session_trace w)
      by (destruct H0 as (a0 & b0 & c0 & d0); rewrite a, b, c', d; tauto);
    try (intros [= _ <-]; exact H1).
  destruct (negb (response_ok r)); [intros [= _ <-]; exact H1 |].
  destruct (Z.eqb (status_code r) 200).
  - destruct (_check_rate_limit_remaining c r w1) as [[low | e] w2] eqn:Ec;
      apply check_rate_limit_remaining_world in Ec; subst w2;
      [| intros [= _ <-]; exact H1].
    destruct (response_json r w1) as [[j | e] w3] eqn:Ej;
      apply response_json_world in Ej; subst w3;
      [| intros [= _ <-]; exact H1].
    unfold write_json_file, ret.
    destruct (py_open_error (sboms_dir w1) (sbom_filename owner repo));
      intros [= _ <-]; [exact H1 | simpl; exact H1].
  - repeat match goal with |- context [if ?b then _ else _] => destruct b end;
      intros [= _ <-]; exact H1.
Qed.

Lemma get_rate_limit_info_effect (c : Client) (w w' : World) (res : Result RateLimitInfo) :
  get_rate_limit_info c w = (res, w') -> same_store w w' /\ slept w' = slept (snd (_make_request c (base_url ++ "/rate_limit") 0 w)).
Proof.
  unfold get_rate_limit_info, bind. cbv zeta.
  pose proof (make_request_frame c (base_url ++ "/rate_limit") 0 w) as [Hs _].
  destruct (_make_request c (base_url ++ "/rate_limit") 0 w) as [[[r |] | e] w1];
    cbn [snd] in *; try (intros [= _ <-]; split; [exact Hs | reflexivity]).
  destruct (response_ok r && Z.eqb (status_code r) 200)%bool;
    [| intros [= _ <-]; split; [exact Hs | reflexivity]].
  destruct (response_json r w1) as [[data | e] w2] eqn:E1;
    apply response_json_world in E1; subst w2;
    [| intros [= _ <-]; split; [exact Hs | reflexivity]].
  destruct (dict_get data "resources" (JObj []) w1) as [[resources | e] w2] eqn:E2;
    apply dict_get_world in E2; subst w2;
    [| intros [= _ <-]; split; [exact Hs | reflexivity]].
  destruct (dict_get resources "core" (JObj []) w1) as [[core | e] w2] eqn:E3;
    apply dict_get_world in E3; subst w2;
    [| intros [= _ <-]; split; [exact Hs | reflexivity]].
  destruct (dict_get core "limit" (JStr "Unknown") w1) as [[lim | e] w2] eqn:E4;
    apply dict_get_world in E4; subst w2;
    [| intros [= _ <-]; split; [exact Hs | reflexivity]].
  destruct (dict_get core "remaining" (JStr "Unknown") w1) as [[rem | e] w2] eqn:E5;
    apply dict_get_world in E5; subst w2;
    [| intros [= _ <-]; split; [exact Hs | reflexivity]].
  destruct (dict_get core "reset" (JStr "Unknown") w1) as [[rst | e] w2] eqn:E6;
    apply dict_get_world in E6; subst w2;
    intros [= _ <-]; (split; [exact Hs | reflexivity]).
Qed.

End WorldEffects.

Section FrameEffects.
Context {rt : Runtime}.
Variable github_client : GitHubClient.Client.
Import GitHubClient Effects ScanState Pacing App.

Lemma count_repo_effect (sid : Z) (fr : Frame) (p : Progress) :
  analysis_progress (world fr) !! sid = Some p ->
  exists fr',
    count_repo sid fr = (Ok tt, fr')
    /\ processed_count fr' = processed_count fr + 1
    /\ analysis_progress (world fr')
       = <[sid := set_processed (processed_count fr + 1) p]> (analysis_progress (world fr))
    /\ DatabaseManager.analysis_sessions (db (world fr'))
       = map (DatabaseManager.update_row sid (processed_count fr + 1) "processing"
                (current_timestamp (world fr)))
             (DatabaseManager.analysis_sessions (db (world fr)))
    /\ session_trace (world fr')
       = (session_trace (world fr) ++ [DatabaseManager.analysis_sessions (db (world fr'))])%list
    /\ fetch_trace (world fr') = fetch_trace (world fr)
    /\ slept (world fr') = slept (world fr).
Proof.
  intros Hp. unfold count_repo, bind, incr_processed_count, lift, progress_update.
  cbn [world processed_count]. rewrite Hp.
  unfold update_analysis_session, modify. eexists. split; [reflexivity |].
  cbn. repeat split; reflexivity.
Qed.

Lemma monitor_rate_limit_effect (fr : Frame) :
  exists fr',
    monitor_rate_limit github_client fr = (Ok tt, fr')
    /\ processed_count fr' = processed_count fr
    /\ same_scan_state (world fr) (world fr').
Proof.
  unfold monitor_rate_limit, try_except, bind, lift.
  destruct (get_rate_limit_info github_client (world fr)) as [[info | e] w1] eqn:Eg;
    apply get_rate_limit_info_effect in Eg as [Hs _]; apply same_store_scan_state in Hs.
  - unfold int_of_str. destruct (py_int (remaining info)); cbn;
      eexists; (split; [reflexivity |]); cbn; tauto.
  - cbn. eexists. split; [reflexivity |]. cbn. tauto.
Qed.

Lemma lift_time_sleep (d : Q) (fr : Frame) :
  lift (time_sleep d) fr
  = (Ok tt, {| world := after_sleep d (world fr); processed_count := processed_count fr |}).
Proof. reflexivity. Qed.

(** The delay block of the loop: it ends with one sleep, whose length the
    processed count and the poll decide. *)
Lemma adaptive_delay_effect (pc : Z) (fr : Frame) :
  exists fr',
    adaptive_delay github_client pc fr = (Ok tt, fr')
    /\ processed_count fr' = processed_count fr
    /\ same_scan_state (world fr) (world fr')
    /\ if Z.eqb (pc mod 5) 0 then
         let '(poll, w1) := get_rate_limit_info github_client (world fr) in
         world fr'
         = after_sleep (match observed_remaining poll with
                        | Some n => if Z.leb n 20 then 2 else 1 # 2
                        | None => 1 # 2
                        end) w1
       else world fr' = after_sleep (1 # 10) (world fr).
Proof.
  unfold adaptive_delay. destruct (Z.eqb (pc mod 5) 0).
  - unfold try_except, bind. unfold lift at 1.
    destruct (get_rate_limit_info github_client (world fr)) as [[info | e] w1] eqn:Eg;
      apply get_rate_limit_info_effect in Eg as [Hs _]; apply same_store_scan_state in Hs;
      cbn [observed_remaining].
    + unfold int_of_str. destruct (py_int (remaining info)) as [n |]; cbn [ret raise].
      * destruct (Z.leb n 20); rewrite lift_time_sleep;
          eexists; (split; [reflexivity |]); cbn [world processed_count];
          (split; [reflexivity |]); (split; [| reflexivity]);
          (eapply same_scan_state_trans; [exact Hs |]);
          apply same_store_scan_state, after_sleep_effect.
      * rewrite lift_time_sleep.
        eexists; (split; [reflexivity |]); cbn [world processed_count];
          (split; [reflexivity |]); (split; [| reflexivity]);
          (eapply same_scan_state_trans; [exact Hs |]);
          apply same_store_scan_state, after_sleep_effect.
    + rewrite lift_time_sleep.
      eexists; (split; [reflexivity |]); cbn [world processed_count];
        (split; [reflexivity |]); (split; [| reflexivity]);
        (eapply same_scan_state_trans; [exact Hs |]);
        apply same_store_scan_state, after_sleep_effect.
  - rewrite lift_time_sleep. eexists. split; [reflexivity |]. cbn [world processed_count].
    split; [reflexivity |]. split; [| reflexivity].
    apply same_store_scan_state, after_sleep_effect.
Qed.

End FrameEffects.

Section LoopBody.
Context {rt : Runtime}.
Variable github_client : GitHubClient.Client.
Import GitHubClient Effects ScanState Pacing App Loop.

Lemma store_sbom_effect (k : string) (j : Json) (w : World) :
  exists b w', store_sbom k j w = (Ok b, w') /\ same_scan_state w w'.
Proof.
  unfold store_sbom, DatabaseManager.store_sbom. cbn.
  eexists _, _. split; [reflexivity |]. unfold same_scan_state. cbn. tauto.
Qed.

Lemma read_json_file_world (path : string) (w w' : World) (res : Result Json) :
  read_json_file path w = (res, w') -> w' = w.
Proof. unfold read_json_file. destruct (sboms_dir w !! path); intros [= _ <-]; reflexivity. Qed.

(** The two ways through the [try] block: an exception before the
    repository is counted, or one count followed by the rate-limit check and
    the delay, which raise nothing. *)
Lemma try_repo_cases (sid : Z) (repo : Repo) (fr : Frame) (p : Progress) :
  analysis_progress (world fr) !! sid = Some p ->
  exists frc,
    entered sid repo p fr frc
    /\ ((exists e, try_repo github_client sid repo fr = (Raised e, frc))
        \/ (exists frd fre fr',
               count_repo sid frc = (Ok tt, frd)
               /\ processed_count fre = processed_count frd
               /\ same_scan_state (world frd) (world fre)
               /\ adaptive_delay github_client (processed_count frd) fre = (Ok tt, fr')
               /\ try_repo github_client sid repo fr = (Ok tt, fr'))).
Proof.
  intros Hp.
  remember (try_repo github_client sid repo fr) as out eqn:Ho.
  unfold try_repo in Ho. cbv zeta in Ho.
  unfold bind at 1 in Ho. unfold lift at 1, progress_update at 1 in Ho. rewrite Hp in Ho.
  set (wA := with_analysis_progress _ (world fr)) in Ho.
  unfold bind at 1 in Ho. unfold lift at 1 in Ho. cbn [world processed_count] in Ho.
  destruct (fetch_sbom github_client (owner_login repo) (name repo) wA)
    as [[sbom_file | e] wB] eqn:Ef;
    apply fetch_sbom_effect in Ef as (Hb1 & Hb2 & Hb3 & Hb4).
  2: { exists {| world := wB; processed_count := processed_count fr |}.
       split; [| left; exists e; exact Ho].
       unfold entered, full_name. cbn. rewrite Hb1, Hb2, Hb3, Hb4. unfold wA. cbn. tauto. }
  assert (Hent : forall wS, same_scan_state wB wS ->
             entered sid repo p fr {| world := wS; processed_count := processed_count fr |}).
  { intros wS (a & b & c & d). unfold entered, full_name. cbn.
    rewrite a, b, c, d, Hb1, Hb2, Hb3, Hb4. unfold wA. cbn. tauto. }
  assert (Hrest : forall frc, entered sid repo p fr frc ->
             exists frd fre fr',
               count_repo sid frc = (Ok tt, frd)
               /\ processed_count fre = processed_count frd
               /\ same_scan_state (world frd) (world fre)
               /\ adaptive_delay github_client (processed_count frd) fre = (Ok tt, fr')
               /\ (do pc <- gets processed_count;
                   exec (if Z.eqb (pc mod 20) 0 then monitor_rate_limit github_client else ret tt);
                   adaptive_delay github_client pc) frd = (Ok tt, fr')).
  { intros frc (_ & _ & Hprog & _).
    assert (Hpc : analysis_progress (world frc) !! sid
                  = Some (set_current_repo (full_name repo) p))
      by (rewrite Hprog; apply lookup_insert_eq).
    destruct (count_repo_effect sid frc _ Hpc) as (frd & Hc & _).
    exists frd. unfold bind at 1. unfold gets at 1. unfold bind at 1.
    destruct (Z.eqb (processed_count frd mod 20) 0).
    - destruct (monitor_rate_limit_effect github_client frd) as (fre & Hm & Hm1 & Hm2).
      rewrite Hm.
      destruct (adaptive_delay_effect github_client (processed_count frd) fre) as (fr' & Ha & _).
      exists fre, fr'. rewrite Ha. tauto.
    - unfold ret at 1.
      destruct (adaptive_delay_effect github_client (processed_count frd) frd) as (fr' & Ha & _).
      exists frd, fr'. rewrite Ha. repeat split; tauto. }
  destruct (truthy sbom_file).
  - unfold bind at 1 in Ho. unfold bind at 1 in Ho. unfold lift at 1 in Ho.
    cbn [world processed_count] in Ho.
    destruct (read_json_file (default "" sbom_file) wB) as [[content | e] wR] eqn:Er;
      apply read_json_file_world in Er; subst wR.
    2: { exists {| world := wB; processed_count := processed_count fr |}.
         split; [apply Hent, same_scan_state_refl | left; exists e; exact Ho]. }
    unfold bind at 1 in Ho. unfold lift at 1 in Ho. cbn [world processed_count] in Ho.
    destruct (store_sbom_effect (owner_login repo ++ "/" ++ name repo) content wB)
      as (b & wS & Hs & Hq).
    rewrite Hs in Ho.
    exists {| world := wS; processed_count := processed_count fr |}.
    split; [apply Hent, Hq |]. right.
    destruct (Hrest _ (Hent wS Hq)) as (frd & fre & fr' & Hc & H1 & H2 & H3 & H4).
    exists frd, fre, fr'. rewrite Hc in Ho |- *.
    split; [reflexivity |]. split; [exact H1 |]. split; [exact H2 |]. split; [exact H3 |].
    rewrite Ho. exact H4.
  - unfold bind at 1 in Ho.
    exists {| world := wB; processed_count := processed_count fr |}.
    split; [apply Hent, same_scan_state_refl |]. right.
    destruct (Hrest _ (Hent wB (same_scan_state_refl wB))) as (frd & fre & fr' & Hc & H1 & H2 & H3 & H4).
    exists frd, fre, fr'. rewrite Hc in Ho |- *.
    split; [reflexivity |]. split; [exact H1 |]. split; [exact H2 |]. split; [exact H3 |].
    rewrite Ho. exact H4.
Qed.

End LoopBody.

Section LoopStep.
Context {rt : Runtime}.
Variable github_client : GitHubClient.Client.
Import GitHubClient Effects ScanState Pacing App Loop.

Lemma update_row_processing (sid v ts : Z) (r : DatabaseManager.SessionRow) :
  DatabaseManager.update_row sid v "processing" ts r
  = DatabaseManager.update_row sid v "processing" 0 r.
Proof. unfold DatabaseManager.update_row. destruct (Z.eqb _ sid); reflexivity. Qed.

(** One turn of the loop.  Whatever the fetch does, the turn ends normally,
    the repository is handed to [fetch_sbom] once and counted once, the
    session row and the progress entry carry the new count, and the error
    list grows by the message of the exception, when there was one. *)
Lemma process_repo_step (sid : Z) (repo : Repo) (fr : Frame) (p : Progress) :
  analysis_progress (world fr) !! sid = Some p ->
  exists fr' errs,
    process_repo github_client sid repo fr = (Ok tt, fr')
    /\ processed_count fr' = processed_count fr + 1
    /\ fetch_trace (world fr') = (fetch_trace (world fr) ++ [full_name repo])%list
    /\ DatabaseManager.analysis_sessions (db (world fr'))
       = map (DatabaseManager.update_row sid (processed_count fr + 1) "processing" 0)
             (DatabaseManager.analysis_sessions (db (world fr)))
    /\ session_trace (world fr')
       = (session_trace (world fr) ++ [DatabaseManager.analysis_sessions (db (world fr'))])%list
    /\ analysis_progress (world fr')
       = <[sid := {| p_status := p_status p; p_processed := processed_count fr + 1;
                     p_total := p_total p; p_current_repo := full_name repo;
                     p_errors := (p_errors p ++ errs)%list |}]> (analysis_progress (world fr))
    /\ ((errs = [] /\ fst (try_repo github_client sid repo fr) = Ok tt)
        \/ (exists e, fst (try_repo github_client sid repo fr) = Raised e
                      /\ errs = [error_msg repo e])).
Proof.
  intros Hp.
  destruct (try_repo_cases github_client sid repo fr p Hp)
    as (frc & (Hc1 & Hc2 & Hc3 & Hc4 & Hc5) & [(e & Ht) | (frd & fre & fr' & Hcount & H1 & H2 & Hdelay & Ht)]).
  - (* an exception *)
    unfold process_repo, try_except. rewrite Ht.
    unfold except_repo. cbv zeta. unfold bind at 1. unfold lift at 1, progress_update at 1.
    rewrite Hc3, lookup_insert_eq. cbn [world processed_count].
    set (fa := {| world := _; processed_count := processed_count frc |}).
    assert (Hpa : analysis_progress (world fa) !! sid
                  = Some (append_error (error_msg repo e) (set_current_repo (full_name repo) p))).
    { unfold fa. cbn. apply lookup_insert_eq. }
    destruct (count_repo_effect sid fa _ Hpa) as (fr' & Hcount & G1 & G2 & G3 & G4 & G5 & _).
    exists fr', [error_msg repo e]. rewrite Hcount.
    split; [reflexivity |]. unfold fa in G1, G2, G3, G4, G5. cbn in G1, G2, G3, G4, G5.
    split; [lia |]. split; [congruence |].
    split; [rewrite G3, Hc2, Hc1; apply map_ext; intros r; apply update_row_processing |].
    split; [rewrite G4, Hc5; reflexivity |].
    split; [| right; exists e; split; reflexivity].
    rewrite G2, ?Hc3, !insert_insert_eq, Hc1. reflexivity.
  - (* no exception *)
    unfold process_repo, try_except. rewrite Ht.
    assert (Hpc : analysis_progress (world frc) !! sid
                  = Some (set_current_repo (full_name repo) p))
      by (rewrite Hc3; apply lookup_insert_eq).
    destruct (count_repo_effect sid frc _ Hpc) as (frd' & Hcount' & G1 & G2 & G3 & G4 & G5 & _).
    rewrite Hcount in Hcount'. injection Hcount' as <-.
    destruct (adaptive_delay_effect github_client (processed_count frd) fre)
      as (fr'' & Hdelay' & D1 & D2 & _).
    rewrite Hdelay in Hdelay'. injection Hdelay' as <-.
    destruct H2 as (a & b & c & d). destruct D2 as (a' & b' & c' & d').
    exists fr', []. split; [reflexivity |].
    split; [lia |]. split; [congruence |].
    split; [rewrite a', a, G3, Hc2, Hc1; apply map_ext; intros r; apply update_row_processing |].
    split; [rewrite d', d, G4, Hc5, a', a; reflexivity |].
    split; [| left; split; reflexivity].
    rewrite b', b, G2, Hc3, insert_insert_eq, Hc1, app_nil_r. reflexivity.
Qed.

End LoopStep.

Section SessionTable.
Import DatabaseManager ScanState.

Lemma find_update_row (sid v : Z) (st : string) (ts : Z) (rows : list SessionRow) :
  find (fun r => Z.eqb (id r) sid) (map (update_row sid v st ts) rows)
  = option_map (update_row sid v st ts) (find (fun r => Z.eqb (id r) sid) rows).
Proof.
  induction rows as [| r rows IH]; simpl; [reflexivity |].
  destruct (update_row_frame sid v st ts r) as [Hid _]. cbv zeta in Hid. rewrite Hid.
  destruct (Z.eqb (id r) sid); [reflexivity | exact IH].
Qed.

Lemma update_row_hit (sid v : Z) (st : string) (ts : Z) (r : SessionRow) :
  id r = sid ->
  processed_repos (update_row sid v st ts r) = v /\ status (update_row sid v st ts r) = st.
Proof.
  intros H. unfold update_row. apply Z.eqb_eq in H. rewrite H.
  destruct (String.eqb st "completed"); split; reflexivity.
Qed.

Lemma find_id (sid : Z) (rows : list SessionRow) (r : SessionRow) :
  find (fun r => Z.eqb (id r) sid) rows = Some r -> id r = sid.
Proof. intros H. apply find_some in H as [_ H]. apply Z.eqb_eq, H. Qed.

Lemma persisted_update (sid v : Z) (st : string) (ts : Z) (rows : list SessionRow) (r : SessionRow) :
  find (fun r => Z.eqb (id r) sid) rows = Some r ->
  persisted sid (map (update_row sid v st ts) rows) = Some v.
Proof.
  intros H. unfold persisted. rewrite find_update_row, H. simpl.
  f_equal. apply update_row_hit. eapply find_id, H.
Qed.

End SessionTable.

Section LoopRun.
Context {rt : Runtime}.
Variable github_client : GitHubClient.Client.
Import GitHubClient Effects ScanState Pacing App Loop.

(** The whole loop, from any frame in which the session has a progress
    entry. *)
Lemma for_each_process (sid : Z) (repos : list Repo) :
  forall (fr : Frame) (p : Progress),
    analysis_progress (world fr) !! sid = Some p ->
    exists fr' errs snaps p',
      for_each repos (process_repo github_client sid) fr = (Ok tt, fr')
      /\ processed_count fr' = processed_count fr + Z.of_nat (length repos)
      /\ fetch_trace (world fr') = (fetch_trace (world fr) ++ map full_name repos)%list
      /\ analysis_progress (world fr') !! sid = Some p'
      /\ p_status p' = p_status p /\ p_total p' = p_total p
      /\ p_errors p' = (p_errors p ++ errs)%list
      /\ (length errs <= length repos)%nat
      /\ (p_processed p = processed_count fr -> p_processed p' = processed_count fr')
      /\ session_trace (world fr') = (session_trace (world fr) ++ snaps)%list
      /\ length snaps = length repos
      /\ forall row,
           DatabaseManager.get_session sid (db (world fr)) = Some row ->
           map (persisted sid) snaps = map Some (count_up (processed_count fr) (length repos))
           /\ Forall (fun snap => option_map DatabaseManager.total_repos
                                    (find (fun r => Z.eqb (DatabaseManager.id r) sid) snap)
                                  = Some (DatabaseManager.total_repos row)) snaps
           /\ exists row',
                DatabaseManager.get_session sid (db (world fr')) = Some row'
                /\ DatabaseManager.total_repos row' = DatabaseManager.total_repos row
                /\ DatabaseManager.org_name row' = DatabaseManager.org_name row
                /\ DatabaseManager.created_at row' = DatabaseManager.created_at row.
Proof.
  induction repos as [| repo repos IH]; intros fr p Hp.
  - exists fr, [], [], p. cbn. rewrite !app_nil_r.
    repeat split; try reflexivity; try lia; try tauto.
    + constructor.
    + exists row. tauto.
  - destruct (process_repo_step github_client sid repo fr p Hp)
      as (fr1 & errs1 & Hrun & Hpc & Hft & Hses & Htr & Hprog & _).
    assert (Hp1 : analysis_progress (world fr1) !! sid
                  = Some {| p_status := p_status p; p_processed := processed_count fr + 1;
                            p_total := p_total p; p_current_repo := full_name repo;
                            p_errors := (p_errors p ++ errs1)%list |})
      by (rewrite Hprog; apply lookup_insert_eq).
    assert (He1 : (length errs1 <= 1)%nat).
    { destruct (process_repo_step github_client sid repo fr p Hp)
        as (fr1' & errs1' & Hrun' & _ & _ & _ & _ & Hprog' & Hcase).
      rewrite Hrun in Hrun'. injection Hrun' as <-.
      rewrite Hprog in Hprog'.
      apply (f_equal (fun m => m !! sid)) in Hprog'. rewrite !lookup_insert_eq in Hprog'.
      injection Hprog' as Heq. apply app_inv_head in Heq. subst errs1'.
      destruct Hcase as [[-> _] | (e & _ & ->)]; simpl; lia. }
    destruct (IH fr1 _ Hp1)
      as (fr' & errs & snaps & p' & Hrun' & Hpc' & Hft' & Hprog' & Hst & Htot & Herr & Hlen
          & Hproc & Htr' & Hsn & Hrows).
    exists fr', (errs1 ++ errs)%list,
      (DatabaseManager.analysis_sessions (db (world fr1)) :: snaps), p'.
    cbn [for_each]. unfold bind. rewrite Hrun, Hrun'.
    cbn [p_status p_total p_errors p_processed] in *.
    split; [reflexivity |].
    split; [rewrite Hpc', Hpc; cbn [length]; lia |].
    split; [rewrite Hft', Hft, <- app_assoc; reflexivity |].
    split; [exact Hprog' |]. split; [exact Hst |]. split; [exact Htot |].
    split; [rewrite Herr, <- app_assoc; reflexivity |].
    split; [rewrite length_app; cbn [length]; lia |].
    split; [intros _; apply Hproc; symmetry; exact Hpc |].
    split; [rewrite Htr', Htr, <- app_assoc; reflexivity |].
    split; [cbn [length]; rewrite Hsn; reflexivity |].
    intros row Hrow. unfold DatabaseManager.get_session in Hrow.
    assert (Hrow1 : DatabaseManager.get_session sid (db (world fr1))
                    = Some (DatabaseManager.update_row sid (processed_count fr + 1)
                              "processing" 0 row)).
    { unfold DatabaseManager.get_session. rewrite Hses, find_update_row, Hrow. reflexivity. }
    destruct (update_row_frame sid (processed_count fr + 1) "processing" 0 row)
      as (_ & Ho & Ht & Hc). cbv zeta in Ho, Ht, Hc.
    destruct (Hrows _ Hrow1) as (Hvals & Hall & row' & R1 & R2 & R3 & R4).
    split; [| split].
    + cbn [map count_up length]. rewrite Hses, (persisted_update _ _ _ _ _ _ Hrow).
      rewrite Hvals, Hpc. reflexivity.
    + constructor.
      * rewrite Hses, find_update_row.
        fold (DatabaseManager.get_session sid (db (world fr))).
        unfold DatabaseManager.get_session. rewrite Hrow. simpl. rewrite Ht. reflexivity.
      * rewrite Ht in Hall. exact Hall.
    + exists row'. rewrite R2, R3, R4, Ht, Ho, Hc. tauto.
Qed.

End LoopRun.

Section ScanRun.
Context {rt : Runtime}.
Variable github_client : GitHubClient.Client.
Import GitHubClient Effects ScanState Pacing App Loop.

Lemma count_up_length (a : Z) (n : nat) : length (count_up a n) = n.
Proof. revert a. induction n as [| n IH]; intros a; simpl; [| rewrite IH]; reflexivity. Qed.

Lemma count_up_bounds (a : Z) (n : nat) :
  Forall (fun v => a < v <= a + Z.of_nat n) (count_up a n).
Proof.
  revert a. induction n as [| n IH]; intros a; simpl; constructor; [lia |].
  specialize (IH (a + 1)). revert IH. apply List.Forall_impl. intros v Hv. lia.
Qed.

Lemma count_up_sorted (a : Z) (n : nat) :
  StronglySorted Z.le (a :: count_up a n ++ [a + Z.of_nat n]).
Proof.
  revert a. induction n as [| n IH]; intros a.
  - simpl. repeat constructor. lia.
  - specialize (IH (a + 1)). cbn [count_up app].
    replace (a + Z.of_nat (S n)) with (a + 1 + Z.of_nat n) by lia.
    constructor; [exact IH |].
    constructor; [lia |].
    apply Forall_app. split.
    + pose proof (count_up_bounds (a + 1) n) as H. revert H.
      apply List.Forall_impl. intros v Hv. lia.
    + constructor; [lia | constructor].
Qed.

(** The run of the thread from a world in which the session has its row. *)
Lemma analyze_organization_run (org : string) (repos : list Repo) (sid : Z) (w : World)
  (row : DatabaseManager.SessionRow) :
  DatabaseManager.get_session sid (db w) = Some row ->
  exists w' p row' snaps,
    analyze_organization github_client org repos sid w = (Ok tt, w')
    /\ fetch_trace w' = (fetch_trace w ++ map full_name repos)%list
    /\ analysis_progress w' !! sid = Some p
    /\ p_status p = "completed"
    /\ p_processed p = Z.of_nat (length repos)
    /\ p_total p = Z.of_nat (length repos)
    /\ (length (p_errors p) <= length repos)%nat
    /\ DatabaseManager.get_session sid (db w') = Some row'
    /\ DatabaseManager.status row' = "completed"
    /\ DatabaseManager.processed_repos row' = Z.of_nat (length repos)
    /\ DatabaseManager.total_repos row' = DatabaseManager.total_repos row
    /\ DatabaseManager.org_name row' = DatabaseManager.org_name row
    /\ DatabaseManager.created_at row' = DatabaseManager.created_at row
    /\ session_trace w' = (session_trace w ++ snaps)%list
    /\ map (persisted sid) snaps
       = map Some (count_up 0 (length repos) ++ [Z.of_nat (length repos)])%list
    /\ Forall (fun snap => option_map DatabaseManager.total_repos
                             (find (fun r => Z.eqb (DatabaseManager.id r) sid) snap)
                           = Some (DatabaseManager.total_repos row)) snaps.
Proof.
  intros Hrow.
  unfold analyze_organization, analyze_organization_frame.
  unfold bind at 1. unfold lift at 1, modify at 1. cbn [world processed_count].
  set (p0 := {| p_status := "processing"; p_processed := 0;
                p_total := Z.of_nat (length repos); p_current_repo := ""; p_errors := [] |}).
  set (fr0 := {| world := with_analysis_progress (<[sid := p0]> (analysis_progress w)) w;
                 processed_count := 0 |}).
  assert (Hp0 : analysis_progress (world fr0) !! sid = Some p0)
    by (unfold fr0; cbn; apply lookup_insert_eq).
  destruct (for_each_process github_client sid repos fr0 p0 Hp0)
    as (fr1 & errs & snaps & p1 & Hrun & Hpc & Hft & Hprog & Hst & Htot & Herr & Hlen
        & Hproc & Htr & Hsn & Hrows).
  destruct (Hrows row Hrow) as (Hvals & Hall & row1 & R1 & R2 & R3 & R4).
  unfold bind at 1. rewrite Hrun.
  unfold bind at 1. unfold lift at 1, progress_update at 1. rewrite Hprog.
  cbn [world processed_count].
  unfold bind at 1. unfold gets at 1. cbn [world processed_count].
  unfold lift, update_analysis_session, modify. cbn [world processed_count].
  set (w2 := with_analysis_progress _ (world fr1)).
  set (ts := current_timestamp w2).
  pose (rows2 := map (DatabaseManager.update_row sid (processed_count fr1) "completed" ts)
                     (DatabaseManager.analysis_sessions (db (world fr1)))).
  assert (Hpcn : processed_count fr1 = Z.of_nat (length repos))
    by (rewrite Hpc; unfold fr0; cbn; lia).
  assert (Hfind : find (fun r => Z.eqb (DatabaseManager.id r) sid) rows2
                  = Some (DatabaseManager.update_row sid (processed_count fr1) "completed"
                            ts row1)).
  { unfold rows2. rewrite find_update_row. unfold DatabaseManager.get_session in R1.
    rewrite R1. reflexivity. }
  assert (Hid1 : DatabaseManager.id row1 = sid) by (eapply find_id; exact R1).
  eexists _, (set_status "completed" p1), _, (snaps ++ [rows2])%list.
  split; [reflexivity |].
  split; [cbn; rewrite Hft; reflexivity |].
  split; [cbn; apply lookup_insert_eq |].
  split; [reflexivity |].
  split; [cbn [set_status p_processed]; rewrite Hproc by reflexivity; exact Hpcn |].
  split; [exact Htot |].
  split; [cbn [set_status p_errors]; rewrite Herr; cbn; exact Hlen |].
  split; [exact Hfind |].
  destruct (update_row_hit sid (processed_count fr1) "completed" ts row1 Hid1) as [U1 U2].
  destruct (update_row_frame sid (processed_count fr1) "completed" ts row1)
    as (_ & U3 & U4 & U5). cbv zeta in U3, U4, U5.
  split; [exact U2 |].
  split; [rewrite U1; exact Hpcn |].
  split; [rewrite U4; exact R2 |].
  split; [rewrite U3; exact R3 |].
  split; [rewrite U5; exact R4 |].
  split; [cbn; rewrite Htr, <- app_assoc; reflexivity |].
  split.
  - rewrite !map_app, Hvals. cbn [map]. f_equal. f_equal.
    unfold persisted. rewrite Hfind. cbn. rewrite U1, Hpcn. reflexivity.
  - apply Forall_app. split; [exact Hall |].
    constructor; [| constructor]. rewrite Hfind. cbn. rewrite U4, R2. reflexivity.
Qed.

End ScanRun.

Section ScanStart.
Context {rt : Runtime}.
Variable github_client : GitHubClient.Client.
Import GitHubClient Effects ScanState Pacing App Loop.

Lemma next_rowid_fresh (seq : Z) (ids : list Z) (x : Z) :
  In x ids -> x < DatabaseManager.next_rowid seq ids.
Proof.
  unfold DatabaseManager.next_rowid. induction ids as [| y ids IH]; simpl; [tauto |].
  intros [-> | H]; [lia |]. specialize (IH H). lia.
Qed.

Lemma find_fresh_row (sid : Z) (rows : list DatabaseManager.SessionRow)
  (r : DatabaseManager.SessionRow) :
  DatabaseManager.id r = sid ->
  (forall x, In x (map DatabaseManager.id rows) -> x < sid) ->
  find (fun r => Z.eqb (DatabaseManager.id r) sid) (rows ++ [r]) = Some r.
Proof.
  intros Hid Hlt. induction rows as [| y rows IH]; simpl.
  - apply Z.eqb_eq in Hid. rewrite Hid. reflexivity.
  - destruct (Z.eqb (DatabaseManager.id y) sid) eqn:E.
    + apply Z.eqb_eq in E. specialize (Hlt (DatabaseManager.id y) (or_introl eq_refl)). lia.
    + apply IH. intros x Hx. apply Hlt. right. exact Hx.
Qed.

Lemma get_repositories_effect (org : string) (w w' : World) (res : Result Json) :
  get_repositories github_client org w = (res, w') -> same_store w w'.
Proof.
  unfold get_repositories, bind. cbv zeta.
  pose proof (make_request_frame github_client (base_url ++ "/orgs/" ++ org ++ "/repos") 0 w)
    as [Hs _].
  destruct (_make_request github_client (base_url ++ "/orgs/" ++ org ++ "/repos") 0 w)
    as [[[r |] | e] w1]; cbn [snd] in Hs.
  - repeat match goal with
           | |- context [if ?b then _ else _] => destruct b
           end; unfold raise; try (intros [= _ <-]; exact Hs).
    intros E1. apply response_json_world in E1. subst w'. exact Hs.
  - destruct (truthy (github_token github_client)); unfold raise; intros [= _ <-]; exact Hs.
  - intros [= _ <-]. exact Hs.
Qed.

(** The comprehension of [get_public_repositories] keeps the entries whose
    visibility is ['public'], in order. *)
Lemma public_entries_filter (l entries : list Json) :
  public_entries l = Ok entries -> entries = List.filter is_public l.
Proof.
  revert entries. induction l as [| x l IH]; simpl; intros entries.
  - intros [= <-]. reflexivity.
  - unfold is_public, json_member, py_getitem.
    destruct x as [| b | n | t | items | members]; simpl; try discriminate.
    destruct (assoc_get "visibility" members) as [v |]; simpl; [| discriminate].
    destruct (public_entries l) as [rest |]; simpl; [| discriminate].
    intros [= <-]. rewrite (IH rest eq_refl). reflexivity.
Qed.

(** Only a list has entries that the comprehension keeps. *)
Lemma public_entries_of_list (listing : Json) (l entries : list Json) :
  py_iter listing = Ok l -> public_entries l = Ok entries -> entries <> [] ->
  listing = JArr l.
Proof.
  destruct listing as [| b | n | t | items | members]; simpl; try discriminate.
  - intros [= <-]. destruct t as [| c t]; simpl; [intros [= <-]; congruence | discriminate].
  - intros [= <-]. reflexivity.
  - intros [= <-]. destruct members as [| kv members]; simpl;
      [intros [= <-]; congruence | discriminate].
Qed.

Lemma rmap_length {A B} (f : A -> Result B) (l : list A) (bs : list B) :
  rmap f l = Ok bs -> length bs = length l.
Proof.
  revert bs. induction l as [| x l IH]; simpl; intros bs.
  - intros [= <-]. reflexivity.
  - destruct (f x) as [y |]; simpl; [| discriminate].
    destruct (rmap f l) as [ys |]; simpl; [| discriminate].
    intros [= <-]. simpl. rewrite (IH ys eq_refl). reflexivity.
Qed.

Lemma rmap_In {A B} (f : A -> Result B) (l : list A) (bs : list B) (b : B) :
  rmap f l = Ok bs -> In b bs -> exists x, In x l /\ f x = Ok b.
Proof.
  revert bs. induction l as [| x l IH]; simpl; intros bs.
  - intros [= <-] [].
  - destruct (f x) as [y |] eqn:Ex; simpl; [| discriminate].
    destruct (rmap f l) as [ys |]; simpl; [| discriminate].
    intros [= <-] [<- | Hin].
    + exists x. split; [left; reflexivity | exact Ex].
    + destruct (IH ys eq_refl Hin) as (z & Hz & Ez). exists z. split; [right; exact Hz | exact Ez].
Qed.

(** A repository read from an entry has the visibility of the entry. *)
Lemma decode_repo_public (entry : Json) (repo : Repo) :
  decode_repo entry = Ok repo -> is_public entry = String.eqb (visibility repo) "public".
Proof.
  unfold decode_repo, is_public.
  destruct (json_path ["owner"; "login"] entry) as [[| | | o | |] |]; try discriminate.
  destruct (json_member "name" entry) as [[| | | n | |] |]; try discriminate.
  destruct (json_member "visibility" entry) as [[| | | v | |] |]; try discriminate.
  intros [= <-]. reflexivity.
Qed.

(** What the request handler has done when it starts the thread. *)
Lemma analyze_started (org : string) (w w1 : World) (sid : Z) (repos : list Repo) :
  analyze github_client org w = (Started sid repos, w1) ->
  exists items w0 created,
    get_repositories github_client org w = (Ok (JArr items), w0)
    /\ rmap decode_repo (List.filter is_public items) = Ok repos
    /\ repos <> []
    /\ DatabaseManager.get_session sid (db w1) = Some created
    /\ DatabaseManager.total_repos created = Z.of_nat (length repos)
    /\ DatabaseManager.processed_repos created = 0
    /\ DatabaseManager.status created = "pending"
    /\ DatabaseManager.org_name created = org
    /\ fetch_trace w1 = fetch_trace w
    /\ session_trace w1 = (session_trace w ++ [DatabaseManager.analysis_sessions (db w1)])%list.
Proof.
  unfold analyze. destruct org as [| a org']; [discriminate |].
  set (org := String a org').
  unfold get_public_repositories, bind.
  destruct (get_repositories github_client org w) as [[listing | e] w0] eqn:Eg; [| discriminate].
  apply get_repositories_effect in Eg as Hs. destruct Hs as (Hdb & _ & Hft & Htr & _).
  unfold of_result.
  destruct (py_iter listing) as [l | e] eqn:Ei; [| discriminate].
  destruct (public_entries l) as [entries | e] eqn:Ep; [| discriminate].
  destruct (Z.eqb (Z.of_nat (length entries)) 0) eqn:E0; [discriminate |].
  destruct (rmap decode_repo entries) as [repos0 | e] eqn:Ed; [| discriminate].
  unfold create_analysis_session, DatabaseManager.create_analysis_session.
  intros [= <- <- <-].
  assert (Hne : entries <> []) by (intros Hnil; rewrite Hnil in E0; discriminate).
  pose proof (public_entries_of_list listing l entries Ei Ep Hne) as ->.
  pose proof (public_entries_filter l entries Ep) as Hf.
  pose proof (rmap_length _ _ _ Ed) as Hlen.
  eexists l, w0, _. split; [reflexivity |].
  split; [rewrite <- Hf; exact Ed |].
  split; [intros Hnil; apply Hne; destruct entries; [reflexivity | rewrite Hnil in Hlen; discriminate] |].
  split.
  - unfold DatabaseManager.get_session. cbn.
    apply find_fresh_row; [reflexivity |]. intros x Hx. apply next_rowid_fresh, Hx.
  - cbn. rewrite Hft, Htr, Hlen. repeat split; reflexivity.
Qed.

End ScanStart.

Section ScanTheorems.
Context {rt : Runtime}.
Variable github_client : GitHubClient.Client.
Import GitHubClient Effects ScanState Pacing App Loop.


(** C3. For a scan that the request handler started, the session row is
    created with [total_repos] equal to the number of repositories and
    [processed_repos = 0]; the snapshots of the session table written from
    the creation to the end of the thread hold for this session the values
    [0, 1, 2, ..., n, n] of [processed_repos], which never decrease and never
    exceed [total_repos], and [total_repos] is the same in all of them. *)
Theorem processed_repos_monotone_bounded
  (org : string) (w w1 : World) (sid : Z) (repos : list Repo) :
  analyze github_client org w = (Started sid repos, w1) ->
  let w2 := snd (analyze_organization github_client org repos sid w1) in
  let n := length repos in
  let values := (0 :: count_up 0 n ++ [Z.of_nat n])%list in
  exists created snaps,
    DatabaseManager.get_session sid (db w1) = Some created
    /\ DatabaseManager.total_repos created = Z.of_nat n
    /\ DatabaseManager.processed_repos created = 0
    /\ session_trace w2 = (session_trace w ++ snaps)%list
    /\ map (persisted sid) snaps = map Some values
    /\ Forall (fun snap => option_map DatabaseManager.total_repos
                             (find (fun r => Z.eqb (DatabaseManager.id r) sid) snap)
                           = Some (Z.of_nat n)) snaps
    /\ StronglySorted Z.le values
    /\ Forall (fun v => v <= Z.of_nat n) values.
Proof.
  intros Ha w2 n values.
  destruct (analyze_started github_client org w w1 sid repos Ha)
    as (listing & w0 & created & _ & _ & _ & Hc & Ht & Hp & _ & _ & _ & Htr).
  destruct (analyze_organization_run github_client org repos sid w1 created Hc)
    as (w' & p & row' & snaps & Hrun & _ & _ & _ & _ & _ & _ & _ & _ & _ & _ & _ & _
        & Htr' & Hvals & Hall).
  assert (Hw2 : w2 = w') by (unfold w2; rewrite Hrun; reflexivity).
  exists created, (DatabaseManager.analysis_sessions (db w1) :: snaps).
  split; [exact Hc |]. split; [exact Ht |]. split; [exact Hp |].
  split; [rewrite Hw2, Htr', Htr, <- app_assoc; reflexivity |].
  split.
  { unfold values. cbn [map]. rewrite Hvals. f_equal.
    unfold persisted. unfold DatabaseManager.get_session in Hc. rewrite Hc. cbn.
    rewrite Hp. reflexivity. }
  split.
  { constructor.
    - unfold DatabaseManager.get_session in Hc. rewrite Hc. cbn. rewrite Ht. reflexivity.
    - rewrite Ht in Hall. exact Hall. }
  split.
  { unfold values. pose proof (count_up_sorted 0 n) as H. exact H. }
  unfold values. constructor; [lia |].
  apply Forall_app. split.
  - pose proof (count_up_bounds 0 n) as H. revert H. apply List.Forall_impl. intros v Hv. lia.
  - constructor; [lia | constructor].
Qed.

(** C9. When the request handler starts a scan, the repositories it hands
    to the thread are those entries of the listing whose visibility is
    ['public'], in listing order; the session is created with [total_repos]
    equal to their number; the handler itself fetches no document; and the
    thread hands exactly these repositories to [fetch_sbom]. *)
Theorem only_public_repositories_scanned
  (org : string) (w w1 : World) (sid : Z) (repos : list Repo) :
  analyze github_client org w = (Started sid repos, w1) ->
  exists listing w0 created,
    get_repositories github_client org w = (Ok (JArr listing), w0)
    /\ rmap decode_repo (List.filter is_public listing) = Ok repos
    /\ Forall (fun repo => visibility repo = "public") repos
    /\ (forall entry repo, In entry listing -> decode_repo entry = Ok repo ->
                           visibility repo <> "public" -> ~ In repo repos)
    /\ DatabaseManager.get_session sid (db w1) = Some created
    /\ DatabaseManager.total_repos created = Z.of_nat (length repos)
    /\ fetch_trace w1 = fetch_trace w
    /\ fetch_trace (snd (analyze_organization github_client org repos sid w1))
       = (fetch_trace w ++ map full_name repos)%list.
Proof.
  intros Ha.
  destruct (analyze_started github_client org w w1 sid repos Ha)
    as (listing & w0 & created & Hg & Hf & _ & Hc & Ht & _ & _ & _ & Hft & _).
  destruct (analyze_organization_run github_client org repos sid w1 created Hc)
    as (w' & p & row' & snaps & Hrun & Hft' & _).
  assert (Hpub : Forall (fun repo => visibility repo = "public") repos).
  { apply List.Forall_forall. intros repo Hin.
    destruct (rmap_In _ _ _ _ Hf Hin) as (entry & He & Hd).
    apply filter_In in He as [_ Hv]. rewrite (decode_repo_public _ _ Hd) in Hv.
    apply String.eqb_eq, Hv. }
  exists listing, w0, created.
  split; [exact Hg |]. split; [exact Hf |].
  split; [exact Hpub |].
  split.
  { intros entry repo _ _ Hv Hin.
    apply (proj1 (List.Forall_forall _ _) Hpub) in Hin. contradiction. }
  split; [exact Hc |]. split; [exact Ht |]. split; [exact Hft |].
  rewrite Hrun. cbn [snd]. rewrite Hft', Hft. reflexivity.
Qed.

End ScanTheorems.

(** ** The store under any history of calls *)

Section StoreFacts.
Import DatabaseManager Observe StoreQueries History.

Lemma find_app_fresh (sid : Z) (rows : list SessionRow) (r : SessionRow) (other : Z) :
  id r = sid -> other <> sid ->
  find (fun x => Z.eqb (id x) other) (rows ++ [r]) = find (fun x => Z.eqb (id x) other) rows.
Proof.
  intros Hid Hne. induction rows as [| y rows IH]; simpl.
  - rewrite Hid. destruct (Z.eqb sid other) eqn:E; [apply Z.eqb_eq in E; congruence | reflexivity].
  - destruct (Z.eqb (id y) other); [reflexivity | exact IH].
Qed.

Lemma find_none_above (sid : Z) (rows : list SessionRow) :
  (forall x, In x (map id rows) -> x < sid) ->
  find (fun r => Z.eqb (id r) sid) rows = None.
Proof.
  intros H. induction rows as [| y rows IH]; simpl; [reflexivity |].
  destruct (Z.eqb (id y) sid) eqn:E.
  - apply Z.eqb_eq in E. specialize (H (id y) (or_introl eq_refl)). lia.
  - apply IH. intros x Hx. apply H. right. exact Hx.
Qed.

Lemma next_rowid_seq (seq : Z) (ids : list Z) : seq < next_rowid seq ids.
Proof.
  unfold next_rowid. induction ids as [| y ids IH]; simpl; lia.
Qed.

(** X1. A new session gets an id that no row of the table has and that
    lies above the AUTOINCREMENT counter; the session can be read back under
    that id, with the organization and the total as given, zero processed
    repositories, status ['pending'] and no completion time; the rows of all
    other sessions and the table [sbom] are as before. *)
Theorem create_analysis_session_round_trip (org : string) (total ts : Z) (d : Database) :
  let sid := fst (create_analysis_session org total ts d) in
  let d' := snd (create_analysis_session org total ts d) in
  (forall r, In r (analysis_sessions d) -> id r < sid)
  /\ analysis_sessions_seq d < sid
  /\ get_session sid d = None
  /\ get_session sid d'
     = Some {| id := sid; org_name := org; total_repos := total; processed_repos := 0;
               status := "pending"; created_at := ts; completed_at := None |}
  /\ (forall other, other <> sid -> get_session other d' = get_session other d)
  /\ sbom d' = sbom d.
Proof.
  cbv zeta. unfold create_analysis_session, get_session. cbn [fst snd analysis_sessions sbom].
  set (sid := next_rowid (analysis_sessions_seq d) (map id (analysis_sessions d))).
  assert (Hfresh : forall x, In x (map id (analysis_sessions d)) -> x < sid)
    by (intros x Hx; apply next_rowid_fresh, Hx).
  split; [intros r Hr; apply Hfresh, in_map, Hr |].
  split; [apply next_rowid_seq |].
  split; [apply find_none_above, Hfresh |].
  split; [apply find_fresh_row; [reflexivity | exact Hfresh] |].
  split; [| reflexivity].
  intros other Hne. apply (find_app_fresh sid); [reflexivity | exact Hne].
Qed.

(** *** What every history keeps *)

Lemma NoDup_map_filter {A B} (f : A -> B) (p : A -> bool) (l : list A) :
  List.NoDup (map f l) -> List.NoDup (map f (List.filter p l)).
Proof.
  induction l as [| x l IH]; simpl; [tauto |].
  intros H. apply NoDup_cons_iff in H as [Hx Hl].
  destruct (p x); simpl; [| apply IH, Hl].
  constructor; [| apply IH, Hl].
  intros Hin. apply Hx. apply in_map_iff in Hin as (y & E & Hy).
  apply filter_In in Hy as [Hy _]. apply in_map_iff. exists y. tauto.
Qed.

Lemma NoDup_snoc {A} (l : list A) (x : A) :
  List.NoDup l -> ~ In x l -> List.NoDup (l ++ [x]).
Proof.
  intros Hl Hx. induction Hl as [| y l Hy Hl IH]; simpl.
  - constructor; [simpl; tauto | constructor].
  - constructor.
    + intros Hin. apply in_app_or in Hin as [Hin | [<- | []]]; [contradiction |].
      apply Hx. left. reflexivity.
    + apply IH. intros Hin. apply Hx. right. exact Hin.
Qed.

Lemma after_snoc (h : list Call) (c : Call) : after (h ++ [c]) = call (after h) c.
Proof. unfold after. rewrite fold_left_app. reflexivity. Qed.

Lemma update_keeps_ids (sid p : Z) (st : string) (ts : Z) (rows : list SessionRow) :
  map id (map (update_row sid p st ts) rows) = map id rows.
Proof.
  rewrite map_map. apply map_ext. intros r. apply update_row_frame.
Qed.

(** The unique keys, with the bounds that make the next rowid a new one. *)
Lemma history_invariant (h : list Call) :
  keys_unique (after h)
  /\ (forall x, In x (map sbom_id (sbom (after h))) -> x <= sbom_seq (after h))
  /\ (forall x, In x (map id (analysis_sessions (after h))) ->
                x <= analysis_sessions_seq (after h)).
Proof.
  induction h as [| c h IH] using rev_ind.
  - unfold after, keys_unique. simpl. repeat split; try constructor; simpl; tauto.
  - rewrite after_snoc. destruct IH as ((K1 & K2 & K3) & B1 & B2).
    set (d := after h) in *. unfold keys_unique.
    destruct c as [k j ts | org total ts | sid p st ts]; cbn [call].
    + unfold store_sbom. cbn [snd sbom sbom_seq analysis_sessions analysis_sessions_seq].
      set (rid := next_rowid (sbom_seq d) (map sbom_id (sbom d))).
      assert (Hrid : forall x, In x (map sbom_id (sbom d)) -> x < rid)
        by (intros x Hx; apply next_rowid_fresh, Hx).
      assert (Hsub : forall x, In x (map sbom_id
                        (List.filter (fun r => negb (String.eqb (source_repo r) k)) (sbom d))) ->
                      In x (map sbom_id (sbom d))).
      { intros x Hx. apply in_map_iff in Hx as (y & E & Hy).
        apply filter_In in Hy as [Hy _]. apply in_map_iff. exists y. tauto. }
      rewrite !map_app. cbn [map sbom_id source_repo].
      repeat split.
      * apply NoDup_snoc; [apply NoDup_map_filter, K1 |].
        intros Hin. apply in_map_iff in Hin as (y & E & Hy).
        apply filter_In in Hy as [_ Hy]. rewrite E, String.eqb_refl in Hy. discriminate.
      * apply NoDup_snoc; [apply NoDup_map_filter, K2 |].
        intros Hin. apply Hsub, Hrid in Hin. lia.
      * exact K3.
      * intros x Hx. apply in_app_or in Hx as [Hx | [<- | []]]; [| lia].
        apply Hsub, Hrid in Hx. lia.
      * exact B2.
    + unfold create_analysis_session.
      cbn [snd sbom sbom_seq analysis_sessions analysis_sessions_seq].
      set (rid := next_rowid (analysis_sessions_seq d) (map id (analysis_sessions d))).
      assert (Hrid : forall x, In x (map id (analysis_sessions d)) -> x < rid)
        by (intros x Hx; apply next_rowid_fresh, Hx).
      rewrite !map_app. cbn [map id].
      repeat split; try assumption.
      * apply NoDup_snoc; [exact K3 |]. intros Hin. apply Hrid in Hin. lia.
      * intros x Hx. apply in_app_or in Hx as [Hx | [<- | []]]; [| lia].
        apply Hrid in Hx. lia.
    + unfold update_analysis_session.
      cbn [sbom sbom_seq analysis_sessions analysis_sessions_seq].
      rewrite update_keeps_ids. repeat split; assumption.
Qed.

Lemma has_sbom_In (k : string) (d : Database) :
  has_sbom k d = true <-> In k (map source_repo (sbom d)).
Proof.
  unfold has_sbom. rewrite existsb_exists, in_map_iff. split.
  - intros (r & Hr & E). apply String.eqb_eq in E. exists r. tauto.
  - intros (r & E & Hr). exists r. split; [exact Hr | apply String.eqb_eq, E].
Qed.

Lemma filter_other_length (k : string) (rows : list SbomRow) :
  List.NoDup (map source_repo rows) ->
  length rows
  = (length (List.filter (fun r => negb (String.eqb (source_repo r) k)) rows)
     + if existsb (fun r => String.eqb (source_repo r) k) rows then 1 else 0)%nat.
Proof.
  induction rows as [| r rows IH]; simpl; [reflexivity |].
  intros H. apply NoDup_cons_iff in H as [Hr Hrows]. specialize (IH Hrows).
  destruct (String.eqb (source_repo r) k) eqn:E; simpl.
  - apply String.eqb_eq in E.
    destruct (existsb (fun r0 => String.eqb (source_repo r0) k) rows) eqn:Ex.
    + exfalso. apply Hr. apply existsb_exists in Ex as (y & Hy & Ey).
      apply String.eqb_eq in Ey. apply in_map_iff. exists y. split; [congruence | exact Hy].
    + lia.
  - lia.
Qed.

(** X2. Whatever calls of [store_sbom], [create_analysis_session] and
    [update_analysis_session] have been made since [init_database], and in
    whatever order, the table [sbom] holds at most one document for a
    repository, no two rows of a table share a rowid, and every rowid is at
    most the AUTOINCREMENT counter of its table. *)
Theorem store_keys_stay_unique (h : list Call) :
  keys_unique (after h)
  /\ Forall (fun r => sbom_id r <= sbom_seq (after h)) (sbom (after h))
  /\ Forall (fun r => id r <= analysis_sessions_seq (after h)) (analysis_sessions (after h))
  /\ forall k, (length (stored_under k (after h)) <= 1)%nat.
Proof.
  destruct (history_invariant h) as (K & B1 & B2).
  split; [exact K |].
  split; [apply List.Forall_forall; intros r Hr; apply B1, in_map, Hr |].
  split; [apply List.Forall_forall; intros r Hr; apply B2, in_map, Hr |].
  intros k. destruct K as (K1 & _). unfold stored_under, get_all_sboms.
  rewrite filter_map_comm, length_map. cbn [fst].
  revert K1. generalize (sbom (after h)) as rows.
  induction rows as [| r rows IH]; simpl; [lia |].
  intros H. apply NoDup_cons_iff in H as [Hr Hrows]. specialize (IH Hrows).
  destruct (String.eqb (source_repo r) k) eqn:E; simpl; [| exact IH].
  apply String.eqb_eq in E.
  destruct (List.filter (fun x => String.eqb (source_repo x) k) rows) as [| y l] eqn:Ef;
    simpl; [lia |].
  exfalso. apply Hr.
  assert (Hy : In y (List.filter (fun x => String.eqb (source_repo x) k) rows))
    by (rewrite Ef; left; reflexivity).
  apply filter_In in Hy as [Hy Ey]. apply String.eqb_eq in Ey.
  apply in_map_iff. exists y. split; [congruence | exact Hy].
Qed.

Lemma stored_under_store_other (k key : string) (j : Json) (ts : Z) (d : Database) :
  k <> key -> stored_under k (snd (store_sbom key j ts d)) = stored_under k d.
Proof.
  intros Hne. unfold stored_under. rewrite get_all_sboms_store, List.filter_app.
  cbn. assert (E : String.eqb key k = false) by (apply String.eqb_neq; congruence).
  rewrite E, app_nil_r. unfold stored_elsewhere. rewrite filter_filter.
  apply List.filter_ext. intros [a b]. cbn.
  destruct (String.eqb a k) eqn:Ea; [| apply andb_false_r].
  apply String.eqb_eq in Ea. subst a.
  assert (E' : String.eqb k key = false) by (apply String.eqb_neq; congruence).
  rewrite E'. reflexivity.
Qed.

Lemma has_sbom_store (k key : string) (j : Json) (ts : Z) (d : Database) :
  has_sbom k (snd (store_sbom key j ts d)) = (String.eqb key k || has_sbom k d)%bool.
Proof.
  unfold has_sbom, store_sbom. cbn [snd sbom]. rewrite existsb_app. cbn. rewrite orb_false_r.
  destruct (String.eqb key k) eqn:E; [apply orb_true_r |]. rewrite orb_false_r. cbn.
  induction (sbom d) as [| r rows IH]; simpl; [reflexivity |].
  destruct (String.eqb (source_repo r) key) eqn:Er; simpl.
  - apply String.eqb_eq in Er. rewrite Er, E. exact IH.
  - rewrite IH. reflexivity.
Qed.

(** X3. On a store with any history, [store_sbom] raises the document
    count by one when the repository had no document, and leaves the count
    as it is when it replaces one; afterwards the repository has a
    document. *)
Theorem sbom_count_after_store (h : list Call) (k : string) (j : Json) (ts : Z) :
  let d := after h in
  let d' := snd (store_sbom k j ts d) in
  get_sbom_count d' = (if has_sbom k d then get_sbom_count d else get_sbom_count d + 1)
  /\ has_sbom k d' = true
  /\ forall k', k' <> k -> has_sbom k' d' = has_sbom k' d.
Proof.
  cbv zeta. destruct (history_invariant h) as ((K1 & _) & _).
  set (d := after h) in *. split; [| split].
  - unfold get_sbom_count, store_sbom, has_sbom. cbn [snd sbom].
    rewrite length_app. cbn [length].
    pose proof (filter_other_length k (sbom d) K1) as H.
    destruct (existsb (fun r => String.eqb (source_repo r) k) (sbom d)); lia.
  - rewrite has_sbom_store, String.eqb_refl. reflexivity.
  - intros k' Hne. rewrite has_sbom_store.
    assert (E : String.eqb k k' = false) by (apply String.eqb_neq; congruence).
    rewrite E. reflexivity.
Qed.

(** X4. [update_analysis_session] on an id that has no row changes nothing
    (and raises nothing); on an id that has a row it sets [processed_repos]
    and [status] as given, sets [completed_at] when the status is
    ['completed'] and keeps it otherwise, and keeps the other columns; the
    rows read under other ids are as before. *)
Theorem update_analysis_session_effect (sid p : Z) (st : string) (ts : Z) (d : Database) :
  let d' := update_analysis_session sid p st ts d in
  (get_session sid d = None -> d' = d)
  /\ (forall r, get_session sid d = Some r ->
        get_session sid d'
        = Some {| id := id r; org_name := org_name r; total_repos := total_repos r;
                  processed_repos := p; status := st; created_at := created_at r;
                  completed_at := if String.eqb st "completed" then Some ts
                                  else completed_at r |})
  /\ (forall other, other <> sid -> get_session other d' = get_session other d).
Proof.
  cbv zeta. unfold get_session, update_analysis_session. cbn [analysis_sessions].
  split; [| split].
  - intros Hnone. destruct d as [s sq rows rq]. cbn in *. f_equal.
    induction rows as [| r rows IH]; simpl; [reflexivity |].
    simpl in Hnone. destruct (Z.eqb (id r) sid) eqn:E; [discriminate |].
    rewrite IH by exact Hnone. rewrite update_row_other; [reflexivity |].
    apply Z.eqb_neq, E.
  - intros r Hr. rewrite find_update_row, Hr. cbn [option_map]. f_equal.
    apply find_id in Hr. unfold update_row. apply Z.eqb_eq in Hr. rewrite Hr.
    destruct (String.eqb st "completed"); reflexivity.
  - intros other Hne. induction (analysis_sessions d) as [| r rows IH]; simpl; [reflexivity |].
    destruct (update_row_frame sid p st ts r) as [Hid _]. cbv zeta in Hid. rewrite Hid.
    destruct (Z.eqb (id r) other) eqn:E; [| exact IH].
    rewrite update_row_other; [reflexivity |]. apply Z.eqb_eq in E. congruence.
Qed.

End StoreFacts.

(** ** Sorted readings *)

Section SortedReadings.
Import DatabaseManager SBOMProcessor Observe StoreQueries History.

Lemma insert_newest_perm (x : SessionRow) (l : list SessionRow) :
  Permutation (insert_newest x l) (x :: l).
Proof.
  induction l as [| y l IH]; simpl; [reflexivity |].
  destruct (Z.leb (created_at y) (created_at x)); [reflexivity |].
  rewrite IH. apply perm_swap.
Qed.

Lemma order_by_created_at_desc_perm (l : list SessionRow) :
  Permutation (order_by_created_at_desc l) l.
Proof.
  induction l as [| x l IH]; simpl; [reflexivity |].
  rewrite insert_newest_perm. constructor. exact IH.
Qed.

Lemma insert_newest_sorted (x : SessionRow) (l : list SessionRow) :
  StronglySorted (fun a b => created_at b <= created_at a) l ->
  StronglySorted (fun a b => created_at b <= created_at a) (insert_newest x l).
Proof.
  induction 1 as [| y l Hs IH Hy]; simpl.
  - repeat constructor.
  - destruct (Z.leb (created_at y) (created_at x)) eqn:E.
    + apply Z.leb_le in E. constructor; [constructor; assumption |].
      constructor; [exact E |].
      revert Hy. apply List.Forall_impl. intros z Hz. lia.
    + apply Z.leb_gt in E. constructor; [exact IH |].
      eapply Permutation_Forall; [symmetry; apply insert_newest_perm |].
      constructor; [lia | exact Hy].
Qed.

Lemma order_by_created_at_desc_sorted (l : list SessionRow) :
  StronglySorted (fun a b => created_at b <= created_at a) (order_by_created_at_desc l).
Proof.
  induction l as [| x l IH]; simpl; [constructor | apply insert_newest_sorted, IH].
Qed.

(** In a sorted list, what a prefix leaves out comes after the prefix. *)
Lemma sorted_firstn_skipn {A} (R : A -> A -> Prop) (n : nat) (l : list A) :
  StronglySorted R l ->
  forall a b, In a (firstn n l) -> In b (skipn n l) -> R a b.
Proof.
  intros H. revert n. induction H as [| x l Hs IH Hx]; intros [| n] a b; simpl; try tauto.
  intros [<- | Ha] Hb.
  - rewrite List.Forall_forall in Hx. apply Hx.
    rewrite <- (firstn_skipn n l). apply in_or_app. right. exact Hb.
  - apply (IH n); assumption.
Qed.

(** X5. [get_analysis_sessions(limit)] returns rows of the table, the
    newest first: the creation times do not increase along the result; with
    a limit of at least zero the result has [min(limit, number of sessions)]
    rows, with a negative limit it has all of them; and no session that was
    left out is newer than a session that was returned. *)
Theorem get_analysis_sessions_newest_first (limit : Z) (d : Database) :
  let res := get_analysis_sessions limit d in
  StronglySorted (fun a b => created_at b <= created_at a) res
  /\ length res = (if Z.ltb limit 0 then length (analysis_sessions d)
                   else Nat.min (Z.to_nat limit) (length (analysis_sessions d)))
  /\ exists rest,
       Permutation (res ++ rest) (analysis_sessions d)
       /\ forall r r', In r res -> In r' rest -> created_at r' <= created_at r.
Proof.
  cbv zeta. unfold get_analysis_sessions, sql_limit.
  pose proof (order_by_created_at_desc_sorted (analysis_sessions d)) as Hs.
  pose proof (order_by_created_at_desc_perm (analysis_sessions d)) as Hp.
  destruct (Z.ltb limit 0).
  - split; [exact Hs |]. split; [apply Permutation_length, Hp |].
    exists []. rewrite app_nil_r. split; [exact Hp |]. intros r r' _ [].
  - split; [apply firstn_sorted, Hs |].
    split; [rewrite length_firstn, (Permutation_length Hp); reflexivity |].
    exists (skipn (Z.to_nat limit) (order_by_created_at_desc (analysis_sessions d))).
    rewrite firstn_skipn. split; [exact Hp |].
    intros r r' Hr Hr'.
    apply (sorted_firstn_skipn _ _ _ Hs r r' Hr Hr').
Qed.

(** *** Repositories in byte order *)

Lemma ascii_compare_eq (a b : ascii) : Ascii.compare a b = Eq -> a = b.
Proof. apply Ascii.compare_eq_iff. Qed.

Lemma string_compare_trans_le (s t u : string) :
  String.compare s t <> Gt -> String.compare t u <> Gt -> String.compare s u <> Gt.
Proof.
  revert t u. induction s as [| a s IH]; intros [| b t] [| c u]; simpl;
    try congruence; try discriminate.
  unfold Ascii.compare.
  destruct (N.compare_spec (N_of_ascii a) (N_of_ascii b)) as [E1 | L1 | G1];
    destruct (N.compare_spec (N_of_ascii b) (N_of_ascii c)) as [E2 | L2 | G2];
    destruct (N.compare_spec (N_of_ascii a) (N_of_ascii c)) as [E3 | L3 | G3];
    try congruence; try discriminate; try lia; try apply IH.
  all: intros; discriminate.
Qed.

Lemma string_leb_trans (s t u : string) :
  String.leb s t = true -> String.leb t u = true -> String.leb s u = true.
Proof.
  unfold String.leb. intros H1 H2.
  pose proof (string_compare_trans_le s t u) as H.
  destruct (String.compare s t); try discriminate;
    destruct (String.compare t u); try discriminate;
    destruct (String.compare s u); try reflexivity; exfalso; apply H; congruence.
Qed.

Lemma insert_repo_perm (x : string) (l : list string) :
  Permutation (insert_repo x l) (x :: l).
Proof.
  induction l as [| y l IH]; simpl; [reflexivity |].
  destruct (String.leb x y); [reflexivity |].
  rewrite IH. apply perm_swap.
Qed.

Lemma order_by_source_repo_perm (l : list string) :
  Permutation (order_by_source_repo l) l.
Proof.
  induction l as [| x l IH]; simpl; [reflexivity |].
  rewrite insert_repo_perm. constructor. exact IH.
Qed.

Lemma insert_repo_sorted (x : string) (l : list string) :
  StronglySorted (fun a b => String.leb a b = true) l ->
  StronglySorted (fun a b => String.leb a b = true) (insert_repo x l).
Proof.
  induction 1 as [| y l Hs IH Hy]; simpl.
  - repeat constructor.
  - destruct (String.leb x y) eqn:E.
    + constructor; [constructor; assumption |].
      constructor; [exact E |].
      revert Hy. apply List.Forall_impl. intros z Hz. eapply string_leb_trans; eassumption.
    + constructor; [exact IH |].
      eapply Permutation_Forall; [symmetry; apply insert_repo_perm |].
      constructor; [| exact Hy].
      destruct (String.leb_total x y) as [H | H]; [congruence | exact H].
Qed.

Lemma order_by_source_repo_sorted (l : list string) :
  StronglySorted (fun a b => String.leb a b = true) (order_by_source_repo l).
Proof.
  induction l as [| x l IH]; simpl; [constructor | apply insert_repo_sorted, IH].
Qed.

(** X6. [get_repositories_with_sbom()] lists the repositories of the
    stored documents in ascending byte order; it lists exactly the keys that
    [get_all_sboms] returns, so a repository is listed if and only if a
    document is stored under it, and the list is as long as
    [get_sbom_count()] says; on a store with any history no repository is
    listed twice. *)
Theorem get_repositories_with_sbom_sorted (d : Database) :
  let res := get_repositories_with_sbom d in
  StronglySorted (fun a b => String.leb a b = true) res
  /\ Permutation res (map fst (get_all_sboms d))
  /\ (forall k, In k res <-> has_sbom k d = true)
  /\ get_sbom_count d = Z.of_nat (length res)
  /\ (forall h, d = after h -> List.NoDup res).
Proof.
  cbv zeta. unfold get_repositories_with_sbom.
  pose proof (order_by_source_repo_perm (map source_repo (sbom d))) as Hp.
  assert (Hkeys : map fst (get_all_sboms d) = map source_repo (sbom d)).
  { unfold get_all_sboms. rewrite map_map. reflexivity. }
  split; [apply order_by_source_repo_sorted |].
  split; [rewrite Hkeys; exact Hp |].
  split.
  { intros k. rewrite has_sbom_In. split; intros H.
    - eapply Permutation_in; [exact Hp | exact H].
    - eapply Permutation_in; [symmetry; exact Hp | exact H]. }
  split.
  { unfold get_sbom_count. rewrite (Permutation_length Hp), length_map. reflexivity. }
  intros h ->. destruct (history_invariant h) as ((K1 & _) & _).
  eapply Permutation_NoDup; [symmetry; exact Hp | exact K1].
Qed.

End SortedReadings.

(** ** The statistics and the ranking agree *)

Section StatsFacts.
Context {rt : Runtime}.
Import DatabaseManager SBOMProcessor Absent StoreQueries.

Lemma sum_counts_perm (a b : list (SqlVal * Z)) :
  Permutation a b -> sum_counts a = sum_counts b.
Proof.
  unfold sum_counts. induction 1; simpl; lia.
Qed.

Lemma sum_counts_firstn (n : nat) (l : list (SqlVal * Z)) :
  Forall (fun kn => 0 <= snd kn) l -> sum_counts (firstn n l) <= sum_counts l.
Proof.
  unfold sum_counts. intros H. revert n.
  induction H as [| x l Hx Hl IH]; intros [| n]; simpl; try lia.
  - assert (0 <= fold_right Z.add 0 (map snd l)).
    { clear IH. induction Hl; simpl; lia. }
    lia.
  - specialize (IH n). lia.
Qed.

(** The occurrences of the keys of a duplicate-free list. *)
Lemma sum_count_of (ks l : list SqlVal) :
  List.NoDup ks ->
  fold_right Z.add 0 (map (fun k => count_of k l) ks)
  = Z.of_nat (length (List.filter (fun x => mem_sql x ks) l)).
Proof.
  intros Hks. induction l as [| x l IH].
  - simpl. clear Hks. induction ks; simpl; [reflexivity | assumption].
  - assert (Hx : fold_right Z.add 0 (map (fun k => count_of k (x :: l)) ks)
                 = (if mem_sql x ks then 1 else 0)
                   + fold_right Z.add 0 (map (fun k => count_of k l) ks)).
    { clear IH. induction ks as [| k ks IHk]; [reflexivity |].
      apply NoDup_cons_iff in Hks as [Hk Hks].
      cbn [map fold_right]. rewrite (IHk Hks). cbn [count_of].
      unfold mem_sql. cbn [existsb]. fold (mem_sql x ks).
      destruct (sql_eqb k x) eqn:E.
      - apply sql_eqb_eq in E. subst x. rewrite sql_eqb_refl. cbn [orb].
        destruct (mem_sql k ks) eqn:Em; [apply mem_sql_In in Em; contradiction | lia].
      - assert (E' : sql_eqb x k = false).
        { destruct (sql_eqb x k) eqn:E'; [| reflexivity].
          apply sql_eqb_eq in E'. subst. rewrite sql_eqb_refl in E. discriminate. }
        rewrite E'. cbn [orb]. lia. }
    rewrite Hx, IH. cbn [List.filter]. destruct (mem_sql x ks); cbn [length]; lia.
Qed.

Lemma sum_group_count (l : list SqlVal) :
  sum_counts (group_count l) = Z.of_nat (length l).
Proof.
  unfold sum_counts, group_count. rewrite map_map. cbn [snd].
  rewrite (sum_count_of (distinct l) l (distinct_NoDup l)).
  f_equal. f_equal. clear.
  assert (H : forall x, In x l -> mem_sql x (distinct l) = true)
    by (intros x Hx; apply mem_sql_In, distinct_In, Hx).
  revert H. generalize (distinct l) as ks.
  induction l as [| x l IH]; intros ks H; simpl; [reflexivity |].
  rewrite (H x (or_introl eq_refl)). f_equal. apply IH. intros y Hy. apply H. right. exact Hy.
Qed.

Lemma filter_length_le {A} (f g : A -> bool) (l : list A) :
  (forall x, f x = true -> g x = true) ->
  (length (List.filter f l) <= length (List.filter g l))%nat.
Proof.
  intros H. induction l as [| x l IH]; simpl; [lia |].
  destruct (f x) eqn:E.
  - rewrite (H x E). simpl. lia.
  - destruct (g x); simpl; lia.
Qed.

Lemma distinct_length (l : list SqlVal) : (length (distinct l) <= length l)%nat.
Proof.
  apply NoDup_incl_length; [apply distinct_NoDup |].
  intros x Hx. apply (proj1 (distinct_In _ _)), Hx.
Qed.

Lemma distinct_filter_length (f : SqlVal -> bool) (l : list SqlVal) :
  (length (distinct (List.filter f l)) <= length (distinct l))%nat.
Proof.
  apply NoDup_incl_length; [apply distinct_NoDup |].
  intros x Hx. apply (proj1 (distinct_In _ _)) in Hx. apply filter_In in Hx as [Hx _].
  apply distinct_In, Hx.
Qed.

(** X7. When the statistics and the ranking are both returned for one
    store: the number of unique dependencies is at most the number of
    occurrences; the ranking has at most as many entries as there are unique
    dependencies; every count of the ranking is at least one; the counts of
    the ranking add up to at most the number of occurrences; and
    [sbom_count] is [get_sbom_count()]. *)
Theorem ranking_within_statistics
  (limit : Z) (d : Database) (stats : DependencyStats) (top : list (SqlVal * Z)) :
  get_dependency_stats d = Ok stats ->
  get_top_dependencies limit d = Ok top ->
  0 <= unique_dependencies stats <= total_occurrences stats
  /\ Z.of_nat (length top) <= unique_dependencies stats
  /\ Forall (fun kn => 1 <= snd kn) top
  /\ sum_counts top <= total_occurrences stats
  /\ sbom_count stats = get_sbom_count d.
Proof.
  rewrite stats_by_named_rows, top_by_named_rows.
  destruct (named_rows (sbom d)) as [l | e]; [| discriminate]. simpl.
  intros [= <-] Htop. cbn [unique_dependencies total_occurrences sbom_count].
  pose proof (distinct_length l) as Hdl.
  split; [lia |].
  destruct (Z.eqb limit 0).
  { injection Htop as <-. simpl. repeat split; try constructor; unfold sum_counts; simpl; lia. }
  injection Htop as <-.
  set (f := List.filter top_where l).
  set (sorted := order_by_count_desc (group_count f)).
  pose proof (order_by_count_desc_perm (group_count f)) as Hp. fold sorted in Hp.
  assert (Hpos : Forall (fun kn => 1 <= snd kn) sorted).
  { apply List.Forall_forall. intros [k n] Hin.
    eapply Permutation_in in Hin; [| exact Hp].
    apply group_count_In in Hin as [Hk ->]. apply count_of_pos in Hk. simpl. lia. }
  assert (Hlen : (length (sql_limit limit sorted) <= length sorted)%nat).
  { unfold sql_limit. destruct (Z.ltb limit 0); [lia |]. rewrite length_firstn. lia. }
  assert (Hsorted : length sorted = length (distinct f)).
  { rewrite (Permutation_length Hp). unfold group_count. apply length_map. }
  pose proof (distinct_filter_length top_where l) as Hdf. fold f in Hdf.
  split; [lia |].
  split.
  { apply List.Forall_forall. intros kn Hin. apply sql_limit_In in Hin.
    rewrite List.Forall_forall in Hpos. apply Hpos, Hin. }
  split; [| reflexivity].
  assert (Hsum : sum_counts sorted = Z.of_nat (length f))
    by (rewrite (sum_counts_perm _ _ Hp); apply sum_group_count).
  assert (Hf : (length f <= length l)%nat).
  { unfold f. clear. induction l as [| x l IH]; simpl; [lia |].
    destruct (top_where x); simpl; lia. }
  assert (Hcut : sum_counts (sql_limit limit sorted) <= sum_counts sorted).
  { unfold sql_limit. destruct (Z.ltb limit 0); [lia |].
    apply sum_counts_firstn. revert Hpos. apply List.Forall_impl. intros; lia. }
  lia.
Qed.

End StatsFacts.

(** ** Repository pages and the statistics *)

Section RepositoryPages.
Context {rt : Runtime}.
Import DatabaseManager SBOMProcessor Absent StoreQueries History.

(** Whether [json_extract] raises depends on the value, not on the key. *)
Lemma json_extract_any_key (v : EachValue) (k k' : string) (x : SqlVal) :
  json_extract v k = Ok x -> exists x', json_extract v k' = Ok x'.
Proof.
  unfold json_extract. destruct v as [[| z | s] | j]; try (intros _; eexists; reflexivity).
  destruct (sqlite_json_parse s); [intros _; eexists; reflexivity | discriminate].
Qed.

Lemma dependency_of_named (v : EachValue) (n : SqlVal) :
  json_extract v "SPDXID" = Ok n ->
  exists dep, dependency_of v = Ok dep /\ package_name dep = n.
Proof.
  intros H. unfold dependency_of. rewrite H.
  destruct (json_extract_any_key v _ "name" _ H) as (a & ->).
  destruct (json_extract_any_key v _ "versionInfo" _ H) as (b & ->).
  destruct (json_extract_any_key v _ "licenseConcluded" _ H) as (c & ->).
  simpl. eexists. split; reflexivity.
Qed.

Lemma dependencies_named (vs : list EachValue) (names : list SqlVal) :
  rmap (fun v => json_extract v "SPDXID") vs = Ok names ->
  exists deps, rmap dependency_of vs = Ok deps /\ map package_name deps = names.
Proof.
  revert names. induction vs as [| v vs IH]; simpl; intros names.
  - intros [= <-]. exists []. split; reflexivity.
  - destruct (json_extract v "SPDXID") as [n | e] eqn:E; [| discriminate]. simpl.
    destruct (rmap (fun v => json_extract v "SPDXID") vs) as [ns | e]; [| discriminate].
    simpl. intros [= <-].
    destruct (dependency_of_named v n E) as (dep & -> & Hn).
    destruct (IH ns eq_refl) as (deps & -> & Hns). simpl.
    exists (dep :: deps). split; [reflexivity |]. simpl. congruence.
Qed.

Lemma filter_unique_key (rows : list SbomRow) (r : SbomRow) :
  List.NoDup (map source_repo rows) -> In r rows ->
  List.filter (fun x => String.eqb (source_repo x) (source_repo r)) rows = [r].
Proof.
  induction rows as [| y rows IH]; simpl; [tauto |].
  intros H Hin. apply NoDup_cons_iff in H as [Hy Hrows].
  destruct Hin as [-> | Hin].
  - rewrite String.eqb_refl. f_equal.
    clear IH. induction rows as [| z rows IH]; simpl; [reflexivity |].
    apply NoDup_cons_iff in Hrows as [_ Hrows].
    destruct (String.eqb (source_repo z) (source_repo r)) eqn:E.
    + exfalso. apply Hy. left. apply String.eqb_eq, E.
    + apply IH; [| exact Hrows]. intros H. apply Hy. right. exact H.
  - destruct (String.eqb (source_repo y) (source_repo r)) eqn:E.
    + exfalso. apply Hy. apply String.eqb_eq in E. rewrite E. apply in_map, Hin.
    + apply IH; assumption.
Qed.

Lemma concat_length_perm {A} (a b : list (list A)) :
  Permutation a b -> length (concat a) = length (concat b).
Proof.
  induction 1; simpl; rewrite ?length_app in *; lia.
Qed.

Lemma filter_named_length (deps : list Dependency) :
  length (List.filter (fun dep => negb (is_null (package_name dep))) deps)
  = length (List.filter (fun v => negb (is_null v)) (map package_name deps)).
Proof.
  induction deps as [| x deps IH]; simpl; [reflexivity |].
  destruct (negb (is_null (package_name x))); simpl; rewrite IH; reflexivity.
Qed.

(** The pages of the rows of a table whose identities can all be read. *)
Lemma pages_of_rows (rows : list SbomRow) (names : list SqlVal) :
  package_names rows = Ok names ->
  exists pages : list (list Dependency),
    Forall2 (fun r deps =>
               rbind (rmap dependency_of (package_rows [r]))
                     (fun l => Ok (List.filter (fun dep => negb (is_null (package_name dep))) l))
               = Ok deps) rows pages
    /\ length (concat pages) = length (List.filter (fun v => negb (is_null v)) names)
    /\ Forall (Forall (fun dep => package_name dep <> SNull)) pages.
Proof.
  revert names. induction rows as [| r rows IH]; intros names.
  - intros [= <-]. exists []. repeat constructor.
  - unfold package_names. rewrite package_rows_cons, rmap_app.
    fold (package_names rows).
    destruct (rmap (fun v => json_extract v "SPDXID")
                (map each_value (json_each (json_content r) ["sbom"; "packages"])))
      as [a | e] eqn:Ea; [| discriminate]. simpl.
    destruct (package_names rows) as [b | e] eqn:Eb; [| discriminate]. simpl.
    intros [= <-].
    destruct (IH b eq_refl) as (pages & HF & Hlen & Hnn).
    destruct (dependencies_named _ _ Ea) as (deps & Hdeps & Hnames).
    exists (List.filter (fun dep => negb (is_null (package_name dep))) deps :: pages).
    split; [| split].
    + constructor; [| exact HF].
      unfold package_rows. simpl. rewrite app_nil_r, Hdeps. reflexivity.
    + simpl. rewrite !length_app, List.filter_app, length_app, Hlen, filter_named_length, Hnames.
      reflexivity.
    + constructor; [| exact Hnn]. apply List.Forall_forall. intros dep Hd.
      apply filter_In in Hd as [_ Hd]. intros E. rewrite E in Hd. discriminate.
Qed.

(** X8. On a store with any history for which the statistics are returned,
    [get_dependencies_by_repo] succeeds for every repository that
    [get_repositories_with_sbom] lists, every dependency it returns has an
    identity, and the numbers of dependencies of the listed repositories add
    up to [total_occurrences].  For a repository without a stored document
    it returns the empty list on any store. *)
Theorem dependencies_by_repo_add_up (h : list Call) (stats : DependencyStats) :
  get_dependency_stats (after h) = Ok stats ->
  (exists pages : list (list Dependency),
      Forall2 (fun k deps => get_dependencies_by_repo k (after h) = Ok deps)
              (get_repositories_with_sbom (after h)) pages
      /\ Z.of_nat (length (concat pages)) = total_occurrences stats
      /\ Forall (Forall (fun dep => package_name dep <> SNull)) pages)
  /\ (forall d k, has_sbom k d = false -> get_dependencies_by_repo k d = Ok []).
Proof.
  intros Hs. split.
  - destruct (history_invariant h) as ((K1 & _) & _).
    set (d := after h) in *.
    unfold get_dependency_stats in Hs.
    destruct (package_names (sbom d)) as [names | e] eqn:En; [| discriminate].
    simpl in Hs. injection Hs as <-. cbn [total_occurrences].
    destruct (pages_of_rows _ _ En) as (pages & HF & Hlen & Hnn).
    assert (HF' : Forall2 (fun k deps => get_dependencies_by_repo k d = Ok deps)
                    (map source_repo (sbom d)) pages).
    { assert (Hin : forall r, In r (sbom d) -> In r (sbom d)) by tauto.
      clear Hlen Hnn. revert Hin HF. generalize (sbom d) at 1 3 4 as rows. intros rows Hin HF.
      induction HF as [| r deps rows pages Hr HF IH]; simpl; constructor.
      - unfold get_dependencies_by_repo. cbv zeta.
        rewrite (filter_unique_key _ r K1 (Hin r (or_introl eq_refl))). exact Hr.
      - apply IH. intros x Hx. apply Hin. right. exact Hx. }
    destruct (Permutation_Forall2 (Permutation_sym (order_by_source_repo_perm _)) HF')
      as (pages' & Hperm & HF'').
    exists pages'. split; [exact HF'' |].
    split; [rewrite <- (concat_length_perm _ _ Hperm), Hlen; reflexivity |].
    eapply Permutation_Forall; [exact Hperm | exact Hnn].
  - intros d k Hk. unfold get_dependencies_by_repo. cbv zeta.
    assert (E : List.filter (fun r => String.eqb (source_repo r) k) (sbom d) = []).
    { unfold has_sbom in Hk. induction (sbom d) as [| r rows IH]; simpl in *; [reflexivity |].
      apply orb_false_iff in Hk as [Hr Hk]. rewrite Hr. apply IH, Hk. }
    rewrite E. reflexivity.
Qed.

End RepositoryPages.

(** ** The client's answers *)

Section ClientAnswers.
Context {rt : Runtime}.
Import GitHubClient Effects.

Lemma handle_rate_limit_raises (c : Client) (r : Response) (w w' : World) (e : PyExn) :
  _handle_rate_limit c r w = (Raised e, w') -> exists m, e = ValueError m.
Proof.
  unfold _handle_rate_limit.
  repeat match goal with
         | |- context [if ?b then _ else _] => destruct b; try discriminate
         end.
  unfold bind, int_of_str.
  destruct (py_int _); simpl.
  - destruct (Z.ltb _ _); discriminate.
  - intros [= <- _]. eexists. reflexivity.
Qed.

Lemma make_request_raises (c : Client) (url : string) (rc : Z) (w : World) :
  forall e, fst (_make_request c url rc w) = Raised e -> exists m, e = ValueError m.
Proof.
  apply (make_request_ind c url
           (fun _ _ res => forall e, fst res = Raised e -> exists m, e = ValueError m));
    try (intros; simpl in *; discriminate); try (intros; simpl in *; auto; fail).
  intros rc0 w0 r w1 res _ _ Hh _ e. destruct res as [b | e']; simpl; [discriminate |].
  intros [= <-]. eapply handle_rate_limit_raises, Hh.
Qed.

(** A response that [_make_request] returns is the forge's answer to the
    last request of the call. *)
Lemma make_request_response (c : Client) (url : string) (rc : Z) (w : World) :
  forall r, fst (_make_request c url rc w) = Ok (Some r) ->
  exists n : nat,
    requests_sent (snd (_make_request c url rc w)) = (requests_sent w ++ repeat url (S n))%list
    /\ forge w url (length (requests_sent w) + n) = Responded r
    /\ (S n <= Z.to_nat (4 - rc))%nat
    /\ fst (_handle_rate_limit c r (snd (_make_request c url rc w))) <> Ok true.
Proof.
  apply (make_request_ind c url
           (fun rc w res => forall r, fst res = Ok (Some r) ->
              exists n : nat,
                requests_sent (snd res) = (requests_sent w ++ repeat url (S n))%list
                /\ forge w url (length (requests_sent w) + n) = Responded r
                /\ (S n <= Z.to_nat (4 - rc))%nat
                /\ fst (_handle_rate_limit c r (snd res)) <> Ok true));
    try (intros; simpl in *; discriminate).
  - intros rc0 w0 r w1 res Hrc Hg Hh Hne r'.
    destruct res as [b | e]; simpl; [| discriminate]. intros [= <-].
    unfold requests_get in Hg. injection Hg as Hf <-. exists 0%nat.
    cbn. rewrite Nat.add_0_r. split; [reflexivity |]. split; [exact Hf |].
    split; [lia |]. unfold requests_get in Hh. cbn in Hh.
    assert (Hh' : fst (_handle_rate_limit c r
                         (with_requests_sent (requests_sent w0 ++ [url]) w0)) = Ok b)
      by (rewrite Hh; reflexivity).
    rewrite Hh'. intros [= ->]. apply Hne. reflexivity.
  - intros rc0 w0 r w1 w2 Hrc Hg Hh IH r' Hr'.
    destruct (IH r' Hr') as (n & Hs & Hf & Hn & Hq).
    destruct (handle_rate_limit_cases c r w1)
      as [(s & t & _ & _ & _ & _ & _ & _ & Hh') | (res' & Hh' & Hne)];
      rewrite Hh in Hh'; [| injection Hh' as <- _; contradiction Hne; reflexivity].
    injection Hh' as E2.
    assert (Hsent : requests_sent w2 = (requests_sent w0 ++ [url])%list)
      by (rewrite E2; unfold requests_get in Hg; injection Hg as _ <-; reflexivity).
    assert (Hforge : forge w2 = forge w0)
      by (rewrite E2; unfold requests_get in Hg; injection Hg as _ <-; reflexivity).
    rewrite Hsent, Hforge in Hf. rewrite Hsent in Hs. exists (S n).
    split; [rewrite Hs, <- app_assoc; reflexivity |].
    split; [rewrite length_app in Hf; cbn [length] in Hf;
            replace (length (requests_sent w0) + S n)%nat
              with (length (requests_sent w0) + 1 + n)%nat by lia; exact Hf |].
    split; [lia | exact Hq].
Qed.

Lemma rmap_raised {A B} (f : A -> Result B) (l : list A) (e : PyExn) :
  rmap f l = Raised e -> exists x, In x l /\ f x = Raised e.
Proof.
  induction l as [| x l IH]; simpl; [discriminate |].
  destruct (f x) as [y | e'] eqn:E; simpl.
  - destruct (rmap f l) as [ys | e'']; simpl; [discriminate |].
    intros [= <-]. destruct (IH eq_refl) as (z & Hz & Ez). exists z. tauto.
  - intros [= <-]. exists x. tauto.
Qed.

Lemma string_head_differs (a b : ascii) (s t : string) : a <> b -> String a s <> String b t.
Proof. intros H [= E _]. contradiction. Qed.

(** X9. [get_repositories] returns a listing only from a response with
    status 200.  When the request gives no response, and also when the
    response has a status from 400 to 599 (a [requests.Response] with such a
    status is false), it raises the exception ["Failed to fetch
    repositories. ..."] whose text depends only on whether a token is set:
    for no answer of the forge does it raise the exceptions written for the
    statuses 404 and 403 (["Organization '...' not found. ..."], ["Access
    denied. ..."]). *)
Theorem get_repositories_failures (c : Client) (org : string) (w : World) :
  let url := base_url ++ "/orgs/" ++ org ++ "/repos" in
  let failed :=
    Exception (if truthy (github_token c)
               then "Failed to fetch repositories. Please check your GitHub token and try again."
               else "Failed to fetch repositories. Consider setting a GitHub token for higher rate limits.") in
  (forall w1, _make_request c url 0 w = (Ok None, w1) ->
              get_repositories c org w = (Raised failed, w1))
  /\ (forall r w1, _make_request c url 0 w = (Ok (Some r), w1) ->
                   400 <= status_code r < 600 ->
                   get_repositories c org w = (Raised failed, w1))
  /\ (forall repos w1, get_repositories c org w = (Ok repos, w1) ->
        exists r, _make_request c url 0 w = (Ok (Some r), w1) /\ status_code r = 200)
  /\ (forall e w1, get_repositories c org w = (Raised e, w1) ->
        e <> Exception ("Organization '" ++ org
                        ++ "' not found. Please check the organization name.")
        /\ e <> Exception "Access denied. The organization might be private or your token may not have sufficient permissions."
        /\ e <> Exception "Access denied. This organization may require authentication. Please set a GitHub token.").
Proof.
  cbv zeta. unfold get_repositories, bind. cbv zeta.
  set (url := base_url ++ "/orgs/" ++ org ++ "/repos").
  pose proof (make_request_raises c url 0 w) as Hraise.
  destruct (_make_request c url 0 w) as [[[r |] | e0] w0] eqn:Em; cbn [fst] in Hraise.
  - (* a response *)
    destruct (negb (response_ok r)) eqn:Eok.
    + (* a false response *)
      split; [intros w1 [=] |].
      split; [intros r' w1 [= <- <-] _; destruct (truthy (github_token c)); reflexivity |].
      split; [destruct (truthy (github_token c)); intros repos w1 [=] |].
      intros e w1 He.
      assert (He' : e = Exception "Failed to fetch repositories. Please check your GitHub token and try again."
                    \/ e = Exception "Failed to fetch repositories. Consider setting a GitHub token for higher rate limits.")
        by (destruct (truthy (github_token c)); injection He as <- _; tauto).
      destruct He' as [-> | ->]; repeat split; intros [= H];
        try discriminate H; rewrite !append_String in H; discriminate H.
    + (* a true response *)
      assert (Hst : ~ (400 <= status_code r < 600)).
      { unfold response_ok in Eok. apply negb_false_iff, negb_true_iff in Eok.
        apply andb_false_iff in Eok as [E | E];
          [apply Z.leb_gt in E | apply Z.ltb_ge in E]; lia. }
      split; [intros w1 [=] |].
      split; [intros r' w1 [= <- <-] H; contradiction |].
      destruct (negb (Z.eqb (status_code r) 200)) eqn:E200.
      * (* not 200 *)
        assert (H404 : Z.eqb (status_code r) 404 = false) by (apply Z.eqb_neq; lia).
        assert (H403 : Z.eqb (status_code r) 403 = false) by (apply Z.eqb_neq; lia).
        rewrite H404, H403. unfold raise.
        split; [intros repos w1 [=] |].
        intros e w1 [= <- <-]. repeat split; intros [= H];
          rewrite !append_String in H; discriminate H.
      * apply negb_false_iff, Z.eqb_eq in E200.
        split.
        { intros repos w1 Ej. apply response_json_world in Ej. subst w1.
          exists r. split; [reflexivity | exact E200]. }
        intros e w1 Ej. unfold response_json in Ej.
        destruct (json_body r); [discriminate |]. injection Ej as <- <-.
        repeat split; discriminate.
  - (* no response *)
    split; [intros w1 [= <-]; destruct (truthy (github_token c)); reflexivity |].
    split; [intros r w1 [=] |].
    split; [destruct (truthy (github_token c)); intros repos w1 [=] |].
    intros e w1 He.
    assert (He' : e = Exception "Failed to fetch repositories. Please check your GitHub token and try again."
                  \/ e = Exception "Failed to fetch repositories. Consider setting a GitHub token for higher rate limits.")
      by (destruct (truthy (github_token c)); injection He as <- _; tauto).
    destruct He' as [-> | ->]; repeat split; intros [= H];
      try discriminate H; rewrite !append_String in H; discriminate H.
  - (* the request raised *)
    split; [intros w1 [=] |]. split; [intros r w1 [=] |]. split; [intros repos w1 [=] |].
    intros e w1 [= <- <-]. destruct (Hraise e0 eq_refl) as (m & ->).
    repeat split; discriminate.
Qed.

(** The name of the file of a document: in [sboms], unless the owner
    starts with a slash. *)
Lemma sbom_filename_cases (owner repo : string) :
  sbom_filename owner repo
  = match owner with
    | String "/" _ => owner ++ "_" ++ repo ++ "_sbom.json"
    | _ => "sboms/" ++ owner ++ "_" ++ repo ++ "_sbom.json"
    end.
Proof.
  unfold sbom_filename, os_path_join.
  destruct owner as [| a owner]; [reflexivity |].
  rewrite (append_String a owner).
  destruct a as [[] [] [] [] [] [] [] []]; reflexivity.
Qed.

(** X10. [fetch_sbom] sends the request for the document of the repository
    between one and four times and nothing else; it leaves the database and
    the progress map as they are.  The file of the document is
    [sboms/<owner>_<repo>_sbom.json], unless the owner starts with a slash.
    When [fetch_sbom] returns a file name, it is the name of that file, the
    last request was answered with status 200 and a JSON body, [open]
    accepted the file, the file holds that body and reading the file gives
    it back.  When it returns [None] or raises, no file was written; it
    raises only [ValueError] (the header X-RateLimit-Remaining or
    X-RateLimit-Reset is not a number), [JSONDecodeError] (the body is not
    JSON) and what [open] raises for the file. *)
Theorem fetch_sbom_saves_response (c : Client) (owner repo : string) (w : World) :
  let url := base_url ++ "/repos/" ++ owner ++ "/" ++ repo ++ "/dependency-graph/sbom" in
  let path := sbom_filename owner repo in
  let res := fst (fetch_sbom c owner repo w) in
  let w' := snd (fetch_sbom c owner repo w) in
  db w' = db w
  /\ analysis_progress w' = analysis_progress w
  /\ (exists k, (1 <= k <= 4)%nat /\ requests_sent w' = (requests_sent w ++ repeat url k)%list)
  /\ path = match owner with
            | String "/" _ => owner ++ "_" ++ repo ++ "_sbom.json"
            | _ => "sboms/" ++ owner ++ "_" ++ repo ++ "_sbom.json"
            end
  /\ match res with
     | Ok (Some file) =>
         file = path
         /\ py_open_error (sboms_dir w) path = None
         /\ exists r j,
              forge w url (length (requests_sent w') - 1) = Responded r
              /\ status_code r = 200 /\ json_body r = Some j
              /\ sboms_dir w' = <[path := j]> (sboms_dir w)
              /\ read_json_file file w' = (Ok j, w')
     | Ok None => sboms_dir w' = sboms_dir w
     | Raised e => sboms_dir w' = sboms_dir w
                   /\ ((exists m, e = ValueError m \/ e = JSONDecodeError m)
                       \/ py_open_error (sboms_dir w) path = Some e)
     end.
Proof.
  cbv zeta.
  set (url := base_url ++ "/repos/" ++ owner ++ "/" ++ repo ++ "/dependency-graph/sbom").
  destruct (fetch_sbom c owner repo w) as [res w'] eqn:Hfetch. cbn [fst snd].
  rewrite <- (sbom_filename_cases owner repo).
  set (path := sbom_filename owner repo).
  revert Hfetch. unfold fetch_sbom. unfold bind at 1. unfold modify at 1.
  set (w0 := with_fetch_trace _ w). fold url. fold path.
  unfold bind at 1.
  pose proof (make_request_frame c url 0 w0) as [(F1 & F2 & _) F3].
  pose proof (make_request_trace c url 0 w0) as (k & sl & T1 & _ & T3 & T4 & _).
  pose proof (make_request_raises c url 0 w0) as Hraise.
  pose proof (make_request_response c url 0 w0) as Hresp.
  cbv zeta in F1, F2, F3, T1.
  destruct (_make_request c url 0 w0) as [[[r |] | e0] w1] eqn:Em;
    cbn [fst snd] in *.
  2: { intros [= <- <-]. split; [exact F1 |]. split; [exact F2 |].
       split; [exists k; split; [lia | exact T1] |]. split; [reflexivity |]. exact F3. }
  2: { intros [= <- <-]. split; [exact F1 |]. split; [exact F2 |].
       split; [exists k; split; [lia | exact T1] |]. split; [reflexivity |].
       split; [exact F3 |]. destruct (Hraise e0 eq_refl) as (m & ->). left. exists m. tauto. }
  assert (Hbase : db w1 = db w /\ analysis_progress w1 = analysis_progress w
                  /\ exists k, (1 <= k <= 4)%nat
                               /\ requests_sent w1 = (requests_sent w ++ repeat url k)%list).
  { split; [exact F1 |]. split; [exact F2 |]. exists k. split; [lia | exact T1]. }
  assert (Hnone : (Ok None, w1) = (res, w') ->
                  db w' = db w /\ analysis_progress w' = analysis_progress w
                  /\ (exists k, (1 <= k <= 4)%nat
                                /\ requests_sent w' = (requests_sent w ++ repeat url k)%list)
                  /\ path = path
                  /\ match res with
                     | Ok (Some file) =>
                         file = path
                         /\ py_open_error (sboms_dir w) path = None
                         /\ exists r j,
                              forge w url (length (requests_sent w') - 1) = Responded r
                              /\ status_code r = 200 /\ json_body r = Some j
                              /\ sboms_dir w' = <[path := j]> (sboms_dir w)
                              /\ read_json_file file w' = (Ok j, w')
                     | Ok None => sboms_dir w' = sboms_dir w
                     | Raised e => sboms_dir w' = sboms_dir w
                                   /\ ((exists m, e = ValueError m \/ e = JSONDecodeError m)
                                       \/ py_open_error (sboms_dir w) path = Some e)
                     end).
  { intros [= <- <-]. split; [tauto |]. split; [tauto |]. split; [tauto |].
    split; [reflexivity |]. exact F3. }
  destruct (negb (response_ok r)); [exact Hnone |].
  destruct (Z.eqb (status_code r) 200) eqn:E200.
  2: { repeat match goal with |- context [if ?b then _ else _] => destruct b end;
         exact Hnone. }
  clear Hnone. apply Z.eqb_eq in E200.
  unfold bind at 1.
  destruct (_check_rate_limit_remaining c r w1) as [[low | e1] w2] eqn:Ec;
    pose proof Ec as Ec'; apply check_rate_limit_remaining_world in Ec'; subst w2.
  2: { intros [= <- <-]. split; [tauto |]. split; [tauto |]. split; [tauto |].
       split; [reflexivity |].
       split; [exact F3 |]. left. revert Ec. unfold _check_rate_limit_remaining.
       destruct (truthy _); [| discriminate]. unfold bind, int_of_str.
       destruct (py_int _); [discriminate |]. intros [= <-]. eexists. left. reflexivity. }
  unfold bind at 1.
  destruct (response_json r w1) as [[j | e1] w2] eqn:Ej;
    pose proof Ej as Ej'; apply response_json_world in Ej'; subst w2.
  2: { intros [= <- <-]. split; [tauto |]. split; [tauto |]. split; [tauto |].
       split; [reflexivity |].
       split; [exact F3 |]. left. revert Ej. unfold response_json.
       destruct (json_body r); [discriminate |]. intros [= <-]. eexists. right. reflexivity. }
  unfold bind, write_json_file, ret. fold path. rewrite F3.
  change (sboms_dir w0) with (sboms_dir w).
  destruct (py_open_error (sboms_dir w) path) as [e1 |] eqn:Eo.
  { intros [= <- <-]. split; [tauto |]. split; [tauto |]. split; [tauto |].
    split; [reflexivity |]. split; [exact F3 |]. right. reflexivity. }
  intros [= <- <-].
  cbn [db analysis_progress requests_sent sboms_dir with_sboms_dir].
  split; [tauto |]. split; [tauto |]. split; [tauto |]. split; [reflexivity |].
  split; [reflexivity |]. split; [reflexivity |].
  destruct (Hresp r eq_refl) as (n & Hs & Hf & _).
  exists r, j. unfold w0 in Hs, Hf. cbn in Hs, Hf.
  split.
  { rewrite Hs, length_app. cbn [length]. rewrite repeat_length.
    replace (length (requests_sent w) + S n - 1)%nat with (length (requests_sent w) + n)%nat by lia.
    exact Hf. }
  split; [exact E200 |].
  split.
  { revert Ej. unfold response_json. destruct (json_body r); [| discriminate].
    intros [= ->]. reflexivity. }
  split; [reflexivity |].
  unfold read_json_file. cbn. rewrite lookup_insert_eq. reflexivity.
Qed.

(** [get_repositories] returns exactly when the request is answered with
    status 200 and a JSON body, and then it returns that body, whatever it
    is. *)
Lemma get_repositories_returns (c : Client) (org : string) (w : World) (data : Json) :
  fst (get_repositories c org w) = Ok data
  <-> exists r, fst (_make_request c (base_url ++ "/orgs/" ++ org ++ "/repos") 0 w)
                = Ok (Some r)
                /\ status_code r = 200 /\ json_body r = Some data.
Proof.
  unfold get_repositories, bind. cbv zeta.
  destruct (_make_request c (base_url ++ "/orgs/" ++ org ++ "/repos") 0 w)
    as [[[r |] | e0] w0]; cbn [fst].
  - destruct (negb (response_ok r)) eqn:Eok.
    { split.
      - destruct (truthy (github_token c)); discriminate.
      - intros (r' & [= <-] & H200 & _). unfold response_ok in Eok.
        rewrite H200 in Eok. discriminate. }
    destruct (negb (Z.eqb (status_code r) 200)) eqn:E200.
    { split.
      - repeat match goal with |- context [if ?b then _ else _] => destruct b end;
          discriminate.
      - intros (r' & [= <-] & H200 & _). rewrite H200 in E200. discriminate. }
    apply negb_false_iff, Z.eqb_eq in E200.
    unfold response_json. destruct (json_body r) as [j |] eqn:Ej; cbn [fst].
    + split.
      * intros [= ->]. exists r. split; [reflexivity |]. split; [exact E200 | exact Ej].
      * intros (r' & [= <-] & _ & H). rewrite Ej in H. injection H as ->. reflexivity.
    + split; [discriminate |]. intros (r' & [= <-] & _ & H). rewrite Ej in H. discriminate.
  - split.
    + destruct (truthy (github_token c)); discriminate.
    + intros (r' & H & _). discriminate.
  - split; [discriminate |]. intros (r' & H & _). discriminate.
Qed.

Lemma get_repositories_world (c : Client) (org : string) (w : World) :
  snd (get_repositories c org w)
  = snd (_make_request c (base_url ++ "/orgs/" ++ org ++ "/repos") 0 w).
Proof.
  unfold get_repositories, bind. cbv zeta.
  destruct (_make_request c (base_url ++ "/orgs/" ++ org ++ "/repos") 0 w)
    as [[[r |] | e] w1]; cbn [snd].
  - repeat match goal with
           | |- context [if ?b then _ else _] => destruct b
           end; unfold raise; try reflexivity.
    destruct (response_json r w1) as [[data | e] w2] eqn:E1;
      apply response_json_world in E1; subst w2; reflexivity.
  - destruct (truthy (github_token c)); reflexivity.
  - reflexivity.
Qed.

Lemma get_rate_limit_info_world (c : Client) (w : World) :
  snd (get_rate_limit_info c w) = snd (_make_request c (base_url ++ "/rate_limit") 0 w).
Proof.
  pose proof (get_rate_limit_info_effect c w) as H.
  unfold get_rate_limit_info, bind in *. cbv zeta in *.
  destruct (_make_request c (base_url ++ "/rate_limit") 0 w) as [[[r |] | e] w1];
    cbn [snd]; try reflexivity.
  destruct (response_ok r && Z.eqb (status_code r) 200)%bool; [| reflexivity].
  repeat match goal with
         | |- context [response_json ?r ?w] =>
             let E := fresh "E" in
             destruct (response_json r w) as [[? | ?] ?] eqn:E;
             apply response_json_world in E; subst; cbn [snd]; try reflexivity
         | |- context [dict_get ?d ?k ?x ?w] =>
             let E := fresh "E" in
             destruct (dict_get d k x w) as [[? | ?] ?] eqn:E;
             apply dict_get_world in E; subst; cbn [snd]; try reflexivity
         end.
Qed.

End ClientAnswers.

(** ** What a scan leaves alone *)

Section Preservation.
Import Footprint App.

Lemma preserves_ret {S A} (R : S -> S -> Prop) (a : A) :
  (forall s, R s s) -> preserves R (@ret S A a).
Proof. intros Hr s r s' [= _ <-]. apply Hr. Qed.

Lemma preserves_raise {S A} (R : S -> S -> Prop) (e : PyExn) :
  (forall s, R s s) -> preserves R (@raise S A e).
Proof. intros Hr s r s' [= _ <-]. apply Hr. Qed.

Lemma preserves_gets {S A} (R : S -> S -> Prop) (f : S -> A) :
  (forall s, R s s) -> preserves R (gets f).
Proof. intros Hr s r s' [= _ <-]. apply Hr. Qed.

Lemma preserves_bind {S A B} (R : S -> S -> Prop) (m : M S A) (f : A -> M S B) :
  (forall a b c, R a b -> R b c -> R a c) ->
  preserves R m -> (forall a, preserves R (f a)) -> preserves R (bind m f).
Proof.
  intros Ht Hm Hf s r s'. unfold bind.
  destruct (m s) as [[a | e] s1] eqn:Em.
  - intros H. eapply Ht; [eapply Hm, Em | eapply Hf, H].
  - intros [= _ <-]. eapply Hm, Em.
Qed.

Lemma preserves_try_except {S A} (R : S -> S -> Prop) (m : M S A) (h : PyExn -> M S A) :
  (forall a b c, R a b -> R b c -> R a c) ->
  preserves R m -> (forall e, preserves R (h e)) -> preserves R (try_except m h).
Proof.
  intros Ht Hm Hh s r s'. unfold try_except.
  destruct (m s) as [[a | e] s1] eqn:Em.
  - intros [= _ <-]. eapply Hm, Em.
  - intros H. eapply Ht; [eapply Hm, Em | eapply Hh, H].
Qed.

Lemma preserves_for_each {S A} (R : S -> S -> Prop) (l : list A) (body : A -> M S unit) :
  (forall s, R s s) -> (forall a b c, R a b -> R b c -> R a c) ->
  (forall x, In x l -> preserves R (body x)) -> preserves R (for_each l body).
Proof.
  intros Hr Ht. induction l as [| x l IH]; intros Hb; simpl.
  - apply preserves_ret, Hr.
  - apply preserves_bind; [exact Ht | apply Hb; left; reflexivity |].
    intros _. apply IH. intros y Hy. apply Hb. right. exact Hy.
Qed.

Lemma preserves_lift {A} (R : World -> World -> Prop) (m : M World A) :
  preserves R m -> preserves (on_world R) (lift m).
Proof.
  intros Hm fr r fr'. unfold lift, on_world.
  destruct (m (world fr)) as [r0 w1] eqn:Em. intros [= _ <-]. simpl. eapply Hm, Em.
Qed.

Lemma preserves_weaken {S A} (R R' : S -> S -> Prop) (m : M S A) :
  (forall s s', R s s' -> R' s s') -> preserves R m -> preserves R' m.
Proof. intros H Hm s r s' E. apply H. eapply Hm, E. Qed.

End Preservation.

Section FootprintFacts.
Context {rt : Runtime}.
Variable github_client : GitHubClient.Client.
Import GitHubClient DatabaseManager Observe History Effects ScanState Footprint App.

Lemma footprint_refl (sid : Z) (keys urls : list string) (w : World) :
  footprint sid keys urls w w.
Proof.
  unfold footprint. repeat split; try reflexivity; try tauto.
  exists []. rewrite app_nil_r. split; [reflexivity | constructor].
Qed.

Lemma footprint_trans (sid : Z) (keys urls : list string) (a b c : World) :
  footprint sid keys urls a b -> footprint sid keys urls b c -> footprint sid keys urls a c.
Proof.
  intros (A1 & (s1 & A2 & A2') & A3 & A4 & A5 & A6 & A7)
         (B1 & (s2 & B2 & B2') & B3 & B4 & B5 & B6 & B7).
  unfold footprint. split; [congruence |].
  split.
  { exists (s1 ++ s2)%list. split; [rewrite B2, A2, app_assoc; reflexivity |].
    apply Forall_app. tauto. }
  split; [intros k Hk; rewrite B3, A3; auto |].
  split; [intros k Hk; apply B4, A4, Hk |].
  split; [congruence |]. split; [congruence |].
  intros other Hne. rewrite B7, A7; auto.
Qed.

Lemma footprint_mono (sid : Z) (keys keys' urls urls' : list string) (w w' : World) :
  incl keys keys' -> incl urls urls' ->
  footprint sid keys urls w w' -> footprint sid keys' urls' w w'.
Proof.
  intros Hk Hu (A1 & (s1 & A2 & A2') & A3 & A4 & A5 & A6 & A7).
  unfold footprint. split; [exact A1 |].
  split.
  { exists s1. split; [exact A2 |]. revert A2'. apply List.Forall_impl.
    intros u [H | H]; [left; apply Hu, H | right; exact H]. }
  split; [intros k Hn; apply A3; intros H; apply Hn, Hk, H |].
  tauto.
Qed.

(** Code that keeps the store and sends requests for [url] only. *)
Lemma footprint_of_requests (sid : Z) (keys urls : list string) (url : string) (k : nat)
  (w w' : World) :
  same_store w w' -> requests_sent w' = (requests_sent w ++ repeat url k)%list ->
  In url urls \/ url = rate_limit_url ->
  footprint sid keys urls w w'.
Proof.
  intros (S1 & S2 & _ & _ & S5) Hsent Hurl. unfold footprint.
  split; [exact S5 |].
  split.
  { exists (repeat url k). split; [exact Hsent |].
    apply List.Forall_forall. intros u Hu. apply repeat_spec in Hu. subst u. exact Hurl. }
  rewrite S1, S2. repeat split; auto.
Qed.

Lemma footprint_make_request (sid : Z) (keys urls : list string) (c : Client) (url : string) :
  In url urls \/ url = rate_limit_url ->
  preserves (footprint sid keys urls) (_make_request c url 0).
Proof.
  intros Hurl w r w' E.
  pose proof (make_request_frame c url 0 w) as [Hs _].
  pose proof (make_request_trace c url 0 w) as (k & sl & T1 & _).
  rewrite E in Hs, T1. cbn [snd] in Hs, T1.
  eapply footprint_of_requests; eassumption.
Qed.

Lemma footprint_quiet (sid : Z) (keys urls : list string) (w w' : World) :
  forge w' = forge w -> requests_sent w' = requests_sent w -> db w' = db w ->
  analysis_progress w' = analysis_progress w ->
  footprint sid keys urls w w'.
Proof.
  intros H1 H2 H3 H4. unfold footprint. rewrite H1, H2, H3, H4.
  apply footprint_refl.
Qed.

Lemma footprint_time_sleep (sid : Z) (keys urls : list string) (d : Q) :
  preserves (footprint sid keys urls) (time_sleep d).
Proof. intros w r w' [= _ <-]. apply footprint_quiet; reflexivity. Qed.

Lemma footprint_get_rate_limit_info (sid : Z) (keys urls : list string) (c : Client) :
  preserves (footprint sid keys urls) (get_rate_limit_info c).
Proof.
  unfold get_rate_limit_info. cbv zeta.
  assert (Hr : forall w, footprint sid keys urls w w) by apply footprint_refl.
  assert (Ht := footprint_trans sid keys urls).
  apply preserves_bind; [exact Ht | apply footprint_make_request; right; reflexivity |].
  intros [r |]; [| apply preserves_ret, Hr].
  destruct (response_ok r && Z.eqb (status_code r) 200)%bool; [| apply preserves_ret, Hr].
  assert (Hj : preserves (footprint sid keys urls) (@response_json World r)).
  { intros w x w' E. apply response_json_world in E. subst. apply Hr. }
  assert (Hd : forall d k dflt, preserves (footprint sid keys urls) (@dict_get World d k dflt)).
  { intros d k dflt w x w' E. apply dict_get_world in E. subst. apply Hr. }
  repeat (apply preserves_bind; [exact Ht | auto |]; intros ?).
  apply preserves_ret, Hr.
Qed.

Lemma footprint_fetch_sbom (sid : Z) (keys urls : list string) (c : Client) (repo : Repo) :
  In (sbom_url_of repo) urls ->
  preserves (footprint sid keys urls) (fetch_sbom c (owner_login repo) (name repo)).
Proof.
  intros Hurl. unfold fetch_sbom.
  assert (Hr : forall w, footprint sid keys urls w w) by apply footprint_refl.
  assert (Ht := footprint_trans sid keys urls).
  apply preserves_bind; [exact Ht | |].
  { intros w x w' [= _ <-]. apply footprint_quiet; reflexivity. }
  intros _. cbv zeta.
  apply preserves_bind; [exact Ht | apply footprint_make_request; left; exact Hurl |].
  intros [r |]; [| apply preserves_ret, Hr].
  destruct (negb (response_ok r)); [apply preserves_ret, Hr |].
  destruct (Z.eqb (status_code r) 200).
  - apply preserves_bind; [exact Ht | |].
    { intros w x w' E. apply check_rate_limit_remaining_world in E. subst. apply Hr. }
    intros _. apply preserves_bind; [exact Ht | |].
    { intros w x w' E. apply response_json_world in E. subst. apply Hr. }
    intros j. apply preserves_bind; [exact Ht | | intros _; apply preserves_ret, Hr].
    intros w x w'. unfold write_json_file.
    destruct (py_open_error _ _); intros [= _ <-]; [apply Hr | apply footprint_quiet; reflexivity].
  - repeat match goal with |- context [if ?b then _ else _] => destruct b end;
      apply preserves_ret, Hr.
Qed.

Lemma footprint_store_sbom (sid : Z) (keys urls : list string) (key : string) (j : Json) :
  In key keys -> preserves (footprint sid keys urls) (App.store_sbom key j).
Proof.
  intros Hkey w r w'. unfold App.store_sbom.
  destruct (DatabaseManager.store_sbom key j (current_timestamp w) (db w)) as [b d] eqn:E.
  intros [= _ <-]. unfold footprint. cbn.
  assert (Hd : d = snd (DatabaseManager.store_sbom key j (current_timestamp w) (db w)))
    by (rewrite E; reflexivity).
  split; [reflexivity |].
  split; [exists []; rewrite app_nil_r; split; [reflexivity | constructor] |].
  split.
  { intros k Hk. rewrite Hd. apply stored_under_store_other. intros ->. contradiction. }
  split.
  { intros k Hk. rewrite Hd, has_sbom_store, Hk. apply orb_true_r. }
  rewrite Hd. cbn. tauto.
Qed.

Lemma update_keeps_others (sid p : Z) (st : string) (ts : Z) (rows : list SessionRow) :
  List.filter (fun r => negb (Z.eqb (id r) sid)) (map (update_row sid p st ts) rows)
  = List.filter (fun r => negb (Z.eqb (id r) sid)) rows.
Proof.
  induction rows as [| r rows IH]; simpl; [reflexivity |].
  destruct (update_row_frame sid p st ts r) as [Hid _]. cbv zeta in Hid. rewrite Hid.
  destruct (Z.eqb (id r) sid) eqn:E; simpl; [exact IH |].
  rewrite IH, update_row_other; [reflexivity |]. apply Z.eqb_neq. exact E.
Qed.

Lemma footprint_update_analysis_session (sid : Z) (keys urls : list string) (p : Z) (st : string) :
  preserves (footprint sid keys urls) (App.update_analysis_session sid p st).
Proof.
  intros w r w' [= _ <-]. unfold footprint. cbn.
  split; [reflexivity |].
  split; [exists []; rewrite app_nil_r; split; [reflexivity | constructor] |].
  split; [reflexivity |]. split; [tauto |].
  split; [apply update_keeps_others |].
  split; [apply update_keeps_ids | reflexivity].
Qed.

Lemma footprint_progress_update (sid : Z) (keys urls : list string) (f : Progress -> Progress) :
  preserves (footprint sid keys urls) (progress_update sid f).
Proof.
  intros w r w'. unfold progress_update.
  destruct (analysis_progress w !! sid) as [p |]; intros [= _ <-];
    [| apply footprint_refl].
  unfold footprint. cbn.
  split; [reflexivity |].
  split; [exists []; rewrite app_nil_r; split; [reflexivity | constructor] |].
  split; [reflexivity |]. split; [tauto |]. split; [reflexivity |]. split; [reflexivity |].
  intros other Hne. apply lookup_insert_ne. congruence.
Qed.

Lemma footprint_read_json_file (sid : Z) (keys urls : list string) (path : string) :
  preserves (footprint sid keys urls) (read_json_file path).
Proof. intros w r w' E. apply read_json_file_world in E. subst. apply footprint_refl. Qed.

Lemma on_world_refl (sid : Z) (keys urls : list string) (fr : Frame) :
  on_world (footprint sid keys urls) fr fr.
Proof. apply footprint_refl. Qed.

Lemma on_world_trans (sid : Z) (keys urls : list string) (a b c : Frame) :
  on_world (footprint sid keys urls) a b -> on_world (footprint sid keys urls) b c ->
  on_world (footprint sid keys urls) a c.
Proof. apply footprint_trans. Qed.

Lemma footprint_int_of_str (sid : Z) (keys urls : list string) (s : string) :
  preserves (on_world (footprint sid keys urls)) (@int_of_str rt Frame s).
Proof.
  intros fr r fr'. unfold int_of_str. destruct (py_int s); intros [= _ <-]; apply on_world_refl.
Qed.

Lemma footprint_count_repo (sid : Z) (keys urls : list string) :
  preserves (on_world (footprint sid keys urls)) (count_repo sid).
Proof.
  unfold count_repo.
  apply preserves_bind; [apply on_world_trans | |].
  { intros fr r fr' [= _ <-]. unfold on_world. cbn. apply footprint_refl. }
  intros pc. apply preserves_bind; [apply on_world_trans | |].
  { apply preserves_lift, footprint_progress_update. }
  intros _. apply preserves_lift, footprint_update_analysis_session.
Qed.

Lemma footprint_monitor_rate_limit (sid : Z) (keys urls : list string) :
  preserves (on_world (footprint sid keys urls)) (monitor_rate_limit github_client).
Proof.
  unfold monitor_rate_limit.
  apply preserves_try_except; [apply on_world_trans | |].
  - apply preserves_bind; [apply on_world_trans | |].
    { apply preserves_lift, footprint_get_rate_limit_info. }
    intros info. apply preserves_bind; [apply on_world_trans | apply footprint_int_of_str |].
    intros _. apply preserves_ret, on_world_refl.
  - intros _. apply preserves_ret, on_world_refl.
Qed.

Lemma footprint_adaptive_delay (sid : Z) (keys urls : list string) (pc : Z) :
  preserves (on_world (footprint sid keys urls)) (adaptive_delay github_client pc).
Proof.
  unfold adaptive_delay. destruct (Z.eqb (pc mod 5) 0).
  - apply preserves_try_except; [apply on_world_trans | |].
    + apply preserves_bind; [apply on_world_trans | |].
      { apply preserves_lift, footprint_get_rate_limit_info. }
      intros info. apply preserves_bind; [apply on_world_trans | apply footprint_int_of_str |].
      intros n. destruct (Z.leb n 20); apply preserves_lift, footprint_time_sleep.
    + intros _. apply preserves_lift, footprint_time_sleep.
  - apply preserves_lift, footprint_time_sleep.
Qed.

(** One turn of the loop stays within the footprint of its repository. *)
Lemma footprint_process_repo (sid : Z) (keys urls : list string) (repo : Repo) :
  In (full_name repo) keys -> In (sbom_url_of repo) urls ->
  preserves (on_world (footprint sid keys urls)) (process_repo github_client sid repo).
Proof.
  intros Hkey Hurl. unfold process_repo.
  apply preserves_try_except; [apply on_world_trans | |].
  - unfold try_repo. cbv zeta.
    apply preserves_bind; [apply on_world_trans | |].
    { apply preserves_lift, footprint_progress_update. }
    intros _. apply preserves_bind; [apply on_world_trans | |].
    { apply preserves_lift, footprint_fetch_sbom, Hurl. }
    intros sbom_file. apply preserves_bind; [apply on_world_trans | |].
    { destruct (truthy sbom_file); [| apply footprint_count_repo].
      apply preserves_bind; [apply on_world_trans | |].
      { apply preserves_lift, footprint_read_json_file. }
      intros j. apply preserves_bind; [apply on_world_trans | |].
      { apply preserves_lift, footprint_store_sbom, Hkey. }
      intros _. apply footprint_count_repo. }
    intros _. apply preserves_bind; [apply on_world_trans | |].
    { apply preserves_gets, on_world_refl. }
    intros pc. apply preserves_bind; [apply on_world_trans | |].
    { destruct (Z.eqb (pc mod 20) 0);
        [apply footprint_monitor_rate_limit | apply preserves_ret, on_world_refl]. }
    intros _. apply footprint_adaptive_delay.
  - intros e. unfold except_repo. cbv zeta.
    apply preserves_bind; [apply on_world_trans | |].
    { apply preserves_lift, footprint_progress_update. }
    intros _. apply footprint_count_repo.
Qed.

(** The thread stays within the footprint of its repositories. *)
Lemma footprint_analyze_organization (org : string) (repos : list Repo) (sid : Z) :
  preserves (footprint sid (map full_name repos) (map sbom_url_of repos))
            (analyze_organization github_client org repos sid).
Proof.
  set (keys := map full_name repos). set (urls := map sbom_url_of repos).
  assert (Hf : preserves (on_world (footprint sid keys urls))
                 (analyze_organization_frame github_client org repos sid)).
  { unfold analyze_organization_frame.
    apply preserves_bind; [apply on_world_trans | |].
    { apply preserves_lift. intros w r w' [= _ <-]. unfold footprint. cbn.
      split; [reflexivity |].
      split; [exists []; rewrite app_nil_r; split; [reflexivity | constructor] |].
      split; [reflexivity |]. split; [tauto |]. split; [reflexivity |].
      split; [reflexivity |].
      intros other Hne. apply lookup_insert_ne. congruence. }
    intros _. apply preserves_bind; [apply on_world_trans | |].
    { apply preserves_for_each; [apply on_world_refl | apply on_world_trans |].
      intros repo Hin. apply footprint_process_repo; [apply in_map, Hin | apply in_map, Hin]. }
    intros _. apply preserves_bind; [apply on_world_trans | |].
    { apply preserves_lift, footprint_progress_update. }
    intros _. apply preserves_bind; [apply on_world_trans | |].
    { apply preserves_gets, on_world_refl. }
    intros pc. apply preserves_lift, footprint_update_analysis_session. }
  intros w r w'. unfold analyze_organization.
  destruct (analyze_organization_frame github_client org repos sid
              {| world := w; processed_count := 0 |}) as [r0 fr] eqn:E.
  intros [= _ <-]. apply Hf in E. exact E.
Qed.

End FootprintFacts.

(** ** The footprint of the thread and of the request handler *)

Section ScanFootprint.
Context {rt : Runtime}.
Variable github_client : GitHubClient.Client.
Import GitHubClient DatabaseManager Observe History Effects ScanState Footprint App.

Lemma find_among_others (sid other : Z) (rows : list SessionRow) :
  other <> sid ->
  find (fun r => Z.eqb (id r) other) rows
  = find (fun r => Z.eqb (id r) other)
      (List.filter (fun r => negb (Z.eqb (id r) sid)) rows).
Proof.
  intros Hne. induction rows as [| r rows IH]; simpl; [reflexivity |].
  destruct (Z.eqb (id r) sid) eqn:E; simpl.
  - apply Z.eqb_eq in E.
    destruct (Z.eqb (id r) other) eqn:E'; [apply Z.eqb_eq in E'; congruence | exact IH].
  - destruct (Z.eqb (id r) other); [reflexivity | exact IH].
Qed.

Lemma has_sbom_stored_under (k : string) (d : Database) :
  has_sbom k d = true <-> stored_under k d <> [].
Proof.
  unfold has_sbom, stored_under, get_all_sboms. rewrite filter_map_comm. cbn [fst].
  induction (sbom d) as [| r rows IH]; simpl; [split; [discriminate | tauto] |].
  destruct (String.eqb (source_repo r) k); simpl; [split; [discriminate | reflexivity] |].
  exact IH.
Qed.

(** X11. Whatever the forge answers, and whether the thread ends or
    raises, [analyze_organization] for one session leaves the rows of all
    other sessions and their progress entries as they were, and neither
    adds nor removes a row of table [analysis_sessions]. *)
Theorem scan_leaves_other_sessions (org : string) (repos : list Repo) (sid : Z) (w : World) :
  let w' := snd (analyze_organization github_client org repos sid w) in
  (forall other, other <> sid ->
     get_session other (db w') = get_session other (db w)
     /\ analysis_progress w' !! other = analysis_progress w !! other)
  /\ map id (analysis_sessions (db w')) = map id (analysis_sessions (db w))
  /\ List.filter (fun r => negb (Z.eqb (id r) sid)) (analysis_sessions (db w'))
     = List.filter (fun r => negb (Z.eqb (id r) sid)) (analysis_sessions (db w)).
Proof.
  cbv zeta.
  destruct (analyze_organization github_client org repos sid w) as [r w'] eqn:E.
  apply footprint_analyze_organization in E as (_ & _ & _ & _ & F5 & F6 & F7). cbn [snd].
  split; [| split; assumption].
  intros other Hne. split; [| apply F7, Hne].
  unfold get_session. rewrite (find_among_others sid other _ Hne), F5.
  symmetry. apply find_among_others, Hne.
Qed.

(** X12. Whatever the forge answers, [analyze_organization] changes the
    stored documents only under the names [owner/name] of the repositories
    it was given: the documents under every other name are as before, no
    name loses its document, and a name that has a document afterwards had
    one before or is the name of a listed repository. *)
Theorem scan_stores_only_listed (org : string) (repos : list Repo) (sid : Z) (w : World) :
  let w' := snd (analyze_organization github_client org repos sid w) in
  (forall k, ~ In k (map full_name repos) -> stored_under k (db w') = stored_under k (db w))
  /\ (forall k, has_sbom k (db w) = true -> has_sbom k (db w') = true)
  /\ (forall k, has_sbom k (db w') = true ->
                has_sbom k (db w) = true \/ In k (map full_name repos)).
Proof.
  cbv zeta.
  destruct (analyze_organization github_client org repos sid w) as [r w'] eqn:E.
  apply footprint_analyze_organization in E as (_ & _ & F3 & F4 & _). cbn [snd].
  split; [exact F3 |]. split; [exact F4 |].
  intros k Hk. destruct (in_dec string_dec k (map full_name repos)) as [Hin | Hn];
    [right; exact Hin | left].
  apply has_sbom_stored_under. rewrite <- (F3 k Hn). apply has_sbom_stored_under, Hk.
Qed.

(** X13. Whatever the forge answers, every request that
    [analyze_organization] sends goes to the document URL of a repository
    it was given or to the rate-limit URL. *)
Theorem scan_requests_only_listed (org : string) (repos : list Repo) (sid : Z) (w : World) :
  let w' := snd (analyze_organization github_client org repos sid w) in
  exists sent,
    requests_sent w' = (requests_sent w ++ sent)%list
    /\ Forall (fun u => In u (map sbom_url_of repos) \/ u = rate_limit_url) sent.
Proof.
  cbv zeta.
  destruct (analyze_organization github_client org repos sid w) as [r w'] eqn:E.
  apply footprint_analyze_organization in E as (_ & F2 & _). exact F2.
Qed.

(** X14. The handler of [/analyze] writes to the database only when it
    starts a scan, and then it adds one row, under a new id, with the
    organization, the number of public repositories, zero processed
    repositories and status ['pending'].  When it only flashes a message
    the category is ['error'] and the database is as before; with an empty
    organization name it sends no request at all.  In every case it sends at
    most four requests, all for the listing of the organization, and leaves
    the stored documents and the progress map as they are. *)
Theorem analyze_writes_only_on_start (org : string) (w : World) :
  let out := fst (analyze github_client org w) in
  let w1 := snd (analyze github_client org w) in
  sbom (db w1) = sbom (db w)
  /\ analysis_progress w1 = analysis_progress w
  /\ (exists k, (k <= 4)%nat
                /\ requests_sent w1
                   = (requests_sent w
                      ++ repeat (base_url ++ "/orgs/" ++ org ++ "/repos")%string k)%list)
  /\ match out with
     | Flashed category message =>
         category = "error" /\ db w1 = db w /\ (org = "" -> w1 = w)
     | Started sid repos =>
         repos <> []
         /\ get_session sid (db w) = None
         /\ exists ts,
              analysis_sessions (db w1)
              = (analysis_sessions (db w)
                 ++ [ {| id := sid; org_name := org;
                         total_repos := Z.of_nat (length repos); processed_repos := 0;
                         status := "pending"; created_at := ts; completed_at := None |} ])%list
     end.
Proof.
  cbv zeta. unfold analyze. destruct org as [| a org'].
  { cbn [fst snd]. split; [reflexivity |]. split; [reflexivity |].
    split; [exists 0%nat; split; [lia | cbn; rewrite app_nil_r; reflexivity] |].
    repeat split; reflexivity. }
  set (org := String a org').
  unfold get_public_repositories, bind.
  pose proof (get_repositories_world github_client org w) as Hw.
  pose proof (make_request_frame github_client (base_url ++ "/orgs/" ++ org ++ "/repos") 0 w)
    as [(S1 & S2 & _) _].
  pose proof (make_request_trace github_client (base_url ++ "/orgs/" ++ org ++ "/repos") 0 w)
    as (k & sl & T1 & _ & T3 & _).
  cbv zeta in S1, S2, T1. rewrite <- Hw in S1, S2, T1.
  destruct (get_repositories github_client org w) as [[listing | e] w0]; cbn [snd] in *.
  2: { cbn [fst snd]. split; [rewrite S1; reflexivity |]. split; [exact S2 |].
       split; [exists k; split; [lia | exact T1] |].
       split; [reflexivity |]. split; [exact S1 | discriminate]. }
  unfold of_result.
  assert (Hflash :
             sbom (db w0) = sbom (db w)
             /\ analysis_progress w0 = analysis_progress w
             /\ (exists k, (k <= 4)%nat
                           /\ requests_sent w0
                              = (requests_sent w
                                 ++ repeat (base_url ++ "/orgs/" ++ org ++ "/repos")%string k)%list)
             /\ "error" = "error" /\ db w0 = db w /\ (org = "" -> w0 = w)).
  { split; [rewrite S1; reflexivity |]. split; [exact S2 |].
    split; [exists k; split; [lia | exact T1] |].
    split; [reflexivity |]. split; [exact S1 | discriminate]. }
  destruct (py_iter listing) as [l | e]; [| exact Hflash].
  destruct (public_entries l) as [entries | e]; [| exact Hflash].
  destruct (Z.eqb (Z.of_nat (length entries)) 0) eqn:E0; [exact Hflash |].
  destruct (rmap decode_repo entries) as [repos | e] eqn:Ed; [| exact Hflash].
  pose proof (rmap_length _ _ _ Ed) as Hlen.
  unfold App.create_analysis_session, DatabaseManager.create_analysis_session.
  cbn [fst snd db with_db with_session_trace sbom analysis_sessions analysis_progress
       requests_sent].
  split; [rewrite S1; reflexivity |]. split; [exact S2 |].
  split; [exists k; split; [lia | exact T1] |].
  split.
  { intros Hnil. rewrite Hnil in Hlen. cbn in Hlen. rewrite <- Hlen in E0. discriminate. }
  split.
  { unfold get_session. rewrite S1. apply find_none_above.
    intros x Hx. apply next_rowid_fresh, Hx. }
  exists (current_timestamp w0). rewrite S1, Hlen. reflexivity.
Qed.

End ScanFootprint.

(** ** From the forge to the store *)

Section ServedDocuments.
Context {rt : Runtime}.
Variable github_client : GitHubClient.Client.
Import GitHubClient Observe History Effects ScanState Footprint Served Loop App.

Lemma append_assoc (a b c : string) : (a ++ b) ++ c = a ++ (b ++ c).
Proof.
  induction a as [| x a IH]; [rewrite !append_empty; reflexivity |].
  rewrite !append_String, IH. reflexivity.
Qed.

(** The document URL is a function of the name [owner/name]. *)
Lemma sbom_url_of_full_name (repo : Repo) :
  sbom_url_of repo = base_url ++ "/repos/" ++ (full_name repo ++ "/dependency-graph/sbom").
Proof.
  unfold sbom_url_of, full_name. rewrite !append_assoc. reflexivity.
Qed.

Lemma check_rate_limit_remaining_readable (c : Client) (r : Response) (w : World) :
  quota_header_readable r -> exists b, _check_rate_limit_remaining c r w = (Ok b, w).
Proof.
  unfold quota_header_readable, _check_rate_limit_remaining.
  destruct (headers r !! "X-RateLimit-Remaining") as [[| a s] |]; simpl;
    try (intros _; eexists; reflexivity).
  intros [H | (n & Hn)]; [discriminate |].
  unfold bind, int_of_str. rewrite Hn. simpl. eexists. reflexivity.
Qed.

(** [fetch_sbom] on a repository whose document the forge serves: what
    [open] does with the file decides. *)
Lemma fetch_sbom_served (c : Client) (repo : Repo) (r : Response) (j : Json) (w : World) :
  (forall k, forge w (sbom_url_of repo) k = Responded r) -> serves r j ->
  let file := sbom_filename (owner_login repo) (name repo) in
  exists w',
    fetch_sbom c (owner_login repo) (name repo) w
    = (match py_open_error (sboms_dir w) file with
       | None => Ok (Some file)
       | Some e => Raised e
       end, w')
    /\ (py_open_error (sboms_dir w) file = None -> sboms_dir w' !! file = Some j)
    /\ db w' = db w /\ analysis_progress w' = analysis_progress w /\ forge w' = forge w.
Proof.
  intros Hforge (H200 & Hj & Hq). cbv zeta.
  unfold fetch_sbom. unfold bind at 1. unfold modify at 1. cbv zeta.
  fold (sbom_url_of repo).
  set (w0 := with_fetch_trace _ w).
  unfold bind at 1. rewrite make_request_unfold.
  destruct (Z_gt_dec 0 3) as [Hgt | _]; [lia |].
  unfold requests_get. replace (forge w0) with (forge w) by reflexivity. rewrite Hforge.
  set (w1 := with_requests_sent _ w0).
  assert (Hh : _handle_rate_limit c r w1 = (Ok false, w1)).
  { unfold _handle_rate_limit. rewrite H200. reflexivity. }
  rewrite Hh.
  assert (Hok : negb (response_ok r) = false).
  { unfold response_ok. rewrite H200. reflexivity. }
  rewrite Hok, H200. cbn [Z.eqb Pos.eqb].
  destruct (check_rate_limit_remaining_readable c r w1 Hq) as (b & Hc).
  unfold bind at 1. rewrite Hc.
  unfold bind at 1. unfold response_json. rewrite Hj. unfold ret at 1.
  unfold bind, write_json_file, ret.
  change (sboms_dir w1) with (sboms_dir w).
  destruct (py_open_error (sboms_dir w) (sbom_filename (owner_login repo) (name repo))).
  - eexists. split; [reflexivity |]. split; [discriminate |]. repeat split; reflexivity.
  - eexists. split; [reflexivity |].
    split; [intros _; cbn; apply lookup_insert_eq |]. repeat split; reflexivity.
Qed.

Lemma sbom_filename_truthy (owner repo : string) :
  truthy (Some (sbom_filename owner repo)) = true.
Proof.
  rewrite sbom_filename_cases. destruct owner as [| a owner]; [reflexivity |].
  destruct a as [[] [] [] [] [] [] [] []]; rewrite ?append_String; reflexivity.
Qed.

Lemma footprint_after_store (sid : Z) (keys urls : list string) :
  preserves (on_world (footprint sid keys urls)) (after_store github_client sid).
Proof.
  unfold after_store.
  apply preserves_bind; [apply on_world_trans | apply footprint_count_repo |].
  intros _. apply preserves_bind; [apply on_world_trans | |].
  { apply preserves_gets, on_world_refl. }
  intros pc. apply preserves_bind; [apply on_world_trans | |].
  { destruct (Z.eqb (pc mod 20) 0);
      [apply footprint_monitor_rate_limit | apply preserves_ret, on_world_refl]. }
  intros _. apply footprint_adaptive_delay.
Qed.

Lemma footprint_turn_end (sid : Z) (keys urls : list string) (repo : Repo) :
  preserves (on_world (footprint sid keys urls))
            (try_except (after_store github_client sid) (except_repo sid repo)).
Proof.
  apply preserves_try_except; [apply on_world_trans | apply footprint_after_store |].
  intros e. unfold except_repo. cbv zeta.
  apply preserves_bind; [apply on_world_trans | |].
  { apply preserves_lift, footprint_progress_update. }
  intros _. apply footprint_count_repo.
Qed.

Lemma footprint_except_repo (sid : Z) (keys urls : list string) (repo : Repo) (e : PyExn) :
  preserves (on_world (footprint sid keys urls)) (except_repo sid repo e).
Proof.
  unfold except_repo. cbv zeta.
  apply preserves_bind; [apply on_world_trans | |].
  { apply preserves_lift, footprint_progress_update. }
  intros _. apply footprint_count_repo.
Qed.

(** The turn of the loop for a repository whose document the forge serves:
    when [open] accepts the file, the turn ends with that document in the
    store; when it refuses, the turn leaves the stored documents as they
    are. *)
Lemma turn_stores_served (sid : Z) (repo : Repo) (r : Response) (j : Json)
  (fr : Frame) (p : Progress) :
  analysis_progress (world fr) !! sid = Some p ->
  (forall k, forge (world fr) (sbom_url_of repo) k = Responded r) -> serves r j ->
  let db' := db (world (snd (process_repo github_client sid repo fr))) in
  match py_open_error (sboms_dir (world fr))
          (sbom_filename (owner_login repo) (name repo)) with
  | None => stored_under (full_name repo) db' = [(full_name repo, j)]
  | Some _ => forall k, stored_under k db' = stored_under k (db (world fr))
  end.
Proof.
  intros Hp Hforge Hserves. cbv zeta.
  set (w1 := with_analysis_progress
               (<[sid := set_current_repo (owner_login repo ++ "/" ++ name repo) p]>
                  (analysis_progress (world fr))) (world fr)).
  destruct (fetch_sbom_served github_client repo r j w1 Hforge Hserves)
    as (w2 & Hfetch & Hfile & Hdb & _).
  change (sboms_dir w1) with (sboms_dir (world fr)) in Hfetch, Hfile.
  destruct (py_open_error (sboms_dir (world fr))
              (sbom_filename (owner_login repo) (name repo))) as [e |].
  - (* [open] refuses: the except block *)
    assert (Hrun : process_repo github_client sid repo fr
                   = except_repo sid repo e
                       {| world := w2; processed_count := processed_count fr |}).
    { unfold process_repo, try_except, try_repo. cbv zeta.
      unfold bind at 1. unfold lift at 1, progress_update at 1. rewrite Hp. fold w1.
      cbn [world processed_count].
      unfold bind at 1. unfold lift at 1. cbn [world processed_count]. rewrite Hfetch.
      reflexivity. }
    rewrite Hrun. intros k.
    destruct (except_repo sid repo e {| world := w2; processed_count := processed_count fr |})
      as [res fr'] eqn:E.
    apply (footprint_except_repo sid [] []) in E as (_ & _ & F3 & _).
    cbn [snd world] in *. rewrite (F3 k) by (simpl; tauto). rewrite Hdb. reflexivity.
  - (* the document is written, read back and stored *)
    specialize (Hfile eq_refl).
    set (w3 := snd (store_sbom (owner_login repo ++ "/" ++ name repo) j w2)).
    assert (Hrun : process_repo github_client sid repo fr
                   = try_except (after_store github_client sid) (except_repo sid repo)
                       {| world := w3; processed_count := processed_count fr |}).
    { unfold process_repo, try_except, try_repo, after_store. cbv zeta.
      unfold bind at 1. unfold lift at 1, progress_update at 1. rewrite Hp. fold w1.
      cbn [world processed_count].
      unfold bind at 1. unfold lift at 1. cbn [world processed_count]. rewrite Hfetch.
      rewrite sbom_filename_truthy.
      unfold bind at 1. unfold bind at 1. unfold lift at 1, read_json_file at 1.
      cbn [world processed_count]. simpl (default _ _). rewrite Hfile.
      unfold bind at 1. unfold lift at 1. cbn [world processed_count].
      unfold store_sbom at 1.
      destruct (DatabaseManager.store_sbom (owner_login repo ++ "/" ++ name repo) j
                  (current_timestamp w2) (db w2)) as [b d] eqn:Es.
      assert (Hw3 : w3 = with_db d w2).
      { unfold w3, store_sbom. rewrite Es. reflexivity. }
      rewrite <- Hw3. unfold bind. reflexivity. }
    rewrite Hrun.
    destruct (try_except (after_store github_client sid) (except_repo sid repo)
                {| world := w3; processed_count := processed_count fr |}) as [res fr'] eqn:E.
    apply (footprint_turn_end sid [] []) in E as (_ & _ & F3 & _).
    cbn [snd world] in *. rewrite (F3 (full_name repo)) by (simpl; tauto).
    unfold w3, store_sbom.
    destruct (DatabaseManager.store_sbom (owner_login repo ++ "/" ++ name repo) j
                (current_timestamp w2) (db w2)) as [b d] eqn:Es.
    cbn [snd db with_db].
    replace d with (snd (DatabaseManager.store_sbom (full_name repo) j
                           (current_timestamp w2) (db w2)))
      by (unfold full_name; rewrite Es; reflexivity).
    apply stored_under_store.
Qed.

(** The loop: once the repository has had its turn, or if the document was
    there before, the store holds the document. *)
Lemma loop_stores_served (sid : Z) (repo : Repo) (r : Response) (j : Json)
  (repos : list Repo) :
  serves r j ->
  (forall files, py_open_error files (sbom_filename (owner_login repo) (name repo)) = None) ->
  forall (fr : Frame) (p : Progress),
    analysis_progress (world fr) !! sid = Some p ->
    (forall k, forge (world fr) (sbom_url_of repo) k = Responded r) ->
    stored_under (full_name repo) (db (world fr)) = [(full_name repo, j)]
    \/ In repo repos ->
    exists fr' p',
      for_each repos (process_repo github_client sid) fr = (Ok tt, fr')
      /\ analysis_progress (world fr') !! sid = Some p'
      /\ stored_under (full_name repo) (db (world fr')) = [(full_name repo, j)].
Proof.
  intros Hserves Hopen. induction repos as [| x repos IH]; intros fr p Hp Hforge Hq.
  - destruct Hq as [Hq | []]. exists fr, p. cbn. tauto.
  - destruct (process_repo_step github_client sid x fr p Hp)
      as (fr1 & errs & Hrun & _ & _ & _ & _ & Hprog & _).
    pose proof (footprint_process_repo github_client sid [full_name x] [sbom_url_of x] x
                  (or_introl eq_refl) (or_introl eq_refl) fr _ fr1 Hrun)
      as (F1 & _ & F3 & _).
    assert (Hp1 : exists p1, analysis_progress (world fr1) !! sid = Some p1)
      by (rewrite Hprog, lookup_insert_eq; eexists; reflexivity).
    destruct Hp1 as (p1 & Hp1).
    assert (Hforge1 : forall k, forge (world fr1) (sbom_url_of repo) k = Responded r)
      by (intros k; rewrite F1; apply Hforge).
    assert (Hq1 : stored_under (full_name repo) (db (world fr1)) = [(full_name repo, j)]
                  \/ In repo repos).
    { destruct (string_dec (full_name x) (full_name repo)) as [E | Hne].
      - assert (Hforge' : forall k, forge (world fr) (sbom_url_of x) k = Responded r).
        { intros k. rewrite sbom_url_of_full_name, E, <- sbom_url_of_full_name. apply Hforge. }
        pose proof (turn_stores_served sid x r j fr p Hp Hforge' Hserves) as H.
        cbv zeta in H. rewrite Hrun in H. cbn [snd] in H.
        destruct (py_open_error (sboms_dir (world fr))
                    (sbom_filename (owner_login x) (name x))) as [e |] eqn:Eo.
        + destruct Hq as [Hq | [-> | Hin]].
          * left. rewrite H. exact Hq.
          * rewrite Hopen in Eo. discriminate.
          * right. exact Hin.
        + left. rewrite <- E. exact H.
      - destruct Hq as [Hq | [-> | Hin]].
        + left. rewrite F3; [exact Hq |]. intros [H | []]. congruence.
        + contradiction.
        + right. exact Hin. }
    destruct (IH fr1 p1 Hp1 Hforge1 Hq1) as (fr' & p' & Hrun' & Hp' & Hq').
    exists fr', p'. cbn [for_each]. unfold bind. rewrite Hrun. tauto.
Qed.

(** X15. If the forge answers every request for the document of a
    repository with status 200 and the JSON document [j] (and a quota header
    that can be read), and [open] accepts the file of that document, then
    after [analyze_organization] has run on a list that contains the
    repository, the store holds exactly one document under [owner/name],
    and it is [j]. *)
Theorem served_document_is_stored
  (org : string) (repos : list Repo) (sid : Z) (w : World)
  (repo : Repo) (r : Response) (j : Json) :
  In repo repos ->
  (forall k, forge w (sbom_url_of repo) k = Responded r) ->
  serves r j ->
  (forall files, py_open_error files (sbom_filename (owner_login repo) (name repo)) = None) ->
  let w' := snd (analyze_organization github_client org repos sid w) in
  stored_under (full_name repo) (db w') = [(full_name repo, j)].
Proof.
  intros Hin Hforge Hserves Hopen. cbv zeta.
  unfold analyze_organization, analyze_organization_frame.
  unfold bind at 1. unfold lift at 1, modify at 1. cbn [world processed_count].
  set (frA := {| world := with_analysis_progress _ w; processed_count := 0 |}).
  assert (HpA : analysis_progress (world frA) !! sid
                = Some {| p_status := "processing"; p_processed := 0;
                          p_total := Z.of_nat (length repos);
                          p_current_repo := ""; p_errors := [] |})
    by (unfold frA; cbn; apply lookup_insert_eq).
  destruct (loop_stores_served sid repo r j repos Hserves Hopen frA _ HpA)
    as (frB & pB & Hloop & HpB & HqB).
  { intros k. unfold frA. cbn. apply Hforge. }
  { right. exact Hin. }
  unfold bind at 1. rewrite Hloop.
  unfold bind at 1. unfold lift at 1, progress_update at 1. rewrite HpB.
  cbn [world processed_count].
  unfold bind, gets, lift, update_analysis_session, modify. cbn. exact HqB.
Qed.

End ServedDocuments.

(** ** The HTML report *)

Section ReportFacts.
Context {rt : Runtime} {fm : Formatting}.
Import DatabaseManager SBOMProcessor PyFormat Report.

Lemma scan_app (kwargs : list (string * Z)) (st : Scan) (a b : string) :
  scan kwargs st (a ++ b) = scan kwargs (scan kwargs st a) b.
Proof.
  revert st. induction a as [| c a IH]; intros st.
  - rewrite append_empty. reflexivity.
  - rewrite append_String. simpl. apply IH.
Qed.

(** Once the scan has stopped, the rest of the format string is not read. *)
Lemma scan_stop (kwargs : list (string * Z)) (e : PyExn) (s : string) :
  scan kwargs (Stop e) s = Stop e.
Proof. induction s as [| c s IH]; simpl; [reflexivity | exact IH]. Qed.

Lemma str_format_stops (kwargs : list (string * Z)) (e : PyExn) (a b : string) :
  scan kwargs (Lit EmptyString) a = Stop e -> str_format kwargs (a ++ b) = Raised e.
Proof.
  intros H. unfold str_format. rewrite scan_app, H, scan_stop. reflexivity.
Qed.

(** The first replacement field of the page is the body of the CSS rule
    for [body]; the call passes no argument of that name. *)
Lemma html_head_stops (a b c : Z) :
  scan [("sbom_count", a); ("unique_deps", b); ("total_occurrences", c)]
       (Lit EmptyString) html_head
  = Stop (KeyError (py_repr_str " font-family")).
Proof. vm_compute. reflexivity. Qed.

Lemma fold_left_appends {A} (f : A -> string) (l : list A) (a : string) :
  exists rest, fold_left (fun html x => html ++ f x) l a = a ++ rest.
Proof.
  revert a. induction l as [| x l IH]; intros a; simpl.
  - exists EmptyString. clear. induction a as [| c a IH]; [reflexivity |].
    rewrite append_String, <- IH. reflexivity.
  - destruct (IH (a ++ f x)) as (rest & ->). exists (f x ++ rest).
    apply append_assoc.
Qed.

Lemma html_content_head (results : list (list SqlVal)) (columns : list string) :
  exists rest, html_content results columns = html_head ++ rest.
Proof.
  unfold html_content. cbv zeta.
  destruct (fold_left_appends (fun column => "<th>" ++ column ++ "</th>") columns html_head)
    as (r1 & ->).
  assert (Hrows : forall (rows : list (list SqlVal)) (a : string),
             exists rest,
               fold_left (fun html row =>
                            fold_left (fun html cell => html ++ "<td>" ++ cell_text cell ++ "</td>")
                                      row (html ++ "<tr>") ++ "</tr>") rows a
               = a ++ rest).
  { induction rows as [| row rows IH]; intros a; simpl.
    - exists EmptyString. clear. induction a as [| c a IH]; [reflexivity |].
      rewrite append_String, <- IH. reflexivity.
    - destruct (fold_left_appends (fun cell => "<td>" ++ cell_text cell ++ "</td>") row
                  (a ++ "<tr>")) as (r & ->).
      destruct (IH (((a ++ "<tr>") ++ r) ++ "</tr>")) as (rest & ->).
      eexists. rewrite !append_assoc. reflexivity. }
  destruct (Hrows results ((html_head ++ r1) ++ "</tr>")) as (r2 & ->).
  eexists. rewrite !append_assoc. reflexivity.
Qed.

Lemma html_content_raises (results : list (list SqlVal)) (columns : list string) (a b c : Z) :
  str_format [("sbom_count", a); ("unique_deps", b); ("total_occurrences", c)]
             (html_content results columns)
  = Raised (KeyError (py_repr_str " font-family")).
Proof.
  destruct (html_content_head results columns) as (rest & ->).
  apply str_format_stops, html_head_stops.
Qed.

Lemma generate_html_report_run (results : list (list SqlVal)) (columns : list string)
  (output_file : string) (d : Database) (files : gmap string string) :
  generate_html_report results columns output_file d files
  = (match get_dependency_stats d with
     | Ok _ => Raised (KeyError (py_repr_str " font-family"))
     | Raised e => Raised e
     end, files).
Proof.
  unfold generate_html_report. cbv zeta. unfold bind at 1. unfold of_result at 1.
  destruct (get_dependency_stats d) as [stats | e]; [| reflexivity].
  unfold bind at 1. unfold of_result. rewrite html_content_raises. reflexivity.
Qed.

(** X16. [generate_html_report] never returns and never writes the
    report: whatever the results, the columns, the file name and the store,
    it raises.  When the statistics can be computed the exception is the
    [KeyError] of [str.format] for the name [ font-family], the text between
    the first braces of the style sheet in the page template; otherwise it
    is the exception of [get_dependency_stats]. *)
Theorem generate_html_report_always_raises
  (results : list (list SqlVal)) (columns : list string) (output_file : string)
  (d : Database) (files : gmap string string) :
  exists e,
    generate_html_report results columns output_file d files = (Raised e, files)
    /\ e = match get_dependency_stats d with
           | Ok _ => KeyError (py_repr_str " font-family")
           | Raised e' => e'
           end.
Proof.
  rewrite generate_html_report_run.
  destruct (get_dependency_stats d) as [stats | e]; eexists; split; reflexivity.
Qed.

(** X17. The route [/export/html] never reports success and never writes
    a file: for every store it flashes a message of category ['error'].
    When the ranking and the statistics can be computed, the message is
    ["Error generating HTML report: "] followed by the text of the
    [KeyError] for [ font-family]. *)
Theorem export_html_never_succeeds (d : Database) (files : gmap string string) :
  exists message,
    export_html d files = (Ok ("error", message), files)
    /\ message
       = "Error generating HTML report: "
         ++ match get_top_dependencies 100 d, get_dependency_stats d with
            | Ok _, Ok _ => py_repr_str " font-family"
            | Ok _, Raised e => exn_str e
            | Raised e, _ => exn_str e
            end.
Proof.
  unfold export_html, try_except. unfold bind at 1. unfold of_result at 1.
  destruct (get_top_dependencies 100 d) as [top | e].
  - cbv zeta. unfold bind at 1. rewrite generate_html_report_run.
    destruct (get_dependency_stats d) as [stats | e]; eexists; split; reflexivity.
  - eexists. split; reflexivity.
Qed.

End ReportFacts.

(** ** The pages *)

Section PageFacts.
Context {rt : Runtime}.
Variable github_client : GitHubClient.Client.
Import GitHubClient DatabaseManager SBOMProcessor StoreQueries Effects ScanState Footprint Loop
       App Pages.

(** X18. The page [index] leaves the database, the progress map and the
    files as they are.  It raises only when documents are stored and
    [get_dependency_stats] raises, and then it has sent no request.
    Otherwise it shows the document count, the five newest sessions (or
    fewer) and, when documents are stored, the statistics; it has sent
    between one and four requests for the rate limit followed by between
    one and four requests for the repositories of the organization
    [microsoft]; it shows what [get_rate_limit_info] returned, or ['Unknown']
    when that raised; and the API status it shows is ['Connected'] when
    [get_repositories] returned and ['Error: '] with the text of the
    exception when it raised: it is ['Connected'] exactly when the listing
    request was answered with status 200 and a JSON body, whatever that
    body is. *)
Theorem index_reads_and_polls (w : World) :
  let res := fst (index github_client w) in
  let w' := snd (index github_client w) in
  db w' = db w /\ analysis_progress w' = analysis_progress w /\ sboms_dir w' = sboms_dir w
  /\ match res with
     | Raised e =>
         w' = w /\ 0 < get_sbom_count (db w) /\ get_dependency_stats (db w) = Raised e
     | Ok page =>
         page_sbom_count page = get_sbom_count (db w)
         /\ page_recent_sessions page = get_analysis_sessions 5 (db w)
         /\ (length (page_recent_sessions page) <= 5)%nat
         /\ page_dependency_stats page
            = (if Z.ltb 0 (get_sbom_count (db w))
               then match get_dependency_stats (db w) with
                    | Ok stats => Some stats
                    | Raised _ => None
                    end
               else None)
         /\ (exists k1 k2,
                (1 <= k1 <= 4)%nat /\ (1 <= k2 <= 4)%nat
                /\ requests_sent w'
                   = (requests_sent w ++ repeat rate_limit_url k1
                      ++ repeat (base_url ++ "/orgs/microsoft/repos")%string k2)%list)
         /\ page_rate_limit_info page
            = match fst (get_rate_limit_info github_client w) with
              | Ok info => info
              | Raised _ => unknown_rate_limit
              end
         /\ (let w1 := snd (get_rate_limit_info github_client w) in
             page_api_status page
             = match fst (get_repositories github_client "microsoft" w1) with
               | Ok _ => "Connected"
               | Raised e => "Error: " ++ exn_str e
               end
             /\ (page_api_status page = "Connected"
                 <-> exists r j,
                       fst (_make_request github_client
                              (base_url ++ "/orgs/microsoft/repos") 0 w1) = Ok (Some r)
                       /\ status_code r = 200 /\ json_body r = Some j))
     end.
Proof.
  cbv zeta. destruct (index github_client w) as [res w'] eqn:Hrun. cbn [fst snd].
  revert Hrun. unfold index. unfold bind at 1. unfold gets at 1.
  unfold bind at 1. unfold gets at 1. unfold bind at 1.
  set (stats_step := if Z.ltb 0 (get_sbom_count (db w)) then _ else _).
  set (shown_or_raised :=
         if Z.ltb 0 (get_sbom_count (db w))
         then match get_dependency_stats (db w) with
              | Ok stats => Ok (Some stats)
              | Raised e => Raised e
              end
         else Ok None).
  assert (Hstats : stats_step w = (shown_or_raised, w)).
  { unfold stats_step, shown_or_raised.
    destruct (Z.ltb 0 (get_sbom_count (db w))); [| reflexivity].
    unfold bind. destruct (get_dependency_stats (db w)); reflexivity. }
  rewrite Hstats. clear Hstats stats_step.
  destruct shown_or_raised as [shown | e] eqn:Eshown.
  2: { intros [= <- <-]. split; [reflexivity |]. split; [reflexivity |]. split; [reflexivity |].
       split; [reflexivity |]. unfold shown_or_raised in Eshown.
       destruct (Z.ltb 0 (get_sbom_count (db w))) eqn:Ecount; [| discriminate].
       split; [apply Z.ltb_lt, Ecount |].
       destruct (get_dependency_stats (db w)); [discriminate | congruence]. }
  unfold bind at 1. unfold try_except at 1.
  pose proof (get_rate_limit_info_world github_client w) as Hw1.
  pose proof (make_request_frame github_client (base_url ++ "/rate_limit") 0 w)
    as [(A1 & A2 & _) A3].
  pose proof (make_request_trace github_client (base_url ++ "/rate_limit") 0 w)
    as (k1 & sl1 & T1 & _ & T13 & T14 & _).
  cbv zeta in A1, A2, A3, T1. rewrite <- Hw1 in A1, A2, A3, T1. clear Hw1.
  assert (Hinfo : exists info w1,
             (match get_rate_limit_info github_client w with
              | (Ok a, s') => (Ok a, s')
              | (Raised e, s') => ret unknown_rate_limit s'
              end) = (Ok info, w1)
             /\ w1 = snd (get_rate_limit_info github_client w)
             /\ info = match fst (get_rate_limit_info github_client w) with
                       | Ok i => i
                       | Raised _ => unknown_rate_limit
                       end).
  { destruct (get_rate_limit_info github_client w) as [[info | e] w1];
      eexists _, _; repeat split; reflexivity. }
  destruct Hinfo as (info & w1 & -> & Hw1 & Hinfo).
  rewrite <- Hw1 in A1, A2, A3, T1 |- *.
  unfold bind at 1. unfold try_except at 1. unfold bind at 1.
  pose proof (get_repositories_world github_client "microsoft" w1) as Hw2.
  pose proof (make_request_frame github_client (base_url ++ "/orgs/" ++ "microsoft" ++ "/repos")
                0 w1) as [(B1 & B2 & _) B3].
  pose proof (make_request_trace github_client (base_url ++ "/orgs/" ++ "microsoft" ++ "/repos")
                0 w1) as (k2 & sl2 & T2 & _ & T23 & T24 & _).
  cbv zeta in B1, B2, B3, T2. rewrite <- Hw2 in B1, B2, B3, T2. clear Hw2.
  assert (Hconn : forall data,
             fst (get_repositories github_client "microsoft" w1) = Ok data ->
             exists r j,
               fst (_make_request github_client (base_url ++ "/orgs/microsoft/repos") 0 w1)
               = Ok (Some r)
               /\ status_code r = 200 /\ json_body r = Some j).
  { intros data H. apply get_repositories_returns in H as (r & H1 & H2 & H3).
    exists r, data. split; [exact H1 |]. tauto. }
  assert (Herr : forall e,
             fst (get_repositories github_client "microsoft" w1) = Raised e ->
             ~ exists r j,
                 fst (_make_request github_client (base_url ++ "/orgs/microsoft/repos") 0 w1)
                 = Ok (Some r)
                 /\ status_code r = 200 /\ json_body r = Some j).
  { intros e H (r & j & H1 & H2 & H3).
    assert (Hok : fst (get_repositories github_client "microsoft" w1) = Ok j)
      by (apply get_repositories_returns; exists r; split; [exact H1 | tauto]).
    rewrite H in Hok. discriminate. }
  assert (Hgoal : forall w2, w2 = snd (get_repositories github_client "microsoft" w1) ->
                  db w2 = db w /\ analysis_progress w2 = analysis_progress w
                  /\ sboms_dir w2 = sboms_dir w
                  /\ exists k1 k2,
                       (1 <= k1 <= 4)%nat /\ (1 <= k2 <= 4)%nat
                       /\ requests_sent w2
                          = (requests_sent w ++ repeat rate_limit_url k1
                             ++ repeat (base_url ++ "/orgs/microsoft/repos")%string k2)%list).
  { intros w2 ->. split; [congruence |]. split; [congruence |]. split; [congruence |].
    exists k1, k2. split; [lia |]. split; [lia |].
    rewrite T2, T1, <- app_assoc. reflexivity. }
  assert (Hlen : (length (get_analysis_sessions 5 (db w)) <= 5)%nat).
  { pose proof (sql_limit_length 5 (order_by_created_at_desc (analysis_sessions (db w)))) as H.
    unfold get_analysis_sessions. lia. }
  assert (Hshown : shown = (if Z.ltb 0 (get_sbom_count (db w))
                            then match get_dependency_stats (db w) with
                                 | Ok stats => Some stats
                                 | Raised _ => None
                                 end
                            else None)).
  { unfold shown_or_raised in Eshown.
    destruct (Z.ltb 0 (get_sbom_count (db w))); [| congruence].
    destruct (get_dependency_stats (db w)); [congruence | discriminate]. }
  clear A1 A2 A3 T1 B1 B2 B3 T2.
  destruct (get_repositories github_client "microsoft" w1) as [[data | e] w2] eqn:Eg;
    cbn [fst snd] in *; specialize (Hgoal w2 eq_refl).
  - unfold ret. intros [= <- <-]. cbn [page_sbom_count page_recent_sessions
                                       page_dependency_stats page_api_status
                                       page_rate_limit_info].
    split; [tauto |]. split; [tauto |]. split; [tauto |].
    split; [reflexivity |]. split; [reflexivity |]. split; [exact Hlen |].
    split; [exact Hshown |]. split; [tauto |]. split; [exact Hinfo |].
    split; [reflexivity |].
    split; [intros _; exact (Hconn data eq_refl) | reflexivity].
  - unfold ret. intros [= <- <-]. cbn [page_sbom_count page_recent_sessions
                                       page_dependency_stats page_api_status
                                       page_rate_limit_info].
    split; [tauto |]. split; [tauto |]. split; [tauto |].
    split; [reflexivity |]. split; [reflexivity |]. split; [exact Hlen |].
    split; [exact Hshown |]. split; [tauto |]. split; [exact Hinfo |].
    split; [reflexivity |].
    split.
    + rewrite append_String. discriminate.
    + intros H. exfalso. exact (Herr e eq_refl H).
Qed.

(** After the loop the progress entry names the last repository. *)
Lemma loop_current_repo (sid : Z) (repos : list Repo) :
  forall (fr : Frame) (p : Progress),
    analysis_progress (world fr) !! sid = Some p ->
    exists fr' p',
      for_each repos (process_repo github_client sid) fr = (Ok tt, fr')
      /\ analysis_progress (world fr') !! sid = Some p'
      /\ p_current_repo p' = List.last (map full_name repos) (p_current_repo p).
Proof.
  induction repos as [| x repos IH]; intros fr p Hp.
  - exists fr, p. cbn. tauto.
  - destruct (process_repo_step github_client sid x fr p Hp)
      as (fr1 & errs & Hrun & _ & _ & _ & _ & Hprog & _).
    assert (Hp1 : analysis_progress (world fr1) !! sid
                  = Some {| p_status := p_status p; p_processed := processed_count fr + 1;
                            p_total := p_total p; p_current_repo := full_name x;
                            p_errors := (p_errors p ++ errs)%list |})
      by (rewrite Hprog; apply lookup_insert_eq).
    destruct (IH fr1 _ Hp1) as (fr' & p' & Hrun' & Hp' & Hcur).
    exists fr', p'. cbn [for_each]. unfold bind. rewrite Hrun.
    split; [exact Hrun' |]. split; [exact Hp' |].
    rewrite Hcur. cbn [p_current_repo map].
    destruct (map full_name repos) as [| y l] eqn:E; [reflexivity |].
    cbn [List.last]. clear. revert y. induction l as [| z l IH]; intros y; [reflexivity |].
    cbn [List.last]. apply IH.
Qed.

(** X19. For a scan that the handler of [/analyze] started: before the
    thread has run, [api_progress] answers with the organization, the number
    of public repositories as total, zero processed repositories and status
    ['pending']; after the thread has run it answers with the same
    organization and total, [processed_repos] equal to the total, status
    ['completed'], at most one error per repository, and as [current_repo]
    still the name of the last repository of the list. *)
Theorem api_progress_after_scan (org : string) (w w1 : World) (sid : Z) (repos : list Repo) :
  analyze github_client org w = (Started sid repos, w1) ->
  let n := Z.of_nat (length repos) in
  let w2 := snd (analyze_organization github_client org repos sid w1) in
  (exists current errors,
      api_progress sid w1
      = Some {| report_org_name := org; report_total_repos := n;
                report_processed_repos := 0; report_status := "pending";
                report_current_repo := current; report_errors := errors |})
  /\ (exists errors,
         (length errors <= length repos)%nat
         /\ api_progress sid w2
            = Some {| report_org_name := org; report_total_repos := n;
                      report_processed_repos := n; report_status := "completed";
                      report_current_repo := List.last (map full_name repos) "";
                      report_errors := errors |}).
Proof.
  intros Ha n w2.
  destruct (analyze_started github_client org w w1 sid repos Ha)
    as (listing & w0 & created & _ & _ & _ & Hc & Ht & Hp & Hst & Ho & _).
  split.
  { unfold api_progress. rewrite Hc. eexists _, _. rewrite Ho, Ht, Hp, Hst. reflexivity. }
  destruct (analyze_organization_run github_client org repos sid w1 created Hc)
    as (w' & p & row' & snaps & Hrun & _ & Hprog & Hs & Hproc & _ & Herr & Hrow & Hrs & Hrp
        & Hrt & Hro & _).
  assert (Hcur : exists p2, analysis_progress w2 !! sid = Some p2
                            /\ p_current_repo p2 = List.last (map full_name repos) "").
  { unfold w2, analyze_organization, analyze_organization_frame.
    unfold bind at 1. unfold lift at 1, modify at 1. cbn [world processed_count].
    set (frA := {| world := with_analysis_progress _ w1; processed_count := 0 |}).
    assert (HpA : analysis_progress (world frA) !! sid
                  = Some {| p_status := "processing"; p_processed := 0;
                            p_total := Z.of_nat (length repos);
                            p_current_repo := ""; p_errors := [] |})
      by (unfold frA; cbn; apply lookup_insert_eq).
    destruct (loop_current_repo sid repos frA _ HpA) as (frB & pB & Hloop & HpB & HcB).
    unfold bind at 1. rewrite Hloop.
    unfold bind at 1. unfold lift at 1, progress_update at 1. rewrite HpB.
    cbn [world processed_count].
    unfold bind, gets, lift, update_analysis_session, modify. cbn.
    rewrite lookup_insert_eq. eexists. split; [reflexivity |]. exact HcB. }
  destruct Hcur as (p2 & Hp2 & Hcur).
  assert (Hw2 : w2 = w') by (unfold w2; rewrite Hrun; reflexivity).
  rewrite Hw2 in Hp2. rewrite Hprog in Hp2. injection Hp2 as <-.
  exists (p_errors p). split; [exact Herr |].
  rewrite Hw2. unfold api_progress. rewrite Hrow, Hprog.
  rewrite Hro, Hrt, Hrp, Hrs, Hcur, Ho, Ht. reflexivity.
Qed.

End PageFacts.

(** ** The rate limit *)

Section RateLimitFacts.
Context {rt : Runtime}.
Import GitHubClient Effects Footprint.

(** X20. [get_rate_limit_info] sends between one and four requests, all
    for the rate limit, and leaves the database, the progress map and the
    files as they are.  Without a response, and with a response whose status
    is not 200, it answers ['Unknown'] three times and ['No'] for
    [authenticated], also when a token is set.  From a response with status
    200 whose body is an object it reads the three values under
    [resources.core], each ['Unknown'] when its key or one of the two
    objects is missing, and [authenticated] says whether a token is set.  It
    raises only [ValueError] (the header X-RateLimit-Reset of a quota
    response is not a number), [JSONDecodeError] (the body is not JSON) and
    [AttributeError] (the body, [resources] or [core] is not an object). *)
Theorem get_rate_limit_info_answers (c : Client) (w : World) :
  let request := _make_request c rate_limit_url 0 w in
  let res := fst (get_rate_limit_info c w) in
  let w' := snd (get_rate_limit_info c w) in
  w' = snd request
  /\ db w' = db w /\ analysis_progress w' = analysis_progress w /\ sboms_dir w' = sboms_dir w
  /\ (exists k, (1 <= k <= 4)%nat
                /\ requests_sent w' = (requests_sent w ++ repeat rate_limit_url k)%list)
  /\ (fst request = Ok None -> res = Ok unknown_rate_limit)
  /\ (forall r, fst request = Ok (Some r) -> status_code r <> 200 ->
                res = Ok unknown_rate_limit)
  /\ (forall r data resources core,
        fst request = Ok (Some r) -> status_code r = 200 ->
        json_body r = Some (JObj data) ->
        default (JObj []) (assoc_get "resources" data) = JObj resources ->
        default (JObj []) (assoc_get "core" resources) = JObj core ->
        res = Ok {| limit := py_str (default (JStr "Unknown") (assoc_get "limit" core));
                    remaining := py_str (default (JStr "Unknown") (assoc_get "remaining" core));
                    reset := py_str (default (JStr "Unknown") (assoc_get "reset" core));
                    authenticated := if truthy (github_token c) then "Yes" else "No" |})
  /\ (forall e, res = Raised e ->
        exists m, e = ValueError m \/ e = JSONDecodeError m \/ e = AttributeError m).
Proof.
  cbv zeta. unfold rate_limit_url.
  pose proof (make_request_frame c (base_url ++ "/rate_limit") 0 w) as [(A1 & A2 & _) A3].
  pose proof (make_request_trace c (base_url ++ "/rate_limit") 0 w)
    as (k & sl & T1 & _ & T3 & T4 & _).
  pose proof (make_request_raises c (base_url ++ "/rate_limit") 0 w) as Hraise.
  cbv zeta in A1, A2, A3, T1.
  destruct (get_rate_limit_info c w) as [res w'] eqn:Hrun. cbn [fst snd].
  revert Hrun. unfold get_rate_limit_info, bind. cbv zeta.
  destruct (_make_request c (base_url ++ "/rate_limit") 0 w) as [[[r |] | e0] w1] eqn:Em;
    cbn [fst snd] in *.
  2, 3: intros [= <- <-]; split; [reflexivity |]; split; [exact A1 |]; split; [exact A2 |];
    split; [exact A3 |]; split; [exists k; split; [lia | exact T1] |].
  2: { split; [reflexivity |]. split; [discriminate |]. split; discriminate. }
  2: { split; [discriminate |]. split; [discriminate |]. split; [discriminate |].
       intros e [= <-]. destruct (Hraise e0 eq_refl) as (m & ->). exists m. tauto. }
  assert (Hframe : forall res' : Result RateLimitInfo,
             (forall r', Ok (Some r) = Ok (Some r') -> status_code r' <> 200 ->
                         res' = Ok unknown_rate_limit) ->
             (forall r' data resources core,
                 Ok (Some r) = Ok (Some r') -> status_code r' = 200 ->
                 json_body r' = Some (JObj data) ->
                 default (JObj []) (assoc_get "resources" data) = JObj resources ->
                 default (JObj []) (assoc_get "core" resources) = JObj core ->
                 res' = Ok {| limit := py_str (default (JStr "Unknown") (assoc_get "limit" core));
                              remaining :=
                                py_str (default (JStr "Unknown") (assoc_get "remaining" core));
                              reset := py_str (default (JStr "Unknown") (assoc_get "reset" core));
                              authenticated :=
                                if truthy (github_token c) then "Yes" else "No" |}) ->
             (forall e, res' = Raised e ->
                        exists m, e = ValueError m \/ e = JSONDecodeError m
                                  \/ e = AttributeError m) ->
             (res', w1) = (res, w') ->
             w' = w1
             /\ db w' = db w /\ analysis_progress w' = analysis_progress w
             /\ sboms_dir w' = sboms_dir w
             /\ (exists k, (1 <= k <= 4)%nat
                           /\ requests_sent w'
                              = (requests_sent w
                                 ++ repeat (base_url ++ "/rate_limit")%string k)%list)
             /\ (Ok (Some r) = Ok None -> res = Ok unknown_rate_limit)
             /\ (forall r', Ok (Some r) = Ok (Some r') -> status_code r' <> 200 ->
                            res = Ok unknown_rate_limit)
             /\ (forall r' data resources core,
                   Ok (Some r) = Ok (Some r') -> status_code r' = 200 ->
                   json_body r' = Some (JObj data) ->
                   default (JObj []) (assoc_get "resources" data) = JObj resources ->
                   default (JObj []) (assoc_get "core" resources) = JObj core ->
                   res = Ok {| limit :=
                                 py_str (default (JStr "Unknown") (assoc_get "limit" core));
                               remaining :=
                                 py_str (default (JStr "Unknown") (assoc_get "remaining" core));
                               reset :=
                                 py_str (default (JStr "Unknown") (assoc_get "reset" core));
                               authenticated :=
                                 if truthy (github_token c) then "Yes" else "No" |})
             /\ (forall e, res = Raised e ->
                           exists m, e = ValueError m \/ e = JSONDecodeError m
                                     \/ e = AttributeError m)).
  { intros res' H1 H2 H3 [= <- <-].
    split; [reflexivity |]. split; [exact A1 |]. split; [exact A2 |]. split; [exact A3 |].
    split; [exists k; split; [lia | exact T1] |]. split; [discriminate |].
    split; [exact H1 |]. split; [exact H2 | exact H3]. }
  destruct (response_ok r && Z.eqb (status_code r) 200)%bool eqn:E200.
  2: { apply Hframe.
       - reflexivity.
       - intros r' data resources core [= <-] H200. exfalso.
         unfold response_ok in E200. rewrite H200 in E200. discriminate.
       - discriminate. }
  apply andb_true_iff in E200 as [_ E200]. apply Z.eqb_eq in E200.
  unfold response_json.
  destruct (json_body r) as [data |] eqn:Ebody.
  2: { apply Hframe.
       - intros r' [= <-] H. contradiction.
       - intros r' data resources core [= <-] _ Hb. rewrite Ebody in Hb. discriminate.
       - intros e [= <-]. eexists. right. left. reflexivity. }
  unfold ret at 1. unfold dict_get at 1.
  destruct data as [| | | | | data];
    try (apply Hframe;
         [ intros r' [= <-] H; contradiction
         | intros r' data' resources core [= <-] _ Hb; rewrite Ebody in Hb; discriminate
         | intros e [= <-]; eexists; right; right; reflexivity ]).
  unfold ret at 1. unfold dict_get at 1.
  destruct (match assoc_get "resources" data with Some v => v | None => JObj [] end)
    as [| | | | | resources] eqn:Eres;
    try (apply Hframe;
         [ intros r' [= <-] H; contradiction
         | intros r' data' resources' core' [= <-] _ Hb Hres; exfalso;
           rewrite Ebody in Hb; injection Hb as <-;
           unfold default in Hres; simpl in Hres; rewrite Eres in Hres; discriminate
         | intros e [= <-]; eexists; right; right; reflexivity ]).
  unfold ret at 1. unfold dict_get at 1.
  destruct (match assoc_get "core" resources with Some v => v | None => JObj [] end)
    as [| | | | | core] eqn:Ecore;
    try (apply Hframe;
         [ intros r' [= <-] H; contradiction
         | intros r' data' resources' core' [= <-] _ Hb Hres Hcore; exfalso;
           rewrite Ebody in Hb; injection Hb as <-;
           unfold default in Hres, Hcore; simpl in Hres, Hcore;
           rewrite Eres in Hres; injection Hres as <-;
           rewrite Ecore in Hcore; discriminate
         | intros e [= <-]; eexists; right; right; reflexivity ]).
  unfold dict_get, ret. apply Hframe.
  - intros r' [= <-] H. contradiction.
  - intros r' data' resources' core' [= <-] _ Hb Hres Hcore.
    rewrite Ebody in Hb. injection Hb as <-.
    unfold default in *. simpl in Hres, Hcore.
    rewrite Eres in Hres. injection Hres as <-.
    rewrite Ecore in Hcore. injection Hcore as <-. reflexivity.
  - discriminate.
Qed.

End RateLimitFacts.

(** ** Counting the requests *)

Section BudgetFacts.
Context {rt : Runtime}.
Variable github_client : GitHubClient.Client.
Import GitHubClient Effects ScanState Pacing Footprint Budget App.

Lemma sends_quiet (w w' : World) :
  requests_sent w' = requests_sent w -> sends_at_most 0 w w'.
Proof. intros H. exists []. rewrite app_nil_r. split; [exact H | simpl; lia]. Qed.

Lemma sends_trans (a b : nat) (x y z : World) :
  sends_at_most a x y -> sends_at_most b y z -> sends_at_most (a + b) x z.
Proof.
  intros (s1 & E1 & L1) (s2 & E2 & L2). exists (s1 ++ s2)%list.
  split; [rewrite E2, E1, app_assoc; reflexivity | rewrite length_app; lia].
Qed.

Lemma sends_weaken (a b : nat) (x y : World) :
  (a <= b)%nat -> sends_at_most a x y -> sends_at_most b x y.
Proof. intros H (s & E & L). exists s. split; [exact E | lia]. Qed.

Lemma sends_bind {A B} (a b : nat) (m : M World A) (f : A -> M World B) :
  preserves (sends_at_most a) m -> (forall x, preserves (sends_at_most b) (f x)) ->
  preserves (sends_at_most (a + b)) (bind m f).
Proof.
  intros Hm Hf w r w'. unfold bind.
  destruct (m w) as [[x | e] w1] eqn:Em.
  - intros H. eapply sends_trans; [eapply Hm, Em | eapply Hf, H].
  - intros [= _ <-]. eapply sends_weaken; [| eapply Hm, Em]. lia.
Qed.

Lemma sends_pure {A} (m : M World A) :
  (forall w r w', m w = (r, w') -> requests_sent w' = requests_sent w) ->
  preserves (sends_at_most 0) m.
Proof. intros H w r w' E. apply sends_quiet. eapply H, E. Qed.

Lemma make_request_sends (c : Client) (url : string) :
  preserves (sends_at_most 4) (_make_request c url 0).
Proof.
  intros w r w' E.
  pose proof (make_request_trace c url 0 w) as (k & sl & T1 & _ & T3 & _).
  rewrite E in T1. cbn [snd] in T1. exists (repeat url k).
  split; [exact T1 | rewrite repeat_length; lia].
Qed.

Lemma get_rate_limit_info_sends (c : Client) :
  preserves (sends_at_most 4) (get_rate_limit_info c).
Proof.
  intros w r w' E. pose proof (get_rate_limit_info_world c w) as H.
  rewrite E in H. cbn [snd] in H. subst w'.
  destruct (_make_request c (base_url ++ "/rate_limit") 0 w) as [r0 w1] eqn:Em.
  eapply make_request_sends, Em.
Qed.

Lemma fetch_sbom_sends (c : Client) (owner repo : string) :
  preserves (sends_at_most 4) (fetch_sbom c owner repo).
Proof.
  unfold fetch_sbom.
  apply (sends_bind 0 4); [apply sends_pure; intros w r w' [= _ <-]; reflexivity |].
  intros _. cbv zeta.
  apply (sends_bind 4 0); [apply make_request_sends |].
  intros [r |]; [| apply sends_pure; intros w x w' [= _ <-]; reflexivity].
  destruct (negb (response_ok r)); [apply sends_pure; intros w x w' [= _ <-]; reflexivity |].
  destruct (Z.eqb (status_code r) 200).
  - apply (sends_bind 0 0).
    { apply sends_pure. intros w x w' E.
      apply check_rate_limit_remaining_world in E. subst. reflexivity. }
    intros _. apply (sends_bind 0 0).
    { apply sends_pure. intros w x w' E. apply response_json_world in E. subst. reflexivity. }
    intros j. apply (sends_bind 0 0).
    { apply sends_pure. intros w x w'. unfold write_json_file.
      destruct (py_open_error _ _); intros [= _ <-]; reflexivity. }
    intros _. apply sends_pure. intros w x w' [= _ <-]. reflexivity.
  - repeat match goal with |- context [if ?b then _ else _] => destruct b end;
      apply sends_pure; intros w x w' [= _ <-]; reflexivity.
Qed.

(** *** Frames *)

Lemma within_bind {A B} (a b : nat) (p q s : Z) (m : M Frame A) (f : A -> M Frame B) :
  within a p q m -> (forall x, within b q s (f x)) -> within (a + b) p s (bind m f).
Proof.
  intros Hm Hf fr r fr' Hp. unfold bind.
  destruct (m fr) as [[x | e] fr1] eqn:Em; destruct (Hm fr _ fr1 Hp Em) as [S1 Q1].
  - intros E. destruct (Hf x fr1 r fr' (Q1 x eq_refl) E) as [S2 Q2].
    split; [eapply sends_trans; eassumption | exact Q2].
  - intros [= <- <-]. split; [eapply sends_weaken; [| exact S1]; lia | discriminate].
Qed.

Lemma within_gets {B} (n : nat) (p q : Z) (f : Z -> M Frame B) :
  within n p q (f p) -> within n p q (bind (gets processed_count) f).
Proof.
  intros Hf fr r fr' Hp. unfold bind, gets. rewrite Hp. apply Hf, Hp.
Qed.

Lemma within_lift {A} (n : nat) (p : Z) (m : M World A) :
  preserves (sends_at_most n) m -> within n p p (lift m).
Proof.
  intros Hm fr r fr' Hp. unfold lift.
  destruct (m (world fr)) as [r0 w1] eqn:Em. intros [= <- <-]. cbn.
  split; [eapply Hm, Em | intros; exact Hp].
Qed.

Lemma within_ret {A} (p : Z) (a : A) : within 0 p p (@ret Frame A a).
Proof.
  intros fr r fr' Hp [= <- <-]. split; [apply sends_quiet; reflexivity | intros; exact Hp].
Qed.

Lemma within_weaken {A} (n n' : nat) (p q : Z) (m : M Frame A) :
  (n <= n')%nat -> within n p q m -> within n' p q m.
Proof.
  intros Hn Hm fr r fr' Hp E. destruct (Hm fr r fr' Hp E) as [S1 Q1].
  split; [eapply sends_weaken; eassumption | exact Q1].
Qed.

Lemma progress_update_sends (sid : Z) (f : Progress -> Progress) :
  preserves (sends_at_most 0) (progress_update sid f).
Proof.
  apply sends_pure. intros w r w'. unfold progress_update.
  destruct (analysis_progress w !! sid); intros [= _ <-]; reflexivity.
Qed.

Lemma within_count_repo (sid p : Z) : within 0 p (p + 1) (count_repo sid).
Proof.
  unfold count_repo.
  apply (within_bind 0 0 p (p + 1) (p + 1)).
  { intros fr r fr' Hp [= <- <-]. cbn.
    split; [apply sends_quiet; reflexivity | intros; lia]. }
  intros pc. apply (within_bind 0 0 (p + 1) (p + 1) (p + 1)).
  { apply within_lift, progress_update_sends. }
  intros _. apply within_lift, sends_pure. intros w r w' [= _ <-]. reflexivity.
Qed.

Lemma within_monitor_rate_limit (p : Z) : within 4 p p (monitor_rate_limit github_client).
Proof.
  intros fr r fr' Hp. unfold monitor_rate_limit, try_except, bind. unfold lift at 1.
  destruct (get_rate_limit_info github_client (world fr)) as [[info | e] w1] eqn:Eg;
    apply get_rate_limit_info_sends in Eg.
  - unfold int_of_str. destruct (py_int (remaining info)); cbn; intros [= <- <-]; cbn;
      (split; [exact Eg | intros; exact Hp]).
  - cbn. intros [= <- <-]. cbn. split; [exact Eg | intros; exact Hp].
Qed.

Lemma within_adaptive_delay (pc p : Z) :
  within (if Z.eqb (pc mod 5) 0 then 4 else 0) p p (adaptive_delay github_client pc).
Proof.
  intros fr r fr' Hp E.
  destruct (adaptive_delay_effect github_client pc fr) as (fr1 & Hrun & Hpc & _ & Hw).
  rewrite Hrun in E. injection E as <- <-.
  split; [| intros; lia].
  destruct (Z.eqb (pc mod 5) 0).
  - destruct (get_rate_limit_info github_client (world fr)) as [poll w1] eqn:Eg.
    apply get_rate_limit_info_sends in Eg as (sent & Es & Hl).
    exists sent. rewrite Hw. split; [exact Es | exact Hl].
  - rewrite Hw. apply sends_quiet. reflexivity.
Qed.

Lemma within_try_repo (sid : Z) (repo : Repo) (p : Z) :
  within (turn_budget (p + 1)) p (p + 1) (try_repo github_client sid repo).
Proof.
  unfold try_repo. cbv zeta.
  apply (within_weaken
           (0 + (4 + (0 + ((if Z.eqb ((p + 1) mod 20) 0 then 4 else 0)
                           + (if Z.eqb ((p + 1) mod 5) 0 then 4 else 0)))))).
  { unfold turn_budget, polls.
    destruct (Z.eqb ((p + 1) mod 20) 0), (Z.eqb ((p + 1) mod 5) 0); lia. }
  apply (within_bind _ _ p p); [apply within_lift, progress_update_sends |].
  intros _. apply (within_bind _ _ p p); [apply within_lift, fetch_sbom_sends |].
  intros sbom_file. apply (within_bind _ _ p (p + 1)).
  { destruct (truthy sbom_file); [| apply within_count_repo].
    apply (within_bind 0 0 p p).
    { apply within_lift, sends_pure. intros w r w' E.
      apply read_json_file_world in E. subst. reflexivity. }
    intros j. apply (within_bind 0 0 p p).
    { apply within_lift, sends_pure. intros w r w'. unfold store_sbom.
      destruct (DatabaseManager.store_sbom _ _ _ _). intros [= _ <-]. reflexivity. }
    intros _. apply within_count_repo. }
  intros _. apply within_gets.
  apply (within_bind _ _ (p + 1) (p + 1)).
  { destruct (Z.eqb ((p + 1) mod 20) 0); [apply within_monitor_rate_limit | apply within_ret]. }
  intros _. apply within_adaptive_delay.
Qed.

(** One turn of the loop sends at most the requests of its budget. *)
Lemma process_repo_sends (sid : Z) (repo : Repo) (fr : Frame) :
  sends_at_most (turn_budget (processed_count fr + 1))
    (world fr) (world (snd (process_repo github_client sid repo fr))).
Proof.
  unfold process_repo, try_except.
  destruct (try_repo github_client sid repo fr) as [[a | e] fr1] eqn:E;
    destruct (within_try_repo sid repo (processed_count fr) fr _ fr1 eq_refl E) as [S1 _].
  - exact S1.
  - cbn [snd].
    destruct (except_repo sid repo e fr1) as [r fr2] eqn:Ee.
    assert (S2 : sends_at_most 0 (world fr1) (world fr2)).
    { revert Ee. unfold except_repo. cbv zeta. intros Ee.
      destruct (within_bind 0 0 (processed_count fr1) (processed_count fr1)
                  (processed_count fr1 + 1)
                  (lift (progress_update sid
                           (append_error ("Error processing " ++ owner_login repo ++ "/"
                                          ++ name repo ++ ": " ++ exn_str e))))
                  (fun _ => count_repo sid)
                  (within_lift 0 _ _ (progress_update_sends sid _))
                  (fun _ => within_count_repo sid _) fr1 r fr2 eq_refl Ee) as [S _].
      exact S. }
    cbn [snd]. eapply sends_weaken; [| eapply sends_trans; eassumption]. lia.
Qed.

Lemma request_budget_step (pc : Z) :
  request_budget (pc + 1) = request_budget pc + Z.of_nat (turn_budget (pc + 1)).
Proof.
  unfold request_budget, turn_budget, polls.
  destruct (Z.eqb_spec ((pc + 1) mod 20) 0) as [E20 | E20];
    destruct (Z.eqb_spec ((pc + 1) mod 5) 0) as [E5 | E5];
    cbv [Nat.add Nat.mul Z.of_nat Pos.of_succ_nat Pos.succ];
    Z.to_euclidean_division_equations; lia.
Qed.

(** The loop from a frame in which the session has its progress entry. *)
Lemma loop_sends (sid : Z) (repos : list Repo) :
  forall (fr : Frame) (p : Progress),
    analysis_progress (world fr) !! sid = Some p ->
    exists fr' p' sent,
      for_each repos (process_repo github_client sid) fr = (Ok tt, fr')
      /\ analysis_progress (world fr') !! sid = Some p'
      /\ requests_sent (world fr') = (requests_sent (world fr) ++ sent)%list
      /\ Z.of_nat (length sent)
         <= request_budget (processed_count fr + Z.of_nat (length repos))
            - request_budget (processed_count fr).
Proof.
  induction repos as [| x repos IH]; intros fr p Hp.
  - exists fr, p, []. cbn. rewrite app_nil_r, Z.add_0_r. repeat split; try assumption. lia.
  - destruct (process_repo_step github_client sid x fr p Hp)
      as (fr1 & errs & Hrun & Hpc & _ & _ & _ & Hprog & _).
    pose proof (process_repo_sends sid x fr) as (s1 & E1 & L1).
    rewrite Hrun in E1. cbn [snd] in E1.
    assert (Hp1 : exists p1, analysis_progress (world fr1) !! sid = Some p1)
      by (rewrite Hprog, lookup_insert_eq; eexists; reflexivity).
    destruct Hp1 as (p1 & Hp1).
    destruct (IH fr1 p1 Hp1) as (fr' & p' & s2 & Hrun' & Hp' & E2 & L2).
    exists fr', p', (s1 ++ s2)%list. cbn [for_each]. unfold bind. rewrite Hrun.
    split; [exact Hrun' |]. split; [exact Hp' |].
    split; [rewrite E2, E1, app_assoc; reflexivity |].
    rewrite length_app. cbn [length]. rewrite Hpc in L2.
    pose proof (request_budget_step (processed_count fr)) as Hstep.
    replace (processed_count fr + Z.of_nat (S (length repos)))
      with (processed_count fr + 1 + Z.of_nat (length repos)) by lia.
    lia.
Qed.

(** X21. The thread of a scan of [n] repositories sends at most
    [4 * n + 4 * (n / 5) + 4 * (n / 20)] requests, whatever the forge
    answers: a request is sent at most four times, one document is fetched
    for each repository, the rate limit is polled once at every fifth
    repository and once more at every twentieth. *)
Theorem scan_request_budget (org : string) (repos : list Repo) (sid : Z) (w : World) :
  exists sent,
    requests_sent (snd (analyze_organization github_client org repos sid w))
    = (requests_sent w ++ sent)%list
    /\ Z.of_nat (length sent) <= request_budget (Z.of_nat (length repos)).
Proof.
  unfold analyze_organization, analyze_organization_frame.
  unfold bind at 1. unfold lift at 1, modify at 1. cbn [world processed_count].
  set (frA := {| world := with_analysis_progress _ w; processed_count := 0 |}).
  assert (HpA : analysis_progress (world frA) !! sid
                = Some {| p_status := "processing"; p_processed := 0;
                          p_total := Z.of_nat (length repos);
                          p_current_repo := ""; p_errors := [] |})
    by (unfold frA; cbn; apply lookup_insert_eq).
  destruct (loop_sends sid repos frA _ HpA) as (frB & pB & sent & Hloop & HpB & Es & Hl).
  unfold bind at 1. rewrite Hloop.
  unfold bind at 1. unfold lift at 1, progress_update at 1. rewrite HpB.
  cbn [world processed_count].
  unfold bind, gets, lift, update_analysis_session, modify. cbn.
  exists sent. split; [exact Es |].
  unfold frA in Hl. cbn [processed_count] in Hl.
  replace (request_budget 0) with 0 in Hl by reflexivity.
  rewrite Z.add_0_l, Z.sub_0_r in Hl. exact Hl.
Qed.

End BudgetFacts.

(** ** The pacing of a repository that raised nothing *)

Section PacingFacts.
Context {rt : Runtime}.
Variable github_client : GitHubClient.Client.
Import GitHubClient Effects ScanState Pacing Footprint Budget App Paced.

(** The [try] block is [until_counted] followed by the monitoring and the
    delay. *)
Lemma try_repo_split (sid : Z) (repo : Repo) (fr : Frame) :
  try_repo github_client sid repo fr
  = (exec until_counted github_client sid repo;
     do pc <- gets processed_count;
     exec (if Z.eqb (pc mod 20) 0 then monitor_rate_limit github_client else ret tt);
     adaptive_delay github_client pc) fr.
Proof.
  unfold try_repo, until_counted. cbv zeta. unfold bind.
  destruct (lift (progress_update sid
                    (set_current_repo (owner_login repo ++ "/" ++ name repo))) fr)
    as [[u | e] fr1]; [| reflexivity].
  destruct (lift (fetch_sbom github_client (owner_login repo) (name repo)) fr1)
    as [[file | e] fr2]; [| reflexivity].
  destruct (truthy file).
  - destruct (lift (read_json_file (default "" file)) fr2) as [[content | e] fr3];
      [| reflexivity].
    destruct (lift (store_sbom (owner_login repo ++ "/" ++ name repo) content) fr3)
      as [[b | e] fr4]; [| reflexivity].
    destruct (count_repo sid fr4) as [[u' | e] fr5]; reflexivity.
  - destruct (count_repo sid fr2) as [[u' | e] fr3]; reflexivity.
Qed.

Lemma until_counted_within (sid : Z) (repo : Repo) (p : Z) :
  within 4 p (p + 1) (until_counted github_client sid repo).
Proof.
  unfold until_counted. cbv zeta.
  apply (within_bind 0 4 p p); [apply within_lift, progress_update_sends |].
  intros _. apply (within_bind 4 0 p p); [apply within_lift, fetch_sbom_sends |].
  intros sbom_file.
  destruct (truthy sbom_file); [| apply within_count_repo].
  apply (within_bind 0 0 p p).
  { apply within_lift, sends_pure. intros w r w' E.
    apply read_json_file_world in E. subst. reflexivity. }
  intros j. apply (within_bind 0 0 p p).
  { apply within_lift, sends_pure. intros w r w'. unfold store_sbom.
    destruct (DatabaseManager.store_sbom _ _ _ _). intros [= _ <-]. reflexivity. }
  intros _. apply within_count_repo.
Qed.

(** The monitoring polls the rate limit and does nothing else. *)
Lemma monitor_rate_limit_world (fr : Frame) :
  monitor_rate_limit github_client fr
  = (Ok tt, {| world := snd (get_rate_limit_info github_client (world fr));
               processed_count := processed_count fr |}).
Proof.
  unfold monitor_rate_limit, try_except, bind. unfold lift at 1.
  destruct (get_rate_limit_info github_client (world fr)) as [[info | e] w1]; cbn [snd].
  - unfold int_of_str. destruct (py_int (remaining info)); reflexivity.
  - reflexivity.
Qed.

Lemma multiple_of_20_of_5 (pc : Z) : Z.eqb (pc mod 20) 0 = true -> Z.eqb (pc mod 5) 0 = true.
Proof.
  intros H. apply Z.eqb_eq in H. apply Z.eqb_eq.
  Z.to_euclidean_division_equations. lia.
Qed.

(** X22. When the [try] block of a repository ends without an exception,
    it has counted the repository and then done this and nothing else: with
    the processed count (this repository included) a multiple of 20, it has
    polled the rate limit for monitoring; with the count a multiple of 5, it
    has polled the rate limit and slept 2 when the poll reported a remaining
    quota of at most 20, and 0.5 otherwise (also when the poll raised or
    reported no number); with any other count it has slept 0.1 and polled
    nothing. *)
Theorem pacing_after_counted_repository (sid : Z) (repo : Repo) (fr fr' : Frame) :
  try_repo github_client sid repo fr = (Ok tt, fr') ->
  exists frd,
    until_counted github_client sid repo fr = (Ok tt, frd)
    /\ processed_count frd = processed_count fr + 1
    /\ processed_count fr' = processed_count fr + 1
    /\ (let pc := processed_count fr + 1 in
        let monitored := if Z.eqb (pc mod 20) 0
                         then snd (get_rate_limit_info github_client (world frd))
                         else world frd in
        if Z.eqb (pc mod 5) 0 then
          let '(poll, w1) := get_rate_limit_info github_client monitored in
          world fr'
          = after_sleep (match observed_remaining poll with
                         | Some n => if Z.leb n 20 then 2 else 1 # 2
                         | None => 1 # 2
                         end) w1
        else world fr' = after_sleep (1 # 10) (world frd)).
Proof.
  intros Ht. rewrite try_repo_split in Ht. unfold bind at 1 in Ht.
  destruct (until_counted github_client sid repo fr) as [[[] | e] frd] eqn:Ec;
    [| discriminate].
  destruct (until_counted_within sid repo (processed_count fr) fr _ frd eq_refl Ec)
    as [_ Hpc].
  specialize (Hpc tt eq_refl).
  exists frd. split; [reflexivity |]. split; [exact Hpc |].
  unfold bind at 1 in Ht. unfold gets at 1 in Ht. rewrite Hpc in Ht.
  cbv zeta. set (pc := processed_count fr + 1) in *.
  unfold bind at 1 in Ht.
  destruct (Z.eqb (pc mod 20) 0) eqn:E20.
  - rewrite monitor_rate_limit_world in Ht.
    set (frm := {| world := snd (get_rate_limit_info github_client (world frd));
                   processed_count := processed_count frd |}) in Ht.
    destruct (adaptive_delay_effect github_client pc frm) as (fr'' & Hd & D1 & _ & D3).
    rewrite Hd in Ht. injection Ht as <-.
    split; [rewrite D1; exact Hpc |].
    rewrite (multiple_of_20_of_5 pc E20) in D3 |- *. exact D3.
  - unfold ret in Ht.
    destruct (adaptive_delay_effect github_client pc frd) as (fr'' & Hd & D1 & _ & D3).
    rewrite Hd in Ht. injection Ht as <-.
    split; [rewrite D1; exact Hpc |]. exact D3.
Qed.

End PacingFacts.


(** * The program on concrete inputs *)

Section Concrete.
#[local] Existing Instance Reference.runtime.
Import DatabaseManager SBOMProcessor Matching Absent Examples.
Import GitHubClient Effects ClientExamples.
Import ScanState Pacing Loop App ScanExamples.

(** C2 as stated fails: two identities that each occur once come back with
    equal counts, so the counts are not strictly descending. *)
Lemma top_dependencies_not_strict :
  exists res, get_top_dependencies 10 tie_db = Ok res
              /\ map snd res = [1; 1]
              /\ ~ StronglySorted count_strictly_desc res.
Proof.
  eexists. split; [reflexivity |]. split; [reflexivity |].
  intros H. inversion H as [| a l _ Hf]; subst.
  inversion Hf as [| b l' Hlt _]; subst.
  unfold count_strictly_desc in Hlt. simpl in Hlt. lia.
Qed.

(** A negative limit does not limit. *)
Example top_dependencies_negative_limit :
  exists res, get_top_dependencies (-1) tie_db = Ok res /\ length res = 2%nat.
Proof. eexists. split; reflexivity. Qed.

(** The filter ignores letter case: an identity that does not contain
    [githubaction] as written is left out all the same. *)
Example top_dependencies_case_insensitive :
  get_top_dependencies 10 case_db = Ok [(SText "SPDXRef-npm-left-pad", 1)].
Proof. reflexivity. Qed.

Lemma get_top_dependencies_spec_witness :
  get_top_dependencies 10 missing_db = Ok [(SText "A", 2); (SText "B", 1)]
  /\ (0 <= 10 -> Z.of_nat (length [(SText "A", 2); (SText "B", 1)]) <= 10)
  /\ StronglySorted count_desc [(SText "A", 2); (SText "B", 1)].
Proof.
  split; [reflexivity |].
  pose proof (get_top_dependencies_spec 10 missing_db [(SText "A", 2); (SText "B", 1)] eq_refl)
    as (H1 & H2 & _).
  split; [exact H1 | exact H2].
Defined.

(** C8 as stated fails: a document whose [packages] is an object, not an
    array, contributes the members of the object as package rows. *)
Lemma malformed_packages_contribute :
  get_top_dependencies 10 object_db = Ok [(SText "X", 1)]
  /\ get_dependency_stats object_db
     = Ok {| unique_dependencies := 1; total_occurrences := 1; sbom_count := 1 |}.
Proof. split; reflexivity. Qed.

(** A document whose [packages] is a string that is not JSON text makes
    every query raise. *)
Example malformed_packages_raise :
  get_top_dependencies 10 string_db = Raised (OperationalError "malformed JSON")
  /\ get_dependency_stats string_db = Raised (OperationalError "malformed JSON")
  /\ get_dependencies_by_repo "acme/odd" string_db = Raised (OperationalError "malformed JSON").
Proof. repeat split; reflexivity. Qed.

Lemma absent_packages_contribute_nothing_witness :
  let row := {| sbom_id := 2; source_repo := "acme/num";
                json_content := doc (JNum 5); sbom_created_at := 0 |} in
  packages_absent (json_content row) = true
  /\ get_dependency_stats missing_db
     = Ok {| unique_dependencies := 2; total_occurrences := 3; sbom_count := 3 |}
  /\ forall limit, get_top_dependencies limit missing_db
                   = get_top_dependencies limit
                       (with_sbom (firstn 1 (sbom missing_db) ++ skipn 2 (sbom missing_db))%list
                                  missing_db).
Proof.
  intros row. split; [reflexivity |]. split; [reflexivity |].
  exact (proj1 (absent_packages_contribute_nothing missing_db
                  (firstn 1 (sbom missing_db)) (skipn 2 (sbom missing_db)) row
                  eq_refl eq_refl)).
Defined.

(** C4 as stated fails: the fourth 403 response in a row reports an
    exhausted quota and a reset time in the future like the three before
    it; the client sleeps, but it does not retry and gives [None]. *)
Lemma quota_wait_without_retry :
  requests_get sbom_url exhausted_world
  = (Responded (quota_response (Some "1010")), snd (requests_get sbom_url exhausted_world))
  /\ int_of_float (clock exhausted_world) = 1000
  /\ _make_request client sbom_url 3 exhausted_world
     = (Ok None, after_sleep (inject_Z 12) (snd (requests_get sbom_url exhausted_world)))
  /\ fst (_make_request client sbom_url 0 exhausted_world) = Ok None
  /\ requests_sent (snd (_make_request client sbom_url 0 exhausted_world))
     = [sbom_url; sbom_url; sbom_url; sbom_url]
  /\ slept (snd (_make_request client sbom_url 0 exhausted_world))
     = [inject_Z 12; inject_Z 100; inject_Z 100; inject_Z 100].
Proof. repeat split; reflexivity. Qed.

Lemma quota_exhausted_wait_then_retry_witness :
  let w1 := snd (requests_get sbom_url recovering_world) in
  _make_request client sbom_url 0 recovering_world
  = _make_request client sbom_url 1 (after_sleep (inject_Z 12) w1)
  /\ _make_request client sbom_url 0 no_reset_world
     = (Ok (Some (quota_response None)), snd (requests_get sbom_url no_reset_world)).
Proof.
  intros w1. split.
  - pose proof (quota_exhausted_wait_then_retry client sbom_url 0 recovering_world w1
                  (quota_response (Some "1010")) ltac:(lia) eq_refl eq_refl eq_refl) as [H _].
    exact (proj1 (proj2 (H "1010" 1010 eq_refl ltac:(discriminate) eq_refl eq_refl)) eq_refl).
  - exact (proj2 (quota_exhausted_wait_then_retry client sbom_url 0 no_reset_world
                    (snd (requests_get sbom_url no_reset_world))
                    (quota_response None) ltac:(lia) eq_refl eq_refl eq_refl) eq_refl).
Defined.

Lemma make_request_retries_bounded_witness :
  _make_request client sbom_url 0 dead_world
  = (Ok None, snd (requests_get sbom_url dead_world))
  /\ _make_request client sbom_url 4 exhausted_world = (Ok None, exhausted_world).
Proof.
  destruct (make_request_retries_bounded client sbom_url) as (_ & Hbig & Hfail & _).
  split.
  - exact (Hfail 0 dead_world "connection refused" _ ltac:(lia) eq_refl).
  - exact (Hbig 4 exhausted_world ltac:(lia)).
Defined.

(** C7. In the scan of acme the document request for the third
    repository is answered with status 200 and a body that is not JSON:
    [response.json()] raises in the [try] block, the [except] block counts
    the repository, and no pacing sleep follows, although the count, 1 here
    and 3 in the scan, is not a multiple of 5.  A repository without a
    document (the [else] branch of the [try] block) is followed by the
    sleep of 0.1 at the same count; the scan of the three repositories
    sleeps twice. *)
Lemma no_pacing_delay_after_exception :
  (exists m, fst (try_repo client 1 broken_repo (frame_at 0)) = Raised (JSONDecodeError m))
  /\ fst (process_repo client 1 broken_repo (frame_at 0)) = Ok tt
  /\ processed_count (snd (process_repo client 1 broken_repo (frame_at 0))) = 1
  /\ slept (world (snd (process_repo client 1 broken_repo (frame_at 0)))) = []
  /\ processed_count (snd (process_repo client 1 gadgets_repo (frame_at 0))) = 1
  /\ slept (world (snd (process_repo client 1 gadgets_repo (frame_at 0)))) = [1 # 10]%Q
  /\ fetch_trace (snd (scan client "acme" acme_world))
     = ["acme/widgets"; "acme/gadgets"; "acme/broken"]
  /\ slept (snd (scan client "acme" acme_world)) = [1 # 10; 1 # 10]%Q.
Proof.
  split; [eexists; vm_compute; reflexivity |].
  repeat split; vm_compute; reflexivity.
Qed.


Lemma processed_repos_monotone_bounded_witness :
  let started := analyze client "acme" acme_world in
  let repos := [widgets_repo; gadgets_repo; broken_repo] in
  started = (Started 1 repos, snd started)
  /\ (let w2 := snd (analyze_organization client "acme" repos 1 (snd started)) in
      let n := length repos in
      let values := (0 :: count_up 0 n ++ [Z.of_nat n])%list in
      exists created snaps,
        DatabaseManager.get_session 1 (db (snd started)) = Some created
        /\ DatabaseManager.total_repos created = Z.of_nat n
        /\ DatabaseManager.processed_repos created = 0
        /\ session_trace w2 = (session_trace acme_world ++ snaps)%list
        /\ map (persisted 1) snaps = map Some values
        /\ Forall (fun snap => option_map DatabaseManager.total_repos
                                 (find (fun r => Z.eqb (DatabaseManager.id r) 1) snap)
                               = Some (Z.of_nat n)) snaps
        /\ StronglySorted Z.le values
        /\ Forall (fun v => v <= Z.of_nat n) values).
Proof.
  intros started repos. split; [vm_compute; reflexivity |].
  apply (processed_repos_monotone_bounded client "acme" acme_world (snd started) 1 repos).
  vm_compute. reflexivity.
Defined.

Lemma only_public_repositories_scanned_witness :
  let started := analyze client "acme" acme_world in
  let repos := [widgets_repo; gadgets_repo; broken_repo] in
  started = (Started 1 repos, snd started)
  /\ exists listing w0 created,
       get_repositories client "acme" acme_world = (Ok (JArr listing), w0)
       /\ rmap decode_repo (List.filter is_public listing) = Ok repos
       /\ Forall (fun repo => visibility repo = "public") repos
       /\ (forall entry repo, In entry listing -> decode_repo entry = Ok repo ->
                              visibility repo <> "public" -> ~ In repo repos)
       /\ DatabaseManager.get_session 1 (db (snd started)) = Some created
       /\ DatabaseManager.total_repos created = Z.of_nat (length repos)
       /\ fetch_trace (snd started) = fetch_trace acme_world
       /\ fetch_trace (snd (analyze_organization client "acme" repos 1 (snd started)))
          = (fetch_trace acme_world ++ map full_name repos)%list.
Proof.
  intros started repos. split; [vm_compute; reflexivity |].
  apply (only_public_repositories_scanned client "acme" acme_world (snd started) 1 repos).
  vm_compute. reflexivity.
Defined.

(** The scenario of three public repositories: one document is stored, one
    is absent, one fetch raises; the scan ends completed with all three
    counted and one error. *)
Example acme_scan :
  fst (scan client "acme" acme_world) = Some (Ok tt)
  /\ (exists m,
        analysis_progress (snd (scan client "acme" acme_world)) !! 1
        = Some {| p_status := "completed"; p_processed := 3; p_total := 3;
                  p_current_repo := "acme/broken";
                  p_errors := [error_msg broken_repo (JSONDecodeError m)] |})
  /\ map source_repo (sbom (db (snd (scan client "acme" acme_world)))) = ["acme/widgets"].
Proof.
  split; [vm_compute; reflexivity |].
  split; [eexists; vm_compute; reflexivity | vm_compute; reflexivity].
Qed.

Lemma update_analysis_session_frame_witness :
  let d := snd (DatabaseManager.create_analysis_session "acme" 3 1000 init_database) in
  "processing" <> "completed"
  /\ map completed_at (analysis_sessions (DatabaseManager.update_analysis_session 1 2 "processing" 1005 d))
     = map completed_at (analysis_sessions d).
Proof.
  intros d. split; [discriminate |].
  exact (proj1 (proj2 (update_analysis_session_frame 1 2 "processing" 1005 d))
           ltac:(discriminate)).
Defined.

End Concrete.

(** * The other properties on concrete inputs *)

Section ConcreteStore.
#[local] Existing Instance Reference.runtime.
Import DatabaseManager SBOMProcessor Examples StoreQueries History MoreExamples.

Lemma ranking_within_statistics_witness :
  let stats := {| unique_dependencies := 2; total_occurrences := 3; sbom_count := 3 |} in
  let top := [(SText "A", 2); (SText "B", 1)] in
  get_dependency_stats missing_db = Ok stats
  /\ get_top_dependencies 10 missing_db = Ok top
  /\ (0 <= unique_dependencies stats <= total_occurrences stats
      /\ Z.of_nat (length top) <= unique_dependencies stats
      /\ Forall (fun kn => 1 <= snd kn) top
      /\ sum_counts top <= total_occurrences stats
      /\ sbom_count stats = get_sbom_count missing_db).
Proof.
  intros stats top. split; [reflexivity |]. split; [reflexivity |].
  exact (ranking_within_statistics 10 missing_db stats top eq_refl eq_refl).
Defined.

Lemma dependencies_by_repo_add_up_witness :
  let stats := {| unique_dependencies := 3; total_occurrences := 4; sbom_count := 2 |} in
  get_dependency_stats (after acme_history) = Ok stats
  /\ get_repositories_with_sbom (after acme_history) = ["acme/gadgets"; "acme/widgets"]
  /\ exists pages : list (list Dependency),
       Forall2 (fun k deps => get_dependencies_by_repo k (after acme_history) = Ok deps)
               (get_repositories_with_sbom (after acme_history)) pages
       /\ Z.of_nat (length (concat pages)) = total_occurrences stats
       /\ Forall (Forall (fun dep => package_name dep <> SNull)) pages.
Proof.
  intros stats. split; [reflexivity |]. split; [reflexivity |].
  exact (proj1 (dependencies_by_repo_add_up acme_history stats eq_refl)).
Defined.

End ConcreteStore.

Section ConcreteScan.
#[local] Existing Instance Reference.runtime.
Import GitHubClient Observe Effects ClientExamples ScanState Pacing Footprint Served Loop App
       ScanExamples Pages Paced.

Lemma served_document_is_stored_witness :
  let repos := [widgets_repo; gadgets_repo; broken_repo] in
  let r := ok_response widgets_sbom in
  In widgets_repo repos
  /\ (forall k, forge acme_world (sbom_url_of widgets_repo) k = Responded r)
  /\ serves r widgets_sbom
  /\ (forall files,
        py_open_error files (sbom_filename (owner_login widgets_repo) (name widgets_repo))
        = None)
  /\ stored_under (full_name widgets_repo)
       (db (snd (analyze_organization client "acme" repos 1 acme_world)))
     = [(full_name widgets_repo, widgets_sbom)].
Proof.
  intros repos r.
  assert (H1 : In widgets_repo repos) by (left; reflexivity).
  assert (H2 : forall k, forge acme_world (sbom_url_of widgets_repo) k = Responded r)
    by (intros k; vm_compute; reflexivity).
  assert (H3 : serves r widgets_sbom) by (repeat split; vm_compute; reflexivity).
  assert (H4 : forall files,
             py_open_error files
               (sbom_filename (owner_login widgets_repo) (name widgets_repo)) = None)
    by (intros files; reflexivity).
  split; [exact H1 |]. split; [exact H2 |]. split; [exact H3 |]. split; [exact H4 |].
  exact (served_document_is_stored client "acme" repos 1 acme_world widgets_repo r
           widgets_sbom H1 H2 H3 H4).
Defined.

Lemma api_progress_after_scan_witness :
  let started := analyze client "acme" acme_world in
  let repos := [widgets_repo; gadgets_repo; broken_repo] in
  started = (Started 1 repos, snd started)
  /\ (let n := Z.of_nat (length repos) in
      let w2 := snd (analyze_organization client "acme" repos 1 (snd started)) in
      (exists current errors,
          api_progress 1 (snd started)
          = Some {| report_org_name := "acme"; report_total_repos := n;
                    report_processed_repos := 0; report_status := "pending";
                    report_current_repo := current; report_errors := errors |})
      /\ (exists errors,
             (length errors <= length repos)%nat
             /\ api_progress 1 w2
                = Some {| report_org_name := "acme"; report_total_repos := n;
                          report_processed_repos := n; report_status := "completed";
                          report_current_repo := List.last (map full_name repos) "";
                          report_errors := errors |})).
Proof.
  intros started repos. split; [vm_compute; reflexivity |].
  apply (api_progress_after_scan client "acme" acme_world (snd started) 1 repos).
  vm_compute. reflexivity.
Defined.

Lemma pacing_after_counted_repository_witness :
  (try_repo client 1 widgets_repo (frame_at 4)
   = (Ok tt, snd (try_repo client 1 widgets_repo (frame_at 4)))
   /\ slept (world (snd (try_repo client 1 widgets_repo (frame_at 4)))) = [2%Q])
  /\ exists frd,
       until_counted client 1 widgets_repo (frame_at 4) = (Ok tt, frd)
       /\ processed_count frd = processed_count (frame_at 4) + 1
       /\ processed_count (snd (try_repo client 1 widgets_repo (frame_at 4)))
          = processed_count (frame_at 4) + 1
       /\ (let pc := processed_count (frame_at 4) + 1 in
           let monitored := if Z.eqb (pc mod 20) 0
                            then snd (get_rate_limit_info client (world frd))
                            else world frd in
           if Z.eqb (pc mod 5) 0 then
             let '(poll, w1) := get_rate_limit_info client monitored in
             world (snd (try_repo client 1 widgets_repo (frame_at 4)))
             = after_sleep (match observed_remaining poll with
                            | Some n => if Z.leb n 20 then 2 else 1 # 2
                            | None => 1 # 2
                            end) w1
           else world (snd (try_repo client 1 widgets_repo (frame_at 4)))
                = after_sleep (1 # 10) (world frd)).
Proof.
  split; [split; vm_compute; reflexivity |].
  apply (pacing_after_counted_repository client 1 widgets_repo (frame_at 4)).
  vm_compute. reflexivity.
Defined.

(** An organization that the forge does not know: the answer 404 gives
    the message for a failed request, not the message for an organization
    that was not found. *)
Example unknown_organization_message :
  fst (get_repositories client "nobody" acme_world)
  = Raised (Exception "Failed to fetch repositories. Consider setting a GitHub token for higher rate limits.").
Proof. vm_compute. reflexivity. Qed.

(** The progress report of the scan of acme. *)
Example acme_progress_report :
  exists m,
    api_progress 1 (snd (scan client "acme" acme_world))
    = Some {| report_org_name := "acme"; report_total_repos := 3;
              report_processed_repos := 3; report_status := "completed";
              report_current_repo := "acme/broken";
              report_errors := [error_msg broken_repo (JSONDecodeError m)] |}.
Proof. eexists. vm_compute. reflexivity. Qed.

End ConcreteScan.

Section ConcreteReport.
#[local] Existing Instance Reference.runtime.
Import DatabaseManager SBOMProcessor Examples Report MoreExamples.

(** The message of [/export/html] on a store with documents, whatever the
    interpreter does with the fields the model leaves to it. *)
Example export_html_message
  (other : list (string * Z) -> string -> option ascii -> string -> Result string) :
  @export_html Reference.runtime {| py_repr_str := quoted; py_format_field := other |}
    tie_db ∅
  = (Ok ("error", "Error generating HTML report: ' font-family'"), ∅).
Proof.
  unfold export_html, try_except. unfold bind at 1. unfold of_result at 1.
  destruct (get_top_dependencies 100 tie_db) as [top | e] eqn:E;
    [| vm_compute in E; discriminate].
  cbv zeta. unfold bind at 1. rewrite generate_html_report_run. reflexivity.
Qed.

End ConcreteReport.
